(** * Apex test runner: log analyzer, section extractor and command-line client

    A shallow embedding of [LogAnalyzerHandler.analyzeApexLog] and
    [LogAnalyzerHandler.escapeHtml] (src/logAnalyzerHandler.ts), of
    [ApexTestRunner.filterLogsForMethod] and of what [ApexTestRunner.runApexTest]
    and [handleTestError] compute around the command-line call
    (src/extension.ts), and of the checks of [SalesforceClient] before its
    calls of the command line, with the properties of the specification and
    further properties of the code stated about them.

    Conventions of the embedding.
    - A JavaScript string is a [string]: a sequence of code units, here the
      8-bit ones.  The white space of [trim] and of the class [\s] is the part
      of ECMAScript's WhiteSpace and LineTerminator sets below 256.
    - A JavaScript number is a binary64 value, [spec_float] with precision 53
      and maximal exponent 1024; arithmetic is the one of [SpecFloat].
    - Arrays are lists, [push] appends at the end; a [Map] is an association
      list in insertion order, which is the order [forEach] visits.
    - An optional field or an [undefined] value is an [option].
    - Of an asynchronous method that runs a command, the part before the
      command is embedded: its result is the argument vector of the command,
      or the message of the [Error] it throws instead. *)

From Stdlib Require Import String Ascii List ZArith Lia Bool SpecFloat Permutation.
From Stdlib Require Import DecimalString.
Import ListNotations.

Local Open Scope list_scope.
Local Open Scope string_scope.

(* ================================================================= *)
(** * The JavaScript built-ins the two functions use *)

Module JS.

(** ** Strings *)

Definition isWhiteSpace (c : ascii) : bool :=
  let n := nat_of_ascii c in
  (((9 <=? n) && (n <=? 13)) || (n =? 32) || (n =? 160))%nat.

Definition isDigit (c : ascii) : bool :=
  let n := nat_of_ascii c in ((48 <=? n) && (n <=? 57))%nat.

Definition isUpper (c : ascii) : bool :=
  let n := nat_of_ascii c in ((65 <=? n) && (n <=? 90))%nat.

Definition isLower (c : ascii) : bool :=
  let n := nat_of_ascii c in ((97 <=? n) && (n <=? 122))%nat.

Definition newline : ascii := ascii_of_nat 10.
Definition backslash : ascii := ascii_of_nat 92.

(** The one-character string ['\n'] and the two-character escape [\\n]. *)
Definition NL : string := String newline "".
Definition escapedNL : string := String backslash "n".

Fixpoint trimStart (s : string) : string :=
  match s with
  | String c s' => if isWhiteSpace c then trimStart s' else s
  | EmptyString => EmptyString
  end.

Fixpoint trimEnd (s : string) : string :=
  match s with
  | String c s' =>
      match trimEnd s' with
      | EmptyString => if isWhiteSpace c then EmptyString else String c EmptyString
      | t => String c t
      end
  | EmptyString => EmptyString
  end.

Definition trim (s : string) : string := trimEnd (trimStart s).

(** [s.split(sep)] for a one-character separator. *)
Fixpoint split (sep : ascii) (s : string) : list string :=
  match s with
  | EmptyString => [EmptyString]
  | String c s' =>
      if Ascii.eqb c sep then EmptyString :: split sep s'
      else match split sep s' with
           | h :: t => String c h :: t
           | [] => [String c EmptyString]
           end
  end.

(** [parts.join(sep)]. *)
Fixpoint join (sep : string) (parts : list string) : string :=
  match parts with
  | [] => EmptyString
  | [p] => p
  | p :: rest => p ++ sep ++ join sep rest
  end.

(** [parts.slice(n)]. *)
Definition slice {A : Type} (n : nat) (parts : list A) : list A := skipn n parts.

(** [s.startsWith(p)]. *)
Fixpoint startsWith (p s : string) : bool :=
  match p, s with
  | EmptyString, _ => true
  | String a p', String b s' => Ascii.eqb b a && startsWith p' s'
  | String _ _, EmptyString => false
  end.

(** [s.includes(sub)]. *)
Fixpoint includes (sub s : string) : bool :=
  startsWith sub s ||
  match s with
  | String _ s' => includes sub s'
  | EmptyString => false
  end.

(** [s.replace(/\\n/g, '\n')]: every backslash followed by [n] becomes one
    newline, scanning left to right. *)
Fixpoint replaceEscapedNewlines (s : string) : string :=
  match s with
  | EmptyString => EmptyString
  | String c1 s' =>
      match s' with
      | String c2 s'' =>
          if Ascii.eqb c1 backslash && Ascii.eqb c2 "n"%char
          then String newline (replaceEscapedNewlines s'')
          else String c1 (replaceEscapedNewlines s')
      | EmptyString => String c1 EmptyString
      end
  end.

(** [s.slice(n)]: the string without its first [n] characters. *)
Fixpoint dropChars (n : nat) (s : string) : string :=
  match n, s with
  | S n', String _ s' => dropChars n' s'
  | _, _ => s
  end.

(** [s.replace(/^lit/, '')]. *)
Definition stripPrefix (lit s : string) : string :=
  if startsWith lit s then dropChars (String.length lit) s else s.

(** [s.replace(/[^...]/g, '')]: the characters of the class are kept. *)
Fixpoint keepChars (keep : ascii -> bool) (s : string) : string :=
  match s with
  | EmptyString => EmptyString
  | String c s' => if keep c then String c (keepChars keep s') else keepChars keep s'
  end.

Definition lengthZ (s : string) : Z := Z.of_nat (String.length s).

(** ** Regular expressions

    The patterns of the source are written in this syntax and run by a
    backtracking matcher with ECMAScript's order of choices: quantifiers are
    greedy, an alternative tries its left branch first, a search tries the
    start positions from left to right. *)

Inductive regex : Type :=
| RChar (c : ascii)                 (* a literal character *)
| RSet (p : ascii -> bool)          (* a character class *)
| REps                              (* the empty pattern *)
| RBol                              (* ^ *)
| RSeq (r1 r2 : regex)
| RAlt (r1 r2 : regex)
| RStar (r : regex)                 (* r* *)
| RGroup (n : nat) (r : regex).     (* the n-th capturing group *)

Definition RPlus (r : regex) : regex := RSeq r (RStar r).
Definition ROpt (r : regex) : regex := RAlt r REps.

Fixpoint RStr (s : string) : regex :=
  match s with
  | EmptyString => REps
  | String c s' => RSeq (RChar c) (RStr s')
  end.

(** A literal matched under the [i] flag. *)
Definition sameLetter (c d : ascii) : bool :=
  Ascii.eqb c d ||
  (isLower c && (nat_of_ascii d =? nat_of_ascii c - 32)%nat) ||
  (isUpper c && (nat_of_ascii d =? nat_of_ascii c + 32)%nat).

Fixpoint RStrI (s : string) : regex :=
  match s with
  | EmptyString => REps
  | String c s' => RSeq (RSet (sameLetter c)) (RStrI s')
  end.

Definition digit : regex := RSet isDigit.
Definition space : regex := RSet isWhiteSpace.
Definition notChar (c : ascii) : regex := RSet (fun d => negb (Ascii.eqb d c)).

(** The captures of a match: group 0 is the whole match. *)
Definition captures : Type := list (nat * string).

Fixpoint group (n : nat) (caps : captures) : option string :=
  match caps with
  | [] => None
  | (m, s) :: rest => if (m =? n)%nat then Some s else group n rest
  end.

Definition matcherCont : Type := nat -> string -> captures -> option captures.

(** [run r pos s caps k]: match [r] at position [pos], where [s] is the rest of
    the input from there, and continue with [k]; [None] makes the caller
    backtrack.  An iteration of a star that consumes nothing is refused. *)
Fixpoint run (r : regex) (pos : nat) (s : string) (caps : captures)
         (k : matcherCont) {struct r} : option captures :=
  match r with
  | RChar c =>
      match s with
      | String a s' => if Ascii.eqb a c then k (S pos) s' caps else None
      | EmptyString => None
      end
  | RSet p =>
      match s with
      | String a s' => if p a then k (S pos) s' caps else None
      | EmptyString => None
      end
  | REps => k pos s caps
  | RBol => if (pos =? 0)%nat then k pos s caps else None
  | RSeq r1 r2 => run r1 pos s caps (fun pos' s' caps' => run r2 pos' s' caps' k)
  | RAlt r1 r2 =>
      match run r1 pos s caps k with
      | Some res => Some res
      | None => run r2 pos s caps k
      end
  | RStar r1 =>
      (fix iterate (fuel : nat) (pos : nat) (s : string) (caps : captures)
         : option captures :=
         match fuel with
         | O => k pos s caps
         | S fuel' =>
             match run r1 pos s caps
                     (fun pos' s' caps' =>
                        if (pos <? pos')%nat then iterate fuel' pos' s' caps'
                        else None) with
             | Some res => Some res
             | None => k pos s caps
             end
         end) (String.length s) pos s caps
  | RGroup n r1 =>
      run r1 pos s caps
          (fun pos' s' caps' => k pos' s' ((n, substring 0 (pos' - pos) s) :: caps'))
  end.

Definition matchAt (r : regex) (pos : nat) (s : string) : option captures :=
  run r pos s [] (fun pos' _ caps => Some ((0, substring 0 (pos' - pos) s) :: caps)).

Fixpoint search (r : regex) (pos : nat) (s : string) : option captures :=
  match matchAt r pos s with
  | Some caps => Some caps
  | None =>
      match s with
      | String _ s' => search r (S pos) s'
      | EmptyString => None
      end
  end.

(** [s.match(r)] for a pattern without the [g] flag. *)
Definition match_ (r : regex) (s : string) : option captures := search r 0 s.

Definition test (r : regex) (s : string) : bool :=
  match match_ r s with Some _ => true | None => false end.

(** The capture [m[n]] of a successful match; a group that did not take part
    is [undefined]. *)
Definition capture (n : nat) (caps : captures) : string :=
  match group n caps with Some s => s | None => EmptyString end.

(** ** Numbers *)

Definition number : Type := spec_float.

Definition prec : Z := 53.
Definition emax : Z := 1024.

Definition NaN : number := S754_nan.
Definition ofZ (z : Z) : number := binary_normalize prec emax z 0 false.
Definition zero : number := S754_zero false.
Definition one : number := ofZ 1.

Definition add (x y : number) : number := SFadd prec emax x y.
Definition sub (x y : number) : number := SFsub prec emax x y.
Definition mul (x y : number) : number := SFmul prec emax x y.
Definition div (x y : number) : number := SFdiv prec emax x y.
(** [x > y] *)
Definition gt (x y : number) : bool := SFltb y x.
Definition isNaN (x : number) : bool :=
  match x with S754_nan => true | _ => false end.

(** The binary64 value nearest to [num / den] (ties to even), for [0 <= num]
    and [0 < den]: the quotient is taken with some sixty bits and a sticky
    bit, then rounded once. *)
Definition roundRatio (neg : bool) (num den : Z) : number :=
  if (num =? 0)%Z then S754_zero neg
  else
    let sh := Z.max 0 (Z.log2 den + 64 - Z.log2 num) in
    let scaled := (num * 2 ^ sh)%Z in
    let q := (scaled / den)%Z in
    let sticky := if (scaled mod den =? 0)%Z then 0%Z else 1%Z in
    binary_normalize prec emax (cond_Zopp neg (2 * q + sticky)) (- sh - 1) false.

(** [Math.round]: the integer nearest to [x], a half rounding up. *)
Definition Math_round (x : number) : number :=
  match x with
  | S754_finite s m e =>
      if (0 <=? e)%Z then x
      else
        let v := if s then Zneg m else Zpos m in
        let n := ((2 * v + 2 ^ (- e)) / 2 ^ (1 - e))%Z in
        if (n =? 0)%Z then S754_zero s else ofZ n
  | _ => x
  end.

Definition digitValue (c : ascii) : option Z :=
  if isDigit c then Some (Z.of_nat (nat_of_ascii c) - 48)%Z else None.

Definition hexDigitValue (c : ascii) : option Z :=
  let n := Z.of_nat (nat_of_ascii c) in
  if isDigit c then Some (n - 48)%Z
  else if ((97 <=? n) && (n <=? 102))%Z then Some (n - 87)%Z
  else if ((65 <=? n) && (n <=? 70))%Z then Some (n - 55)%Z
  else None.

(** The longest prefix of digits in the given radix: its value, the number
    of digits read, and the rest of the string. *)
Fixpoint readDigits (radix : Z) (valueOf : ascii -> option Z) (s : string)
         (acc : Z) (count : nat) : Z * nat * string :=
  match s with
  | String c s' =>
      match valueOf c with
      | Some d => readDigits radix valueOf s' (acc * radix + d)%Z (S count)
      | None => (acc, count, s)
      end
  | EmptyString => (acc, count, s)
  end.

Definition readSign (s : string) : bool * string :=
  match s with
  | String "-"%char s' => (true, s')
  | String "+"%char s' => (false, s')
  | _ => (false, s)
  end.

(** [parseInt(s)] without a radix argument. *)
Definition parseInt (s : string) : number :=
  let (neg, s1) := readSign (trimStart s) in
  let '(v, count, _) :=
    if startsWith "0x" s1 || startsWith "0X" s1
    then readDigits 16 hexDigitValue (substring 2 (String.length s1) s1) 0 0
    else readDigits 10 digitValue s1 0 0 in
  match count with
  | O => NaN
  | S _ => if (v =? 0)%Z then S754_zero neg else ofZ (cond_Zopp neg v)
  end.

(** The exponent part of a decimal literal, when one can be read. *)
Definition readExponent (s : string) : Z :=
  match s with
  | String c s' =>
      if Ascii.eqb c "e" || Ascii.eqb c "E" then
        let (neg, s1) := readSign s' in
        let '(v, count, _) := readDigits 10 digitValue s1 0 0 in
        match count with O => 0%Z | S _ => cond_Zopp neg v end
      else 0%Z
  | EmptyString => 0%Z
  end.

(** [parseFloat(s)]: the longest prefix of [s], after leading white space,
    that is a decimal literal; [NaN] when there is none. *)
Definition parseFloat (s : string) : number :=
  let (neg, s1) := readSign (trimStart s) in
  if startsWith "Infinity" s1 then S754_infinity neg
  else
    let '(ip, icount, s2) := readDigits 10 digitValue s1 0 0 in
    let '(m, fcount, s3) :=
      match s2 with
      | String "."%char s2' =>
          let '(m, fcount, s3) := readDigits 10 digitValue s2' ip 0 in
          match icount, fcount with
          | O, O => (ip, O, s2)
          | _, _ => (m, fcount, s3)
          end
      | _ => (ip, O, s2)
      end in
    match icount, fcount with
    | O, O => NaN
    | _, _ =>
        let e10 := (readExponent s3 - Z.of_nat fcount)%Z in
        if (0 <=? e10)%Z then roundRatio neg (m * 10 ^ e10) 1
        else roundRatio neg m (10 ^ (- e10))
    end.

(** *** Number to string

    [Number::toString] in radix 10: the shortest digit string that reads back
    as the same binary64 value, laid out as ECMAScript prescribes. *)

Definition decimal (z : Z) : string := NilZero.string_of_int (Z.to_int z).

Fixpoint zeros (n : nat) : string :=
  match n with O => EmptyString | S n' => String "0" (zeros n') end.

(** The least [t] from [t0] on with [1 <= v * 10^t], for [v = vn / vd]. *)
Fixpoint scaleUp (fuel : nat) (vn vd : Z) (t : Z) : Z :=
  match fuel with
  | O => t
  | S fuel' => if (vd <=? vn * 10 ^ t)%Z then t else scaleUp fuel' vn vd (t + 1)
  end.

(** The [n] with [10^(n-1) <= v < 10^n]. *)
Definition magnitude (vn vd : Z) : Z :=
  if (vd <=? vn)%Z then Z.of_nat (String.length (decimal (vn / vd)))
  else (1 - scaleUp 400 vn vd 1)%Z.

(** [s * 10^ex] as a number. *)
Definition ofDecimal (s ex : Z) : number :=
  if (0 <=? ex)%Z then roundRatio false (s * 10 ^ ex) 1
  else roundRatio false s (10 ^ (- ex)).

Definition sameNumber (x y : number) : bool :=
  match x, y with
  | S754_finite s1 m1 e1, S754_finite s2 m2 e2 =>
      Bool.eqb s1 s2 && Pos.eqb m1 m2 && Z.eqb e1 e2
  | _, _ => false
  end.

(** The digits [s] and exponent [ex] of the shortest decimal [s * 10^ex]
    that reads back as [x = vn / vd], trying [k = 1, 2, ...] digits. *)
Fixpoint shortest (fuel : nat) (x : number) (vn vd n k : Z) : Z * Z :=
  let ex := (n - k)%Z in
  let lo := if (0 <=? ex)%Z then (vn / (vd * 10 ^ ex))%Z
            else (vn * 10 ^ (- ex) / vd)%Z in
  let hi := (lo + 1)%Z in
  (* twice the distance of [v] to the middle of [lo] and [hi], as a sign *)
  let below := if (0 <=? ex)%Z
               then (2 * vn <? (2 * lo + 1) * 10 ^ ex * vd)%Z
               else (2 * vn * 10 ^ (- ex) <? (2 * lo + 1) * vd)%Z in
  let okLo := sameNumber (ofDecimal lo ex) x in
  let okHi := sameNumber (ofDecimal hi ex) x in
  match fuel with
  | O => (lo, ex)
  | S fuel' =>
      if okLo && (below || negb okHi) then (lo, ex)
      else if okHi then (hi, ex)
      else shortest fuel' x vn vd n (k + 1)
  end.

Fixpoint stripZeros (fuel : nat) (s ex : Z) : Z * Z :=
  match fuel with
  | O => (s, ex)
  | S fuel' =>
      if ((s mod 10 =? 0) && negb (s =? 0))%Z then stripZeros fuel' (s / 10) (ex + 1)
      else (s, ex)
  end.

Definition layout (ds : string) (n : Z) : string :=
  let k := Z.of_nat (String.length ds) in
  if ((k <=? n) && (n <=? 21))%Z then ds ++ zeros (Z.to_nat (n - k))
  else if ((0 <? n) && (n <=? 21))%Z
       then substring 0 (Z.to_nat n) ds ++ "." ++
            substring (Z.to_nat n) (String.length ds) ds
  else if ((-6 <? n) && (n <=? 0))%Z then "0." ++ zeros (Z.to_nat (- n)) ++ ds
  else
    let e := (n - 1)%Z in
    let expo := (if (e <? 0)%Z then "-" else "+") ++ decimal (Z.abs e) in
    match ds with
    | String d EmptyString => String d ("e" ++ expo)
    | String d rest => String d ("." ++ rest ++ "e" ++ expo)
    | EmptyString => EmptyString
    end.

Definition Number_toString (x : number) : string :=
  match x with
  | S754_nan => "NaN"
  | S754_zero _ => "0"
  | S754_infinity s => if s then "-Infinity" else "Infinity"
  | S754_finite s m e =>
      let vn := if (0 <=? e)%Z then (Zpos m * 2 ^ e)%Z else Zpos m in
      let vd := if (0 <=? e)%Z then 1%Z else (2 ^ (- e))%Z in
      let n := magnitude vn vd in
      let '(d, ex) := shortest 17 (S754_finite false m e) vn vd n 1 in
      let '(d', ex') := stripZeros 400 d ex in
      let ds := decimal d' in
      (if s then "-" else "") ++ layout ds (Z.of_nat (String.length ds) + ex')
  end.

(** ** Values and completions *)

(** The values a caller can pass where the signature says [string]. *)
Inductive value : Type :=
| VUndefined
| VNull
| VBoolean (b : bool)
| VNumber (x : number)
| VString (s : string).

Inductive error : Type :=
| TypeError (msg : string).

(** How a call ends: with a result, or with a thrown exception. *)
Inductive completion (A : Type) : Type :=
| Normal (a : A)
| Throw (e : error).

Arguments Normal {A} a.
Arguments Throw {A} e.

(** An optional string argument: absent is [undefined]. *)
Definition optional (o : option string) : value :=
  match o with Some s => VString s | None => VUndefined end.

(** ** More of the string built-ins *)

(** [s.replace(/c/g, by)] for a one-character pattern; [by] has no [$]. *)
Fixpoint replaceChar (c : ascii) (replacement : string) (s : string) : string :=
  match s with
  | EmptyString => EmptyString
  | String d s' =>
      if Ascii.eqb d c then replacement ++ replaceChar c replacement s'
      else String d (replaceChar c replacement s')
  end.

(** [s.replace(lit, by)] with a string pattern: the first occurrence only. *)
Fixpoint replaceFirst (lit replacement s : string) {struct s} : string :=
  if startsWith lit s then replacement ++ dropChars (String.length lit) s
  else
    match s with
    | EmptyString => EmptyString
    | String c s' => String c (replaceFirst lit replacement s')
    end.

(** [parts.pop()]: the last element, [undefined] on the empty array. *)
Definition pop {A : Type} (parts : list A) : option A :=
  match rev parts with
  | [] => None
  | x :: _ => Some x
  end.

(** Every character of [s] is in the class [p]. *)
Fixpoint everyChar (p : ascii -> bool) (s : string) : bool :=
  match s with
  | EmptyString => true
  | String c s' => p c && everyChar p s'
  end.

(** How the synchronous part of a call ends: it goes on with a value, or
    with [throw new Error(message)]. *)
Inductive outcome (A : Type) : Type :=
| Proceeds (a : A)
| ThrowsError (message : string).

Arguments Proceeds {A} a.
Arguments ThrowsError {A} message.

End JS.

Import JS.

(* ================================================================= *)
(** * The log analyzer (src/logAnalyzerHandler.ts) *)

Module LogAnalyzerHandler.

(** ** The analysis result, [interface LogAnalysis] *)

Record Summary : Type := mkSummary {
  totalTimeMs : number;
  dbTimeMs : number;
  heapSize : number;
  numDmlStatements : number;
  numSoqlQueries : number;
  numDatabaseCalls : number
}.

Record DebugLine : Type := mkDebugLine {
  lineNumber : number;
  message : string;
  timestamp : string
}.

Record TimelineEvent : Type := mkEvent {
  event : string;
  timeMs : number;
  details : option string
}.

Record ErrorRecord : Type := mkError {
  errorMessage : string;
  errorLineNumber : option number;
  columnNumber : option number;
  stackTrace : option string
}.

Record LimitUsage : Type := mkLimit {
  name : string;
  used : number;
  total : number;
  percentage : number
}.

Record GovernorLimit : Type := mkGovernorLimit {
  governorName : string;
  usage : number;
  governorTotal : number
}.

Record MethodCall : Type := mkMethodCall {
  methodName : string;
  methodTotalTimeMs : number;
  selfTimeMs : number;
  calls : number;
  parent : option string;
  children : option (list string)
}.

Record CodeCoverage : Type := mkCoverage {
  coveragePercentage : number;
  linesCovered : number;
  linesTotal : number;
  uncoveredLines : list number
}.

Record LogAnalysis : Type := mkAnalysis {
  summary : Summary;
  debugLines : list DebugLine;
  timeline : list TimelineEvent;
  errors : list ErrorRecord;
  limits : list LimitUsage;
  governorLimits : list GovernorLimit;
  methodCalls : list MethodCall;
  codeCoverage : option CodeCoverage;
  hasCoverageInfo : bool;
  totalExecutionTimeMs : number
}.

(** Assignments to one field. *)
Definition setSummary (a : LogAnalysis) (s : Summary) : LogAnalysis :=
  mkAnalysis s (debugLines a) (timeline a) (errors a) (limits a)
             (governorLimits a) (methodCalls a) (codeCoverage a)
             (hasCoverageInfo a) (totalExecutionTimeMs a).

Definition setDebugLines (a : LogAnalysis) (d : list DebugLine) : LogAnalysis :=
  mkAnalysis (summary a) d (timeline a) (errors a) (limits a)
             (governorLimits a) (methodCalls a) (codeCoverage a)
             (hasCoverageInfo a) (totalExecutionTimeMs a).

Definition setTimeline (a : LogAnalysis) (t : list TimelineEvent) : LogAnalysis :=
  mkAnalysis (summary a) (debugLines a) t (errors a) (limits a)
             (governorLimits a) (methodCalls a) (codeCoverage a)
             (hasCoverageInfo a) (totalExecutionTimeMs a).

Definition setErrors (a : LogAnalysis) (e : list ErrorRecord) : LogAnalysis :=
  mkAnalysis (summary a) (debugLines a) (timeline a) e (limits a)
             (governorLimits a) (methodCalls a) (codeCoverage a)
             (hasCoverageInfo a) (totalExecutionTimeMs a).

Definition setLimits (a : LogAnalysis) (l : list LimitUsage) : LogAnalysis :=
  mkAnalysis (summary a) (debugLines a) (timeline a) (errors a) l
             (governorLimits a) (methodCalls a) (codeCoverage a)
             (hasCoverageInfo a) (totalExecutionTimeMs a).

Definition setGovernorLimits (a : LogAnalysis) (g : list GovernorLimit) : LogAnalysis :=
  mkAnalysis (summary a) (debugLines a) (timeline a) (errors a) (limits a)
             g (methodCalls a) (codeCoverage a)
             (hasCoverageInfo a) (totalExecutionTimeMs a).

Definition setCodeCoverage (a : LogAnalysis) (c : option CodeCoverage) : LogAnalysis :=
  mkAnalysis (summary a) (debugLines a) (timeline a) (errors a) (limits a)
             (governorLimits a) (methodCalls a) c
             (hasCoverageInfo a) (totalExecutionTimeMs a).

Definition setHasCoverageInfo (a : LogAnalysis) (b : bool) : LogAnalysis :=
  mkAnalysis (summary a) (debugLines a) (timeline a) (errors a) (limits a)
             (governorLimits a) (methodCalls a) (codeCoverage a)
             b (totalExecutionTimeMs a).

Definition setTotalExecutionTimeMs (a : LogAnalysis) (t : number) : LogAnalysis :=
  mkAnalysis (summary a) (debugLines a) (timeline a) (errors a) (limits a)
             (governorLimits a) (methodCalls a) (codeCoverage a)
             (hasCoverageInfo a) t.

(** [analysis.timeline.push(e)] *)
Definition pushTimeline (a : LogAnalysis) (e : TimelineEvent) : LogAnalysis :=
  setTimeline a (timeline a ++ [e])%list.

(** ** The limit map, [Map<string, { used; total }>] *)

Definition LimitMap : Type := list (string * (number * number)).

(** [limitMap.set(key, v)]: a key already present keeps its place. *)
Fixpoint mapSet (key : string) (v : number * number) (m : LimitMap) : LimitMap :=
  match m with
  | [] => [(key, v)]
  | (k, w) :: rest =>
      if String.eqb k key then (k, v) :: rest else (k, w) :: mapSet key v rest
  end.

Fixpoint mapGet (key : string) (m : LimitMap) : option (number * number) :=
  match m with
  | [] => None
  | (k, w) :: rest => if String.eqb k key then Some w else mapGet key rest
  end.

(** ** The patterns of the source *)

(** [/^\d+:\d+:\d+/] *)
Definition timestampPrefix : regex :=
  RSeq RBol (RSeq (RPlus digit) (RSeq (RChar ":") (RSeq (RPlus digit)
       (RSeq (RChar ":") (RPlus digit))))).

(** [/^\d+:\d+:\d+\|[A-Z_]+\|/] *)
Definition eventHeader : regex :=
  RSeq timestampPrefix
       (RSeq (RChar "|")
             (RSeq (RPlus (RSet (fun c => isUpper c || Ascii.eqb c "_")))
                   (RChar "|"))).

(** [/\[(\d+)\]/] *)
Definition bracketedNumber : regex :=
  RSeq (RChar "[") (RSeq (RGroup 1 (RPlus digit)) (RChar "]")).

(** [/line\s+(\d+)(?:,\s*column\s+(\d+))?/i] *)
Definition lineColumn : regex :=
  RSeq (RStrI "line") (RSeq (RPlus space) (RSeq (RGroup 1 (RPlus digit))
       (ROpt (RSeq (RChar ",") (RSeq (RStar space) (RSeq (RStrI "column")
             (RSeq (RPlus space) (RGroup 2 (RPlus digit))))))))).

(** [/Bytes:(\d+)/] *)
Definition bytesPattern : regex := RSeq (RStr "Bytes:") (RGroup 1 (RPlus digit)).

(** [/([^:]+):\s*(\d+)\s*of\s*(\d+)/] *)
Definition limitPattern : regex :=
  RSeq (RGroup 1 (RPlus (notChar ":"))) (RSeq (RChar ":") (RSeq (RStar space)
       (RSeq (RGroup 2 (RPlus digit)) (RSeq (RStar space) (RSeq (RStr "of")
             (RSeq (RStar space) (RGroup 3 (RPlus digit)))))))).

(** [/(\d+)%/] *)
Definition percentPattern : regex := RSeq (RGroup 1 (RPlus digit)) (RChar "%").

(** [/(\d+)\/(\d+)/] *)
Definition ratioPattern : regex :=
  RSeq (RGroup 1 (RPlus digit)) (RSeq (RChar "/") (RGroup 2 (RPlus digit))).

(** [/Lines not covered: ([^\|]+)/] *)
Definition uncoveredPattern : regex :=
  RSeq (RStr "Lines not covered: ") (RGroup 1 (RPlus (notChar "|"))).

(** [/Duration=(\d+)/] *)
Definition durationPattern : regex :=
  RSeq (RStr "Duration=") (RGroup 1 (RPlus digit)).

(** ** The event handlers *)

Definition initializeAnalysis : LogAnalysis :=
  mkAnalysis (mkSummary zero zero zero zero zero zero) [] [] [] [] [] []
             None false zero.

(** [lastDebugLineIndex >= 0 && !line.match(/^\d+:\d+:\d+/)] *)
Definition isPartOfPreviousDebugLine (lastDebugLineIndex : Z) (line : string) : bool :=
  (0 <=? lastDebugLineIndex)%Z && negb (test timestampPrefix line).

Definition isDebugLog (e : TimelineEvent) : bool := String.eqb (event e) "Debug Log".

(** The first element that satisfies [p], rewritten by [f]. *)
Fixpoint updateFirst {A : Type} (p : A -> bool) (f : A -> A) (l : list A) : list A :=
  match l with
  | [] => []
  | x :: rest => if p x then f x :: rest else x :: updateFirst p f rest
  end.

(** The same for the last such element: the loop that runs [j] from
    [timeline.length - 1] down and breaks at the first hit. *)
Definition updateLast {A : Type} (p : A -> bool) (f : A -> A) (l : list A) : list A :=
  rev (updateFirst p f (rev l)).

(** [message.split('\n')[0]] *)
Definition firstLine (message : string) : string := hd EmptyString (split newline message).

Definition processContinuedDebugLine (a : LogAnalysis) (line : string) : LogAnalysis :=
  match rev (debugLines a) with
  | [] => a
  | lastDebug :: before =>
      let cleanedLine := stripPrefix "DEBUG|" line in
      let lastDebug' :=
        mkDebugLine (lineNumber lastDebug)
                    (message lastDebug ++ NL ++ cleanedLine)
                    (timestamp lastDebug) in
      let a1 := setDebugLines a (rev (lastDebug' :: before)) in
      setTimeline a1
        (updateLast isDebugLog
           (fun ev =>
              mkEvent (event ev) (timeMs ev)
                (Some ("Line " ++ Number_toString (lineNumber lastDebug') ++ ": " ++
                       firstLine (message lastDebug') ++ "...")))
           (timeline a1))
  end.

Definition processExecutionStarted (a : LogAnalysis) : LogAnalysis :=
  pushTimeline a (mkEvent "Execution Started" zero None).

Definition processExecutionFinished (a : LogAnalysis) (startTime endTime : number)
  : LogAnalysis :=
  let t := Math_round (mul (sub endTime startTime) (ofZ 1000)) in
  let a1 := setTotalExecutionTimeMs a t in
  let s := summary a1 in
  let a2 := setSummary a1
              (mkSummary (totalExecutionTimeMs a1) (dbTimeMs s) (heapSize s)
                         (numDmlStatements s) (numSoqlQueries s) (numDatabaseCalls s)) in
  pushTimeline a2 (mkEvent "Execution Finished" (totalExecutionTimeMs a2) None).

Definition processSoqlQuery (a : LogAnalysis) (parts : list string)
           (relativeTimeMs : number) : LogAnalysis :=
  let s := summary a in
  let a1 := setSummary a
              (mkSummary (totalTimeMs s) (dbTimeMs s) (heapSize s)
                         (numDmlStatements s) (add (numSoqlQueries s) one)
                         (numDatabaseCalls s)) in
  let queryDetails := trim (join "|" (slice 2 parts)) in
  pushTimeline a1 (mkEvent "SOQL Query" relativeTimeMs (Some queryDetails)).

Definition processDmlOperation (a : LogAnalysis) (parts : list string)
           (relativeTimeMs : number) : LogAnalysis :=
  let s := summary a in
  let a1 := setSummary a
              (mkSummary (totalTimeMs s) (dbTimeMs s) (heapSize s)
                         (add (numDmlStatements s) one) (numSoqlQueries s)
                         (numDatabaseCalls s)) in
  pushTimeline a1 (mkEvent "DML Operation" relativeTimeMs
                           (Some (trim (join "|" (slice 2 parts))))).

(** The [while] loop of [processUserDebug]: [rest] is [lines] from
    [nextLineIndex] on. *)
Fixpoint absorbLines (rest : list string) (message : string) (nextLineIndex : nat)
  : string * nat :=
  match rest with
  | [] => (message, nextLineIndex)
  | nextLine :: rest' =>
      if test timestampPrefix nextLine then (message, nextLineIndex)
      else absorbLines rest' (message ++ NL ++ nextLine) (S nextLineIndex)
  end.

(** The text of the event line itself, as [processUserDebug] cleans it. *)
Definition debugText (parts : list string) : string :=
  let message := trim (join "|" (slice 3 parts)) in
  let message := replaceEscapedNewlines message in
  stripPrefix "DEBUG|" message.

Definition processUserDebug (a : LogAnalysis) (lines : list string)
           (currentIndex : nat) (parts : list string) (relativeTimeMs : number)
           (timestamp : string) : completion (LogAnalysis * nat) :=
  match nth_error parts 2 with
  | None => Throw (TypeError "Cannot read properties of undefined (reading 'match')")
  | Some part2 =>
      let lineNumber :=
        match match_ bracketedNumber part2 with
        | Some lineMatch => parseInt (capture 1 lineMatch)
        | None => zero
        end in
      let '(message, nextLineIndex) :=
        absorbLines (skipn (currentIndex + 1) lines) (debugText parts)
                    (currentIndex + 1) in
      let newIndex :=
        if (currentIndex + 1 <? nextLineIndex)%nat then nextLineIndex - 1
        else currentIndex in
      let a1 := setDebugLines a
                  (debugLines a ++ [mkDebugLine lineNumber message timestamp])%list in
      let a2 := pushTimeline a1
                  (mkEvent "Debug Log" relativeTimeMs
                     (Some ("Line " ++ Number_toString lineNumber ++ ": " ++
                            firstLine message ++
                            (if includes NL message then "..." else "")))) in
      Normal (a2, newIndex)
  end.

Definition processHeapAllocation (a : LogAnalysis) (line : string) : LogAnalysis :=
  match match_ bytesPattern line with
  | Some heapMatch =>
      let heap := parseInt (capture 1 heapMatch) in
      let s := summary a in
      if gt heap (heapSize s)
      then setSummary a
             (mkSummary (totalTimeMs s) (dbTimeMs s) heap
                        (numDmlStatements s) (numSoqlQueries s) (numDatabaseCalls s))
      else a
  | None => a
  end.

(** The look-ahead loop of [processException]: [rest] is [lines] from [j]
    on, and [j] starts at [currentIndex + 1]. *)
Fixpoint collectStackTrace (rest : list string) (j currentIndex : nat)
         (stackTrace : string) : string :=
  match rest with
  | [] => stackTrace
  | nextLine :: rest' =>
      if (j <? currentIndex + 30)%nat then
        if test eventHeader nextLine then stackTrace
        else
          collectStackTrace rest' (S j) currentIndex
            (if String.eqb (trim nextLine) EmptyString then stackTrace
             else (if String.eqb stackTrace EmptyString then stackTrace
                   else stackTrace ++ NL) ++ trim nextLine)
      else stackTrace
  end.

Definition processException (a : LogAnalysis) (parts : list string)
           (relativeTimeMs : number) (lines : list string) (currentIndex : nat)
  : LogAnalysis :=
  let errorMessage := trim (join "|" (slice 2 parts)) in
  let '(lineNumber, columnNumber) :=
    match match_ lineColumn errorMessage with
    | Some lineColMatch =>
        (Some (parseInt (capture 1 lineColMatch)),
         match group 2 lineColMatch with
         | Some col => if String.eqb col EmptyString then None else Some (parseInt col)
         | None => None
         end)
    | None => (None, None)
    end in
  let stackTrace :=
    collectStackTrace (skipn (currentIndex + 1) lines) (currentIndex + 1)
                      currentIndex EmptyString in
  let errorObj :=
    mkError errorMessage lineNumber columnNumber
            (if String.eqb stackTrace EmptyString then None else Some stackTrace) in
  let a1 := setErrors a (errors a ++ [errorObj])%list in
  pushTimeline a1 (mkEvent "Error" relativeTimeMs (Some errorMessage)).

(** [parts[2] || fallback] *)
Definition partOr (parts : list string) (fallback : string) : string :=
  match nth_error parts 2 with
  | Some p => if String.eqb p EmptyString then fallback else p
  | None => fallback
  end.

Definition processMethodEntry (a : LogAnalysis) (parts : list string)
           (relativeTimeMs : number) : LogAnalysis :=
  pushTimeline a (mkEvent "Method Entry" relativeTimeMs
                          (Some (partOr parts "Unknown Method"))).

Definition processMethodExit (a : LogAnalysis) (parts : list string)
           (relativeTimeMs : number) : LogAnalysis :=
  pushTimeline a (mkEvent "Method Exit" relativeTimeMs
                          (Some (partOr parts "Unknown Method"))).

(** One field of a limit event against [/([^:]+):\s*(\d+)\s*of\s*(\d+)/]:
    the trimmed name with the pair [{ used, total }]. *)
Definition limitMatch (limitPart : string) : option (string * (number * number)) :=
  match match_ limitPattern limitPart with
  | Some m =>
      Some (trim (capture 1 m), (parseInt (capture 2 m), parseInt (capture 3 m)))
  | None => None
  end.

(** The loop of [processLimitUsage] over [parts[2]], [parts[3]], ... *)
Fixpoint limitUsageLoop (fields : list string) (limitMap : LimitMap) : LimitMap :=
  match fields with
  | [] => limitMap
  | part :: rest =>
      let limitPart := trim part in
      if String.eqb limitPart EmptyString then limitUsageLoop rest limitMap
      else
        match limitMatch limitPart with
        | Some (limitName, v) => limitUsageLoop rest (mapSet limitName v limitMap)
        | None => limitUsageLoop rest limitMap
        end
  end.

Definition processLimitUsage (a : LogAnalysis) (limitMap : LimitMap)
           (parts : list string) : LimitMap :=
  limitUsageLoop (slice 2 parts) limitMap.

Definition half : number := roundRatio false 1 2.

(** [used > 0 && (used / total) > 0.5] *)
Definition isHighUsage (used total : number) : bool :=
  gt used zero && gt (div used total) half.

Definition highUsageEvent (limitName : string) (used total relativeTimeMs : number)
  : TimelineEvent :=
  let percentage := Math_round (mul (div used total) (ofZ 100)) in
  mkEvent "High Limit Usage" relativeTimeMs
          (Some (limitName ++ ": " ++ Number_toString used ++ " of " ++
                 Number_toString total ++ " (" ++ Number_toString percentage ++ "%)")).

(** The loop of [processCumulativeLimits] over [parts[3]], [parts[4]], ... *)
Fixpoint cumulativeLoop (fields : list string) (a : LogAnalysis) (limitMap : LimitMap)
         (relativeTimeMs : number) : LogAnalysis * LimitMap :=
  match fields with
  | [] => (a, limitMap)
  | part :: rest =>
      let limitPart := trim part in
      if String.eqb limitPart EmptyString then cumulativeLoop rest a limitMap relativeTimeMs
      else
        match limitMatch limitPart with
        | Some (limitName, (used, total)) =>
            let limitMap1 := mapSet limitName (used, total) limitMap in
            let a1 := setGovernorLimits a
                        (governorLimits a ++ [mkGovernorLimit limitName used total])%list in
            let a2 := if isHighUsage used total
                      then pushTimeline a1 (highUsageEvent limitName used total relativeTimeMs)
                      else a1 in
            cumulativeLoop rest a2 limitMap1 relativeTimeMs
        | None => cumulativeLoop rest a limitMap relativeTimeMs
        end
  end.

Definition processCumulativeLimits (a : LogAnalysis) (limitMap : LimitMap)
           (parts : list string) (relativeTimeMs : number) : LogAnalysis * LimitMap :=
  cumulativeLoop (slice 3 parts) a limitMap relativeTimeMs.

(** The placeholder of the source: nothing is done. *)
Definition processProfilingData (a : LogAnalysis) (parts : list string) : LogAnalysis := a.

(** The three extractions of [processCodeCoverage], each on the summary the
    one before left. *)
Definition extractPercentage (coverageText : string) (cc : option CodeCoverage)
  : option CodeCoverage :=
  match match_ percentPattern coverageText with
  | Some percentMatch =>
      let percent := parseInt (capture 1 percentMatch) in
      match cc with
      | None => Some (mkCoverage percent zero zero [])
      | Some c => Some (mkCoverage percent (linesCovered c) (linesTotal c)
                                   (uncoveredLines c))
      end
  | None => cc
  end.

Definition extractRatio (coverageText : string) (cc : option CodeCoverage)
  : option CodeCoverage :=
  match match_ ratioPattern coverageText with
  | Some linesMatch =>
      let covered := parseInt (capture 1 linesMatch) in
      let outOf := parseInt (capture 2 linesMatch) in
      match cc with
      | None => Some (mkCoverage (Math_round (mul (div covered outOf) (ofZ 100)))
                                 covered outOf [])
      | Some c => Some (mkCoverage (coveragePercentage c) covered outOf
                                   (uncoveredLines c))
      end
  | None => cc
  end.

(** [uncoveredText.split(',').map(n => parseInt(n.trim())).filter(n => !isNaN(n))] *)
Definition parseUncovered (uncoveredText : string) : list number :=
  filter (fun n => negb (isNaN n))
         (map (fun n => parseInt (trim n)) (split "," uncoveredText)).

Definition extractUncovered (coverageText : string) (cc : option CodeCoverage)
  : option CodeCoverage :=
  match match_ uncoveredPattern coverageText with
  | Some uncoveredLinesMatch =>
      let uncovered := parseUncovered (capture 1 uncoveredLinesMatch) in
      match cc with
      | None => Some (mkCoverage zero zero zero uncovered)
      | Some c => Some (mkCoverage (coveragePercentage c) (linesCovered c)
                                   (linesTotal c) uncovered)
      end
  | None => cc
  end.

Definition processCodeCoverage (a : LogAnalysis) (parts : list string) : LogAnalysis :=
  let a1 := setHasCoverageInfo a true in
  let coverageText := join "|" (slice 2 parts) in
  let a2 := setCodeCoverage a1 (extractPercentage coverageText (codeCoverage a1)) in
  let a3 := setCodeCoverage a2 (extractRatio coverageText (codeCoverage a2)) in
  setCodeCoverage a3 (extractUncovered coverageText (codeCoverage a3)).

Definition processSystemMode (a : LogAnalysis) (eventType : string)
           (relativeTimeMs : number) : LogAnalysis :=
  let isEnter := includes "SYSTEM_MODE_ENTER" eventType in
  pushTimeline a (mkEvent (if isEnter then "System Mode Enter" else "System Mode Exit")
                          relativeTimeMs None).

Definition processConstructor (a : LogAnalysis) (eventType : string)
           (parts : list string) (relativeTimeMs : number) : LogAnalysis :=
  let isEntry := includes "CONSTRUCTOR_ENTRY" eventType in
  pushTimeline a (mkEvent (if isEntry then "Constructor Entry" else "Constructor Exit")
                          relativeTimeMs (Some (partOr parts "Unknown Class"))).

Definition processCustomMethod (a : LogAnalysis) (eventType : string)
           (parts : list string) (relativeTimeMs : number) : LogAnalysis :=
  let isEntry := includes "METHOD_ENTRY" eventType in
  pushTimeline a (mkEvent (if isEntry then "Method Entry" else "Method Exit")
                          relativeTimeMs (Some (partOr parts "Unknown Method"))).

(** [processSoqlEnd] and [processDmlEnd] differ in the label only. *)
Definition processEnd (label : string) (a : LogAnalysis) (parts : list string)
           (relativeTimeMs : number) : LogAnalysis :=
  match match_ durationPattern (join "|" (slice 2 parts)) with
  | Some durationMatch =>
      let durationMs := parseInt (capture 1 durationMatch) in
      let s := summary a in
      let a1 := setSummary a
                  (mkSummary (totalTimeMs s) (add (dbTimeMs s) durationMs) (heapSize s)
                             (numDmlStatements s) (numSoqlQueries s)
                             (numDatabaseCalls s)) in
      pushTimeline a1 (mkEvent label relativeTimeMs
                               (Some ("Duration: " ++ Number_toString durationMs ++ "ms")))
  | None => a
  end.

Definition processSoqlEnd : LogAnalysis -> list string -> number -> LogAnalysis :=
  processEnd "SOQL Query Completed".

Definition processDmlEnd : LogAnalysis -> list string -> number -> LogAnalysis :=
  processEnd "DML Operation Completed".

(** ** Finalization *)

Definition limitOfEntry (entry : string * (number * number)) : LimitUsage :=
  let '(key, (u, t)) := entry in
  mkLimit key u t (if gt t zero then Math_round (mul (div u t) (ofZ 100)) else zero).

(** [limits.sort((a, b) => b.percentage - a.percentage)]: the sort is stable,
    and [x] goes behind [y] when the comparator is positive on them.  Where
    no percentage is NaN the comparator is consistent and the order is the
    one the language fixes; with a NaN percentage the language leaves the
    order to the engine, and the insertion below need not be the order of a
    given engine: the properties stated use the order in the first case
    only. *)
Definition sortsAfter (x y : LimitUsage) : bool :=
  gt (sub (percentage y) (percentage x)) zero.

Fixpoint insertLimit (x : LimitUsage) (sorted : list LimitUsage) : list LimitUsage :=
  match sorted with
  | [] => [x]
  | y :: rest => if sortsAfter x y then y :: insertLimit x rest else x :: y :: rest
  end.

Definition sortLimits (l : list LimitUsage) : list LimitUsage :=
  fold_right insertLimit [] l.

Definition finalizeAnalysis (a : LogAnalysis) (limitMap : LimitMap) : LogAnalysis :=
  let a1 := setLimits a (limits a ++ map limitOfEntry limitMap)%list in
  let a2 := setLimits a1 (sortLimits (limits a1)) in
  let s := summary a2 in
  setSummary a2
    (mkSummary (totalTimeMs s) (dbTimeMs s) (heapSize s) (numDmlStatements s)
               (numSoqlQueries s) (add (numSoqlQueries s) (numDmlStatements s))).

(** ** The dispatcher and the main loop *)

(** The branches of the [if] / [else if] chain of [analyzeApexLog]. *)
Inductive EventKind : Type :=
| ExecutionStarted | ExecutionFinished | SoqlExecuteBegin | DmlBegin | UserDebug
| HeapAllocate | ExceptionThrown | SystemMethodEntry | SystemMethodExit
| LimitUsageForNs | CumulativeLimitUsage | CumulativeProfiling | CodeCoverageEvent
| SystemMode | Constructor | CustomMethod | SoqlExecuteEnd | DmlEnd.

(** The first test of the chain that holds of the event tag, in its order. *)
Definition classify (eventType : string) : option EventKind :=
  if includes "EXECUTION_STARTED" eventType then Some ExecutionStarted
  else if includes "EXECUTION_FINISHED" eventType then Some ExecutionFinished
  else if includes "SOQL_EXECUTE_BEGIN" eventType then Some SoqlExecuteBegin
  else if includes "DML_BEGIN" eventType then Some DmlBegin
  else if includes "USER_DEBUG" eventType then Some UserDebug
  else if includes "HEAP_ALLOCATE" eventType then Some HeapAllocate
  else if includes "EXCEPTION_THROWN" eventType || includes "FATAL_ERROR" eventType
       then Some ExceptionThrown
  else if includes "SYSTEM_METHOD_ENTRY" eventType then Some SystemMethodEntry
  else if includes "SYSTEM_METHOD_EXIT" eventType then Some SystemMethodExit
  else if includes "LIMIT_USAGE_FOR_NS" eventType then Some LimitUsageForNs
  else if includes "CUMULATIVE_LIMIT_USAGE" eventType then Some CumulativeLimitUsage
  else if includes "CUMULATIVE_PROFILING" eventType then Some CumulativeProfiling
  else if includes "CODE_COVERAGE" eventType then Some CodeCoverageEvent
  else if includes "SYSTEM_MODE_ENTER" eventType || includes "SYSTEM_MODE_EXIT" eventType
       then Some SystemMode
  else if includes "CONSTRUCTOR_ENTRY" eventType || includes "CONSTRUCTOR_EXIT" eventType
       then Some Constructor
  else if includes "METHOD_ENTRY" eventType || includes "METHOD_EXIT" eventType
       then Some CustomMethod
  else if includes "SOQL_EXECUTE_END" eventType then Some SoqlExecuteEnd
  else if includes "DML_END" eventType then Some DmlEnd
  else None.

(** The samples one limit event writes to the limit map, in order: the
    fields its handler matches.  Only the history variable below is made of
    them. *)
Fixpoint limitSamples (fields : list string) : list (string * (number * number)) :=
  match fields with
  | [] => []
  | part :: rest =>
      let limitPart := trim part in
      if String.eqb limitPart EmptyString then limitSamples rest
      else
        match limitMatch limitPart with
        | Some sample => sample :: limitSamples rest
        | None => limitSamples rest
        end
  end.

(** The variables of [analyzeApexLog] that live across iterations.
    [limitWrites] is a history variable: it is not in the source, no function
    reads it; it lists every [limitMap.set] in the order of execution. *)
Record LoopState : Type := mkLoop {
  analysis : LogAnalysis;
  limitMap : LimitMap;
  startTime : number;
  endTime : number;
  lastDebugLineIndex : Z;
  i : nat;
  limitWrites : list (string * (number * number))
}.

(** A handler has run on the analysis; then [lastDebugLineIndex = -1]. *)
Definition handled (st : LoopState) (a : LogAnalysis) : LoopState :=
  mkLoop a (limitMap st) (startTime st) (endTime st) (-1) (i st) (limitWrites st).

(** The body of the [try] block, with the state it leaves and the way it
    ends. *)
Definition tryBlock (lines : list string) (st : LoopState) (line : string)
  : LoopState * completion unit :=
  if isPartOfPreviousDebugLine (lastDebugLineIndex st) line then
    (mkLoop (processContinuedDebugLine (analysis st) line) (limitMap st)
            (startTime st) (endTime st) (lastDebugLineIndex st) (i st)
            (limitWrites st),
     Normal tt)
  else
    let parts := split "|" line in
    if (List.length parts <? 2)%nat then (st, Normal tt)
    else
      let timestamp := nth 0 parts EmptyString in
      let eventType := nth 1 parts EmptyString in
      let currentTime := parseFloat timestamp in
      let relativeTimeMs := Math_round (mul (sub currentTime (startTime st)) (ofZ 1000)) in
      let a := analysis st in
      match classify eventType with
      | Some ExecutionStarted =>
          (mkLoop (processExecutionStarted a) (limitMap st) currentTime (endTime st)
                  (-1) (i st) (limitWrites st),
           Normal tt)
      | Some ExecutionFinished =>
          (mkLoop (processExecutionFinished a (startTime st) currentTime) (limitMap st)
                  (startTime st) currentTime (-1) (i st) (limitWrites st),
           Normal tt)
      | Some SoqlExecuteBegin =>
          (handled st (processSoqlQuery a parts relativeTimeMs), Normal tt)
      | Some DmlBegin =>
          (handled st (processDmlOperation a parts relativeTimeMs), Normal tt)
      | Some UserDebug =>
          let st1 := mkLoop a (limitMap st) (startTime st) (endTime st)
                            (Z.of_nat (i st)) (i st) (limitWrites st) in
          match processUserDebug a lines (i st) parts relativeTimeMs timestamp with
          | Normal (a', newIndex) =>
              (mkLoop a' (limitMap st) (startTime st) (endTime st)
                      (Z.of_nat (i st)) newIndex (limitWrites st),
               Normal tt)
          | Throw e => (st1, Throw e)
          end
      | Some HeapAllocate =>
          (handled st (processHeapAllocation a line), Normal tt)
      | Some ExceptionThrown =>
          (handled st (processException a parts relativeTimeMs lines (i st)), Normal tt)
      | Some SystemMethodEntry =>
          (handled st (processMethodEntry a parts relativeTimeMs), Normal tt)
      | Some SystemMethodExit =>
          (handled st (processMethodExit a parts relativeTimeMs), Normal tt)
      | Some LimitUsageForNs =>
          (mkLoop a (processLimitUsage a (limitMap st) parts) (startTime st)
                  (endTime st) (-1) (i st)
                  (limitWrites st ++ limitSamples (slice 2 parts))%list,
           Normal tt)
      | Some CumulativeLimitUsage =>
          let '(a', limitMap') :=
            processCumulativeLimits a (limitMap st) parts relativeTimeMs in
          (mkLoop a' limitMap' (startTime st) (endTime st) (-1) (i st)
                  (limitWrites st ++ limitSamples (slice 3 parts))%list,
           Normal tt)
      | Some CumulativeProfiling =>
          (handled st (processProfilingData a parts), Normal tt)
      | Some CodeCoverageEvent =>
          (handled st (processCodeCoverage a parts), Normal tt)
      | Some SystemMode =>
          (handled st (processSystemMode a eventType relativeTimeMs), Normal tt)
      | Some Constructor =>
          (handled st (processConstructor a eventType parts relativeTimeMs), Normal tt)
      | Some CustomMethod =>
          (handled st (processCustomMethod a eventType parts relativeTimeMs), Normal tt)
      | Some SoqlExecuteEnd =>
          (handled st (processSoqlEnd a parts relativeTimeMs), Normal tt)
      | Some DmlEnd =>
          (handled st (processDmlEnd a parts relativeTimeMs), Normal tt)
      | None => (st, Normal tt)
      end.

(** One pass through the body of the [for] loop at index [i]: a blank line
    is passed over, and an exception of the [try] block is caught and
    logged, so the loop goes on from the state the block had reached. *)
Definition iteration (lines : list string) (st : LoopState) : LoopState :=
  let line := nth (i st) lines EmptyString in
  if String.eqb (trim line) EmptyString then st
  else
    match tryBlock lines st line with
    | (st', Normal _) => st'
    | (st', Throw _) => st'
    end.

(** [i++] *)
Definition increment (st : LoopState) : LoopState :=
  mkLoop (analysis st) (limitMap st) (startTime st) (endTime st)
         (lastDebugLineIndex st) (S (i st)) (limitWrites st).

(** The [for] loop, run for at most [fuel] iterations; [None] when they do
    not suffice to leave the loop. *)
Fixpoint loop (fuel : nat) (lines : list string) (st : LoopState) : option LoopState :=
  match fuel with
  | O => None
  | S fuel' =>
      if (i st <? List.length lines)%nat
      then loop fuel' lines (increment (iteration lines st))
      else Some st
  end.

Definition initialState : LoopState :=
  mkLoop initializeAnalysis [] zero zero (-1) 0 [].

(** The loop on the lines of a log, with as many iterations allowed as
    there are lines (and one more for the exit test). *)
Definition runLoop (log : string) : option LoopState :=
  let lines := split newline log in
  loop (S (List.length lines)) lines initialState.

Definition analyzeApexLog (log : string) : option LogAnalysis :=
  match runLoop log with
  | Some st => Some (finalizeAnalysis (analysis st) (limitMap st))
  | None => None
  end.

(** ** Escaping for the HTML report *)

Definition doubleQuote : ascii := ascii_of_nat 34.

(** The entity a character is written as, in the order of the five
    replacements of the source. *)
Definition escapeHtml (unsafe : string) : string :=
  let s := replaceChar "&" "&amp;" unsafe in
  let s := replaceChar "<" "&lt;" s in
  let s := replaceChar ">" "&gt;" s in
  let s := replaceChar doubleQuote "&quot;" s in
  replaceChar "'" "&#039;" s.

End LogAnalyzerHandler.

(* ================================================================= *)
(** * The command-line client (class SalesforceClient) *)

Module SalesforceClient.

(** The class [[a-zA-Z0-9_\.,]] whose complement [sanitizeCliArg] deletes. *)
Definition isCliChar (c : ascii) : bool :=
  isLower c || isUpper c || isDigit c || Ascii.eqb c "_" || Ascii.eqb c "." ||
  Ascii.eqb c ",".

Definition sanitizeCliArg (value : string) : string := keepChars isCliChar value.

Definition isAlphanumeric (c : ascii) : bool := isLower c || isUpper c || isDigit c.

(** [/^[a-zA-Z0-9]{15,18}$/.test(id)]: anchored at both ends, so the whole
    of [id] is 15 to 18 characters of the class. *)
Definition isValidSalesforceId (id : string) : bool :=
  everyChar isAlphanumeric id &&
  ((15 <=? String.length id) && (String.length id <=? 18))%nat.

(** [runApexTest] up to its call of [execa('sf', testArgs)]: the arguments
    of that call. *)
Definition runApexTest (className : string) (methodName : option string)
  : outcome (list string) :=
  let sanitizedClassName := sanitizeCliArg className in
  if negb (String.eqb sanitizedClassName className)
  then ThrowsError "Invalid characters in class name"
  else
    let testArgs := ["apex"; "test"; "run"] in
    let tail := ["--result-format"; "json"; "--synchronous"; "--wait"; "60"] in
    match methodName with
    | Some method =>
        if String.eqb method EmptyString
        then Proceeds (testArgs ++ ["--class-names"; sanitizedClassName] ++ tail)%list
        else
          let sanitizedMethodName := sanitizeCliArg method in
          if negb (String.eqb sanitizedMethodName method)
          then ThrowsError "Invalid characters in method name"
          else if includes "," method
          then Proceeds (testArgs ++ ["--tests"; sanitizedMethodName] ++ tail)%list
          else
            let qualified := sanitizedClassName ++ "." ++ sanitizedMethodName in
            Proceeds (testArgs ++ ["--tests"; qualified] ++ tail)%list
    | None => Proceeds (testArgs ++ ["--class-names"; sanitizedClassName] ++ tail)%list
    end.

(** The template literal of [queryTestResults]. *)
Definition testResultQuery (classIdList startTime endTime : string) : string :=
  let indent := NL ++ "                               " in
  "SELECT Id, ApexClass.Name, ApexClassId, MethodName, ApexLogId, IsTestSetup, Outcome" ++
  indent ++ "FROM ApexTestResult " ++
  indent ++ "WHERE ApexClassId IN (" ++ classIdList ++ ")" ++
  indent ++ "AND TestTimestamp >= " ++ startTime ++
  indent ++ "AND TestTimestamp <= " ++ endTime ++
  indent ++ "ORDER BY TestTimestamp DESC".

Definition quoteId (id : string) : string := "'" ++ id ++ "'".

(** [queryTestResults] up to its call of [execa('sf', ...)]: the arguments
    of that call. *)
Definition queryTestResults (classIds : list string) (startTime endTime : string)
  : outcome (list string) :=
  let validClassIds := map quoteId (filter isValidSalesforceId classIds) in
  if (List.length validClassIds =? 0)%nat then ThrowsError "Invalid class IDs"
  else
    let classIdList := join ", " validClassIds in
    Proceeds ["data"; "query"; "--query";
              testResultQuery classIdList startTime endTime; "--json"].

(** [getLogContent] up to its call of [execa('sf', ...)]. *)
Definition getLogContent (logId : string) : outcome (list string) :=
  if negb (isValidSalesforceId logId) then ThrowsError "Invalid log ID format"
  else Proceeds ["apex"; "log"; "get"; "--log-id"; logId].

End SalesforceClient.

(* ================================================================= *)
(** * The section extractor (src/extension.ts) *)

Module ApexTestRunner.

Definition noLogsAdvisory : string := "No logs available for this method.".
Definition invalidInputsAdvisory : string := "Invalid inputs for log filtering.".
Definition tooLargeAdvisory : string :=
  "Log is too large to display. Please check the raw logs on Salesforce.".

Definition MAX_LOG_SIZE : Z := 1024 * 1024.
Definition MAX_LINES : Z := 50000.

(** [ToBoolean] *)
Definition truthy (v : value) : bool :=
  match v with
  | VUndefined | VNull => false
  | VBoolean b => b
  | VNumber x => match x with S754_zero _ | S754_nan => false | _ => true end
  | VString s => negb (String.eqb s EmptyString)
  end.

(** [typeof v === 'string'] *)
Definition isString (v : value) : bool :=
  match v with VString _ => true | _ => false end.

(** [v === undefined] *)
Definition isUndefined (v : value) : bool :=
  match v with VUndefined => true | _ => false end.

(** The class [[a-zA-Z0-9_\.]] whose complement the sanitizer deletes. *)
Definition isNameChar (c : ascii) : bool :=
  isLower c || isUpper c || isDigit c || Ascii.eqb c "_" || Ascii.eqb c ".".

Definition sanitize (s : string) : string := keepChars isNameChar s.

(** The variables of the scan that live across iterations. *)
Record ScanState : Type := mkScan {
  inSetupMethod : bool;
  inTestMethod : bool;
  setupMethodSections : list string;
  testMethodSections : list string;
  currentSection : list string;
  lastCodeUnitStarted : string
}.

Definition initialScan : ScanState := mkScan false false [] [] [] EmptyString.

(** "Save current section before starting a new one": when the buffer is
    not empty it goes to the list of the open section and is emptied. *)
Definition saveCurrent (st : ScanState) : ScanState :=
  match currentSection st with
  | [] => st
  | _ :: _ =>
      if inSetupMethod st then
        mkScan (inSetupMethod st) (inTestMethod st)
               (setupMethodSections st ++ currentSection st)%list
               (testMethodSections st) [] (lastCodeUnitStarted st)
      else if inTestMethod st then
        mkScan (inSetupMethod st) (inTestMethod st) (setupMethodSections st)
               (testMethodSections st ++ currentSection st)%list [] (lastCodeUnitStarted st)
      else
        mkScan (inSetupMethod st) (inTestMethod st) (setupMethodSections st)
               (testMethodSections st) [] (lastCodeUnitStarted st)
  end.

Section Scan.

(** The sanitized names, and whether the setup-method name as given is
    truthy. *)
Variables safeClassName safeMethodName safeSetupMethodName : string.
Variable setupGiven : bool.

Definition setupName : string := safeClassName ++ "." ++ safeSetupMethodName.
Definition testName : string := safeClassName ++ "." ++ safeMethodName.

(** A [CODE_UNIT_STARTED] line that opens the setup section. *)
Definition opensSetup (line : string) : bool :=
  includes "CODE_UNIT_STARTED" line &&
  negb (String.eqb safeSetupMethodName EmptyString) && includes setupName line.

(** A [CODE_UNIT_STARTED] line that opens the test section. *)
Definition opensTest (line : string) : bool :=
  includes "CODE_UNIT_STARTED" line && negb (opensSetup line) &&
  includes testName line.

(** The last part of the loop body: the end markers and the buffering. *)
Definition finishOrBuffer (st : ScanState) (line : string) : ScanState :=
  if includes "CODE_UNIT_FINISHED" line && inSetupMethod st && setupGiven &&
     includes setupName line
  then
    mkScan false (inTestMethod st)
           (setupMethodSections st ++ (currentSection st ++ [line]))%list
           (testMethodSections st) [] (lastCodeUnitStarted st)
  else if includes "CODE_UNIT_FINISHED" line && inTestMethod st &&
          includes testName line
  then
    mkScan (inSetupMethod st) false (setupMethodSections st)
           (testMethodSections st ++ (currentSection st ++ [line]))%list
           [] (lastCodeUnitStarted st)
  else if inSetupMethod st || inTestMethod st then
    mkScan (inSetupMethod st) (inTestMethod st) (setupMethodSections st)
           (testMethodSections st) (currentSection st ++ [line])%list
           (lastCodeUnitStarted st)
  else st.

(** The body of the [for] loop on one line. *)
Definition scanLine (st : ScanState) (line : string) : ScanState :=
  if includes "CODE_UNIT_STARTED" line then
    let st0 := mkScan (inSetupMethod st) (inTestMethod st) (setupMethodSections st)
                      (testMethodSections st) (currentSection st) line in
    if negb (String.eqb safeSetupMethodName EmptyString) && includes setupName line
    then
      let st1 := saveCurrent st0 in
      mkScan true false (setupMethodSections st1) (testMethodSections st1)
             (currentSection st1 ++ [line])%list (lastCodeUnitStarted st1)
    else if includes testName line then
      let st1 := saveCurrent st0 in
      mkScan false true (setupMethodSections st1) (testMethodSections st1)
             (currentSection st1 ++ [line])%list (lastCodeUnitStarted st1)
    else finishOrBuffer st0 line
  else finishOrBuffer st line.

(** The whole [for] loop. *)
Definition scan (logLines : list string) (st : ScanState) : ScanState :=
  fold_left scanLine logLines st.

(** "Add any remaining sections" *)
Definition addRemaining (st : ScanState) : ScanState :=
  match currentSection st with
  | [] => st
  | _ :: _ =>
      if inSetupMethod st then
        mkScan (inSetupMethod st) (inTestMethod st)
               (setupMethodSections st ++ currentSection st)%list
               (testMethodSections st) (currentSection st) (lastCodeUnitStarted st)
      else if inTestMethod st then
        mkScan (inSetupMethod st) (inTestMethod st) (setupMethodSections st)
               (testMethodSections st ++ currentSection st)%list
               (currentSection st) (lastCodeUnitStarted st)
      else st
  end.

(** "Combine sections with headers", then the fallback search. *)
Definition assemble (logLines : list string) (st : ScanState) : list string :=
  let setupTitle :=
    safeClassName ++ "." ++
    (if String.eqb safeSetupMethodName EmptyString
     then "Unknown Setup Method" else safeSetupMethodName) in
  let notFound := "No specific method boundaries found for " ++ testName in
  let noReferences := "No references to " ++ testName ++ " found in the logs." in
  let filteredLines :=
    match setupMethodSections st with
    | [] => []
    | _ :: _ =>
        (["==== TEST SETUP METHOD ===="; setupTitle; EmptyString] ++
         setupMethodSections st ++ [EmptyString])%list
    end in
  let filteredLines :=
    match testMethodSections st with
    | [] => filteredLines
    | _ :: _ =>
        (filteredLines ++
         ["==== TEST METHOD ===="; testName; EmptyString] ++
         testMethodSections st)%list
    end in
  match filteredLines with
  | [] =>
      let relevantLines :=
        filter (fun line =>
                  includes testName line ||
                  (negb (String.eqb safeSetupMethodName EmptyString) &&
                   includes setupName line))
               logLines in
      ([notFound;
        "Showing any log entries containing references to this method:";
        EmptyString] ++
       match relevantLines with
       | [] => [noReferences]
       | _ :: _ => relevantLines
       end)%list
  | _ :: _ => filteredLines
  end.

End Scan.

Definition filterLogsForMethod (debugLog className methodName setupMethodName : value)
  : completion string :=
  if negb (truthy debugLog) ||
     match debugLog with VString s => String.eqb s "No logs found" | _ => false end
  then Normal noLogsAdvisory
  else if negb (isString className) || negb (isString methodName) ||
          (negb (isUndefined setupMethodName) && negb (isString setupMethodName))
  then Normal invalidInputsAdvisory
  else
    match debugLog, className, methodName with
    | VString log, VString class, VString method =>
        let safeClassName := sanitize class in
        let safeMethodName := sanitize method in
        let safeSetupMethodName :=
          match setupMethodName with
          | VString setup => if truthy setupMethodName then sanitize setup else EmptyString
          | _ => EmptyString
          end in
        if (MAX_LOG_SIZE <? lengthZ log)%Z then Normal tooLargeAdvisory
        else
          let logLines := split newline log in
          if (MAX_LINES <? Z.of_nat (List.length logLines))%Z then Normal tooLargeAdvisory
          else
            let st := scan safeClassName safeMethodName safeSetupMethodName
                           (truthy setupMethodName) logLines initialScan in
            let st := addRemaining st in
            Normal (join NL (assemble safeClassName safeMethodName
                                      safeSetupMethodName logLines st))
    | VString _, _, _ => Normal invalidInputsAdvisory
    | _, _, _ => Throw (TypeError "debugLog.split is not a function")
    end.

(** ** Running a test: what happens before and after the command-line call *)

(** The class name [runApexTest] takes from the path of the file:
    [filePath.split('/').pop()?.replace('.cls', '')], refused when falsy. *)
Definition classNameOfPath (filePath : string) : outcome string :=
  match pop (split "/" filePath) with
  | None => ThrowsError "Could not determine class name"
  | Some fileName =>
      let classNameRaw := replaceFirst ".cls" EmptyString fileName in
      if String.eqb classNameRaw EmptyString
      then ThrowsError "Could not determine class name"
      else Proceeds classNameRaw
  end.

(** The text [handleTestError] shows: [Some message] is an [Error] with that
    message, [None] any other thrown value. *)
Definition handleTestError (error : option string) : string :=
  match error with
  | Some message =>
      if includes "Command failed" message
      then "Failed to run test. Please check your connection and try again."
      else if includes "INVALID_ID_FIELD" message then "Invalid Salesforce ID format."
      else if includes "INVALID_FIELD" message then "Invalid field in query."
      else if includes "MALFORMED_QUERY" message then "Invalid query format."
      else if includes "Invalid characters" message then message
      else if includes "Could not determine class name" message then message
      else if includes "Failed to parse test results" message
      then "Unable to process test results. Please try again."
      else "An error occurred while running tests."
  | None => "An unexpected error occurred."
  end.

(** [runApexTest] up to the command-line call: the class name of the path,
    then the checks of the client; the result is the arguments of the call. *)
Definition runApexTest (filePath : string) (methodName : option string)
  : outcome (list string) :=
  match classNameOfPath filePath with
  | Proceeds classNameRaw => SalesforceClient.runApexTest classNameRaw methodName
  | ThrowsError message => ThrowsError message
  end.

End ApexTestRunner.

(* ================================================================= *)
(** * The vocabulary of the properties *)

Module Vocabulary.

Import LogAnalyzerHandler ApexTestRunner.

(** ** Strings, patterns and numbers *)

(** [s] has no character [c]. *)
Definition lacks (c : ascii) (s : string) : Prop := includes (String c EmptyString) s = false.

(** Every character of [s] is white space. *)
Fixpoint allWhiteSpace (s : string) : bool :=
  match s with
  | EmptyString => true
  | String c s' => isWhiteSpace c && allWhiteSpace s'
  end.

(** A string that is empty or starts with a digit. *)
Definition digitLed (w : string) : bool :=
  match w with
  | EmptyString => true
  | String d _ => isDigit d
  end.

(** What group 2 has captured, if anything, is such a string. *)
Definition secondGroupOk (caps : captures) : Prop :=
  forall w, group 2 caps = Some w -> digitLed w = true.

(** A continuation of the matcher under which this stays so. *)
Definition keeps (k : matcherCont) : Prop :=
  forall pos s caps res, secondGroupOk caps -> k pos s caps = Some res -> secondGroupOk res.

(** The patterns whose group 2, where there is one, is [(\d+)]. *)
Fixpoint secondGroupIsDigits (r : regex) : Prop :=
  match r with
  | RSeq r1 r2 | RAlt r1 r2 => secondGroupIsDigits r1 /\ secondGroupIsDigits r2
  | RStar r1 => secondGroupIsDigits r1
  | RGroup n r1 => (n <> 2 /\ secondGroupIsDigits r1) \/ (n = 2 /\ r1 = RPlus digit)
  | _ => True
  end.

(** A number below zero. *)
Definition isNegative (x : number) : bool :=
  match x with
  | S754_finite true _ _ | S754_infinity true => true
  | _ => false
  end.

(** ** The analyzer *)

(** A line of a stack trace. *)
Definition frame (k : nat) : string := "at Frame.method" ++ decimal (Z.of_nat k).

(** The lines [frame 1], ..., [frame n]. *)
Definition frames (n : nat) : list string := map frame (seq 1 n).

(** The lines from the head of [rest] on that do not begin with the
    timestamp prefix, up to the first line that does. *)
Fixpoint continuationRun (rest : list string) : list string :=
  match rest with
  | [] => []
  | line :: rest' =>
      if test timestampPrefix line then [] else line :: continuationRun rest'
  end.

(** Each line after a newline, all in one string. *)
Fixpoint appendLines (message : string) (absorbed : list string) : string :=
  match absorbed with
  | [] => message
  | line :: more => appendLines (message ++ NL ++ line) more
  end.

(** A line with the timestamp prefix that has fewer than two fields, or an
    event tag that no branch of the dispatcher recognizes. *)
Definition isPassedOver (line : string) : bool :=
  test timestampPrefix line &&
  ((List.length (split "|" line) <? 2)%nat ||
   match classify (nth 1 (split "|" line) EmptyString) with
   | None => true
   | Some _ => false
   end).

(** [st] with the index moved on by [k]. *)
Definition advance (st : LoopState) (k : nat) : LoopState :=
  mkLoop (analysis st) (limitMap st) (startTime st) (endTime st)
         (lastDebugLineIndex st) (i st + k) (limitWrites st).

(** The value of the last write to [key] in a history of writes. *)
Fixpoint lastWrite (key : string) (writes : list (string * (number * number)))
  : option (number * number) :=
  match writes with
  | [] => None
  | (k, v) :: later =>
      match lastWrite key later with
      | Some w => Some w
      | None => if String.eqb k key then Some v else None
      end
  end.

(** The writes of a history, done on a map one after the other. *)
Definition applyWrites (writes : list (string * (number * number))) (m : LimitMap)
  : LimitMap :=
  fold_left (fun m' w => mapSet (fst w) (snd w) m') writes m.

(** The map holds, for each name, the last value written under it, and
    each name once. *)
Definition agrees (m : LimitMap) (writes : list (string * (number * number))) : Prop :=
  NoDup (map fst m) /\ forall key, mapGet key m = lastWrite key writes.

(** The entries of a given name. *)
Definition entriesNamed (key : string) (l : list LimitUsage) : list LimitUsage :=
  filter (fun entry => String.eqb (name entry) key) l.

(** A high-usage entry of the timeline. *)
Definition isHighEvent (e : TimelineEvent) : bool :=
  String.eqb (event e) "High Limit Usage".

(** The test of the source on a sample, the entry and the raw record the
    cumulative handler makes of it. *)
Definition sampleIsHigh (sample : string * (number * number)) : bool :=
  isHighUsage (fst (snd sample)) (snd (snd sample)).

Definition sampleEvent (relativeTimeMs : number) (sample : string * (number * number))
  : TimelineEvent :=
  highUsageEvent (fst sample) (fst (snd sample)) (snd (snd sample)) relativeTimeMs.

Definition sampleRecord (sample : string * (number * number)) : GovernorLimit :=
  mkGovernorLimit (fst sample) (fst (snd sample)) (snd (snd sample)).

(** The same test on a raw record. *)
Definition recordIsHigh (g : GovernorLimit) : bool :=
  isHighUsage (usage g) (governorTotal g).

(** The text of the high-usage entry of a cumulative sample. *)
Definition recordDetails (g : GovernorLimit) : option string :=
  details (highUsageEvent (governorName g) (usage g) (governorTotal g) zero).

(** The texts of the high-usage entries of a timeline, in order. *)
Definition highUsageDetails (events : list TimelineEvent) : list (option string) :=
  map details (filter isHighEvent events).

(** What the limit claims read of an analysis. *)
Definition view (a : LogAnalysis)
  : list LimitUsage * list GovernorLimit * list TimelineEvent :=
  (limits a, governorLimits a, filter isHighEvent (timeline a)).

(** [used / total > 0.5] *)
Definition overHalf (u t : number) : bool := gt (div u t) half.

(** During the loop the finalized list is still empty, and the high-usage
    entries of the timeline are those of the cumulative samples over one
    half, in the order of the samples. *)
Definition consistent (a : LogAnalysis) : Prop :=
  limits a = [] /\
  highUsageDetails (timeline a)
    = map recordDetails (filter recordIsHigh (governorLimits a)) /\
  Forall (fun g => isNegative (usage g) = false) (governorLimits a).

(** What every iteration of the loop keeps. *)
Definition invariant (st : LoopState) : Prop :=
  agrees (limitMap st) (limitWrites st) /\ consistent (analysis st).

(** "Queries" sampled at 10 of 100, then at 55 of 100. *)
Definition queriesLog : string :=
  "1.0|CUMULATIVE_LIMIT_USAGE|(default)|Queries: 10 of 100" ++ NL ++
  "2.0|CUMULATIVE_LIMIT_USAGE|(default)|Queries: 55 of 100".

(** ** The extractor *)

(** A log of 50001 lines whose first line is a start marker of the test
    method asked for. *)
Definition oversizedLog : string :=
  "1|CODE_UNIT_STARTED|x|ClsA.testFoo" ++ Pos.iter (String newline) EmptyString 50000.

(** The state of the scan after the lines [pre] have been read. *)
Definition reached (safeClassName safeMethodName safeSetupMethodName : string)
           (setupGiven : bool) (pre : list string) : ScanState :=
  scan safeClassName safeMethodName safeSetupMethodName setupGiven pre initialScan.

(** What every iteration keeps: the flags exclude each other, and an open
    section has a buffer that is not empty. *)
Definition wellFormed (st : ScanState) : Prop :=
  inSetupMethod st && inTestMethod st = false /\
  (inSetupMethod st || inTestMethod st = true -> currentSection st <> []).

(** ** The command-line client and the report *)

(** A character of a sanitized name, or the dash of an option. *)
Definition isArgChar (c : ascii) : bool :=
  SalesforceClient.isCliChar c || Ascii.eqb c "-".

(** The characters of the list of quoted ids. *)
Definition isIdListChar (c : ascii) : bool :=
  SalesforceClient.isAlphanumeric c || Ascii.eqb c "'" || Ascii.eqb c "," ||
  Ascii.eqb c " ".

(** The occurrences of [c] in [s]. *)
Fixpoint countChar (c : ascii) (s : string) : nat :=
  match s with
  | EmptyString => 0
  | String d s' => (if Ascii.eqb d c then 1 else 0) + countChar c s'
  end.

(** The texts of [handleTestError] that are not the message of the error. *)
Definition genericMessages : list string :=
  ["Failed to run test. Please check your connection and try again.";
   "Invalid Salesforce ID format.";
   "Invalid field in query.";
   "Invalid query format.";
   "Unable to process test results. Please try again.";
   "An error occurred while running tests.";
   "An unexpected error occurred."].

(** The entity of one character, or the character itself. *)
Definition escapeChar (c : ascii) : string :=
  if Ascii.eqb c "&" then "&amp;"
  else if Ascii.eqb c "<" then "&lt;"
  else if Ascii.eqb c ">" then "&gt;"
  else if Ascii.eqb c doubleQuote then "&quot;"
  else if Ascii.eqb c "'" then "&#039;"
  else String c EmptyString.

(** Each character replaced by a string, in one pass. *)
Fixpoint expand (f : ascii -> string) (s : string) : string :=
  match s with
  | EmptyString => EmptyString
  | String c s' => f c ++ expand f s'
  end.

(** The characters that open or close a tag or an attribute value. *)
Definition isMarkup (c : ascii) : bool :=
  Ascii.eqb c "<" || Ascii.eqb c ">" || Ascii.eqb c doubleQuote || Ascii.eqb c "'".

(** ** The units of a log, as the extractor reads them *)

(** [sub] is [l] with some elements left out: nothing added, nothing
    repeated, nothing reordered. *)
Inductive Subsequence {A : Type} : list A -> list A -> Prop :=
| SubsequenceNil : Subsequence [] []
| SubsequenceSkip (x : A) (sub l : list A) : Subsequence sub l -> Subsequence sub (x :: l)
| SubsequenceTake (x : A) (sub l : list A) :
    Subsequence sub l -> Subsequence (x :: sub) (x :: l).

(** No section is open and nothing is buffered. *)
Definition closed (st : ScanState) : Prop :=
  inSetupMethod st = false /\ inTestMethod st = false /\ currentSection st = [].

(** The open buffer of a section. *)
Definition pending (open : bool) (st : ScanState) : list string :=
  if open then currentSection st else [].

(** What a scan keeps, of the lines [pre] read so far. *)
Definition captured (st : ScanState) (pre : list string) : Prop :=
  Subsequence (setupMethodSections st ++ pending (inSetupMethod st) st) pre /\
  Subsequence (testMethodSections st ++ pending (inTestMethod st) st) pre /\
  inSetupMethod st && inTestMethod st = false /\
  (inSetupMethod st || inTestMethod st = false -> currentSection st = []).

(** The state in which the test section is open, with the lines it holds;
    the same for the setup section. *)
Definition testOpen (st : ScanState) (setupSections held : list string) : Prop :=
  inSetupMethod st = false /\ inTestMethod st = true /\
  setupMethodSections st = setupSections /\
  (testMethodSections st ++ currentSection st)%list = held.

Definition setupOpen (st : ScanState) (testSections held : list string) : Prop :=
  inSetupMethod st = true /\ inTestMethod st = false /\
  testMethodSections st = testSections /\
  (setupMethodSections st ++ currentSection st)%list = held.

(** The sanitized name of the setup method, empty when none is given. *)
Definition sanitizeOptional (setupMethodName : option string) : string :=
  match setupMethodName with
  | Some setup => sanitize setup
  | None => EmptyString
  end.

Section Units.

Variables safeClassName safeMethodName safeSetupMethodName : string.

(** A line that opens no section. *)
Definition outside (line : string) : bool :=
  negb (opensSetup safeClassName safeSetupMethodName line) &&
  negb (opensTest safeClassName safeMethodName safeSetupMethodName line).

(** The end marker of the test method, and a line that neither is one nor
    opens the setup section. *)
Definition finishesTest (line : string) : bool :=
  includes "CODE_UNIT_FINISHED" line &&
  includes (testName safeClassName safeMethodName) line &&
  negb (includes "CODE_UNIT_STARTED" line).

Definition insideTest (line : string) : bool :=
  negb (opensSetup safeClassName safeSetupMethodName line) &&
  negb (includes "CODE_UNIT_FINISHED" line &&
        includes (testName safeClassName safeMethodName) line).

(** The same for the setup method. *)
Definition finishesSetup (line : string) : bool :=
  includes "CODE_UNIT_FINISHED" line &&
  includes (setupName safeClassName safeSetupMethodName) line &&
  negb (includes "CODE_UNIT_STARTED" line).

Definition insideSetup (line : string) : bool :=
  negb (opensTest safeClassName safeMethodName safeSetupMethodName line) &&
  negb (includes "CODE_UNIT_FINISHED" line &&
        includes (setupName safeClassName safeSetupMethodName) line).


End Units.

(** ** What the analysis records *)

(** An entry of the timeline with a given label, and their number. *)
Definition hasLabel (label : string) (e : TimelineEvent) : bool :=
  String.eqb (event e) label.

Definition countLabel (label : string) (a : LogAnalysis) : nat :=
  List.length (filter (hasLabel label) (timeline a)).

(** Zero after [n] times [x + 1]: the value of a counter of the summary
    that has counted [n] events. *)
Definition incremented (n : nat) : number := Nat.iter n (fun x => add x one) zero.

(** Whether there is a coverage summary. *)
Definition hasCoverage (a : LogAnalysis) : bool :=
  match codeCoverage a with Some _ => true | None => false end.

(** What the fields of an analysis have to do with each other, during the
    loop and after it. *)
Definition coherent (a : LogAnalysis) : Prop :=
  map (fun e => Some (errorMessage e)) (errors a)
    = map details (filter (hasLabel "Error") (timeline a)) /\
  countLabel "Debug Log" a = List.length (debugLines a) /\
  numSoqlQueries (summary a) = incremented (countLabel "SOQL Query" a) /\
  numDmlStatements (summary a) = incremented (countLabel "DML Operation" a) /\
  implb (hasCoverage a) (hasCoverageInfo a) = true /\
  methodCalls a = [] /\
  totalTimeMs (summary a) = totalExecutionTimeMs a.

(** ** Lines without effect, stack traces and the order of the limits *)

(** A line that is blank, or has fewer than two fields, or has an event tag
    that no branch of the dispatcher recognizes. *)
Definition isIgnored (line : string) : bool :=
  String.eqb (trim line) EmptyString ||
  (List.length (split "|" line) <? 2)%nat ||
  match classify (nth 1 (split "|" line) EmptyString) with
  | None => true
  | Some _ => false
  end.

(** The lines up to the first event header. *)
Fixpoint upToHeader (rest : list string) : list string :=
  match rest with
  | [] => []
  | line :: rest' => if test eventHeader line then [] else line :: upToHeader rest'
  end.

(** The lines of a window that make the stack trace: those before the
    first event header that are not blank, each trimmed. *)
Definition traceLines (window : list string) : list string :=
  map trim (filter (fun line => negb (String.eqb (trim line) EmptyString))
                   (upToHeader window)).

(** No entry is followed by one on which the comparator of the sort is
    positive, that is, by one of a greater percentage. *)
Fixpoint descending (l : list LimitUsage) : Prop :=
  match l with
  | x :: rest =>
      match rest with
      | y :: _ => sortsAfter x y = false
      | [] => True
      end /\ descending rest
  | [] => True
  end.

(** ** What an iteration leaves as it was *)

(** The label and the time of an entry of the timeline; the line number and
    the timestamp of a debug statement. *)
Definition stamp (e : TimelineEvent) : string * number := (event e, timeMs e).
Definition place (d : DebugLine) : number * string := (lineNumber d, timestamp d).

(** [l'] is [l] with elements added at the end. *)
Definition extendsList {A : Type} (l l' : list A) : Prop := exists more, l' = (l ++ more)%list.

(** [a'] has what [a] has, in the same order, and possibly more after it:
    the entries of the timeline with their labels and times, the errors, the
    debug statements with their line numbers and timestamps, the raw
    cumulative records. *)
Definition extends (a a' : LogAnalysis) : Prop :=
  extendsList (map stamp (timeline a)) (map stamp (timeline a')) /\
  extendsList (errors a) (errors a') /\
  extendsList (map place (debugLines a)) (map place (debugLines a')) /\
  extendsList (governorLimits a) (governorLimits a').

End Vocabulary.

(* ================================================================= *)
(** * Properties of the section extractor *)

Module ExtractorProperties.

Import ApexTestRunner Vocabulary.

(** ** Early returns *)

(** C10: on the empty log and on the log ['No logs found'] the extractor
    returns ['No logs available for this method.'], whatever the class
    name, the method name and the setup-method name are; no line is
    scanned, the answer being this constant. *)
Theorem no_logs_advisory (className methodName setupMethodName : value) :
  filterLogsForMethod (VString EmptyString) className methodName setupMethodName
    = Normal "No logs available for this method."
  /\ filterLogsForMethod (VString "No logs found") className methodName setupMethodName
    = Normal "No logs available for this method.".
Proof. split; reflexivity. Qed.

(** A log over one of the two caps is neither empty nor ['No logs found']. *)
Lemma over_cap_passes_first_guard (log : string) :
  (MAX_LOG_SIZE < lengthZ log \/
   MAX_LINES < Z.of_nat (List.length (split newline log)))%Z ->
  negb (truthy (VString log)) || String.eqb log "No logs found" = false.
Proof.
  intros Hcap. simpl.
  destruct (String.eqb_spec log EmptyString) as [-> | _].
  - exfalso. destruct Hcap as [H | H]; vm_compute in H; discriminate.
  - destruct (String.eqb_spec log "No logs found") as [-> | _]; [ | reflexivity ].
    exfalso. destruct Hcap as [H | H]; vm_compute in H; discriminate.
Qed.

(** C3: when the raw log is longer than 1 MB, or has more than 50000
    lines, the extractor called on a class name, a method name and an
    optional setup-method name returns the advisory string on the size of
    the log; the result is this constant, so no content of the lines takes
    part in it.  (Were a name not a string, the validation that comes before
    the caps would answer with its own constant, again without a scan.) *)
Theorem too_large_advisory (log className methodName : string)
        (setupMethodName : option string) :
  (MAX_LOG_SIZE < lengthZ log \/
   MAX_LINES < Z.of_nat (List.length (split newline log)))%Z ->
  MAX_LOG_SIZE = 1048576%Z /\ MAX_LINES = 50000%Z /\
  filterLogsForMethod (VString log) (VString className) (VString methodName)
                      (optional setupMethodName)
    = Normal "Log is too large to display. Please check the raw logs on Salesforce." /\
  (forall class method setup : value,
      filterLogsForMethod (VString log) class method setup = Normal tooLargeAdvisory \/
      filterLogsForMethod (VString log) class method setup = Normal invalidInputsAdvisory).
Proof.
  intros Hcap. split; [ reflexivity | split; [ reflexivity | ] ].
  assert (Hcaps : forall other : completion string,
             (if (MAX_LOG_SIZE <? lengthZ log)%Z then Normal tooLargeAdvisory
              else if (MAX_LINES <? Z.of_nat (List.length (split newline log)))%Z
                   then Normal tooLargeAdvisory else other)
             = Normal tooLargeAdvisory).
  { intros other.
    destruct (Z.ltb_spec MAX_LOG_SIZE (lengthZ log)) as [_ | Hsize]; [ reflexivity | ].
    destruct (Z.ltb_spec MAX_LINES (Z.of_nat (List.length (split newline log))))
      as [_ | Hlines]; [ reflexivity | ].
    exfalso. destruct Hcap; lia. }
  split.
  - unfold filterLogsForMethod.
    rewrite (over_cap_passes_first_guard log Hcap).
    assert (Hvalid :
              negb (isString (VString className)) || negb (isString (VString methodName)) ||
              (negb (isUndefined (optional setupMethodName)) &&
               negb (isString (optional setupMethodName))) = false)
      by (destruct setupMethodName; reflexivity).
    rewrite Hvalid. apply Hcaps.
  - intros class method setup. unfold filterLogsForMethod.
    rewrite (over_cap_passes_first_guard log Hcap).
    destruct (_ || _) eqn:Hvalid; [ now right | ].
    destruct class, method; try discriminate Hvalid.
    left. apply Hcaps.
Qed.

Lemma too_large_advisory_witness :
  (MAX_LINES < Z.of_nat (List.length (split newline oversizedLog)))%Z /\
  filterLogsForMethod (VString oversizedLog) (VString "ClsA") (VString "testFoo")
                      VUndefined
    = Normal tooLargeAdvisory.
Proof.
  assert (H : (MAX_LINES < Z.of_nat (List.length (split newline oversizedLog)))%Z)
    by (vm_compute; reflexivity).
  split; [ exact H | ].
  exact (proj1 (proj2 (proj2 (too_large_advisory oversizedLog "ClsA" "testFoo" None
                                                 (or_intror H))))).
Defined.

(** ** The two section flags *)

Section Flags.

Variables safeClassName safeMethodName safeSetupMethodName : string.
Variable setupGiven : bool.

Local Abbreviation scanLine := (scanLine safeClassName safeMethodName safeSetupMethodName setupGiven).
Local Abbreviation opensSetup := (opensSetup safeClassName safeSetupMethodName).
Local Abbreviation opensTest := (opensTest safeClassName safeMethodName safeSetupMethodName).
Local Abbreviation reached := (reached safeClassName safeMethodName safeSetupMethodName setupGiven).

(** The scan of [logLines] passes through [reached pre] for every prefix
    [pre] of [logLines]. *)
Lemma scan_passes_through (pre rest : list string) :
  reached (pre ++ rest)
  = scan safeClassName safeMethodName safeSetupMethodName setupGiven rest (reached pre).
Proof. unfold Vocabulary.reached, scan. apply fold_left_app. Qed.

Lemma snoc_not_nil (l : list string) (x : string) : (l ++ [x])%list <> [].
Proof. destruct l; discriminate. Qed.

Ltac split_conditions :=
  repeat match goal with
         | |- context [if ?b then _ else _] => destruct b eqn:?
         | |- context [match currentSection ?st with _ => _ end] =>
             destruct (currentSection st) eqn:?
         end.

Lemma scanLine_wellFormed (st : ScanState) (line : string) :
  wellFormed st -> wellFormed (scanLine st line).
Proof.
  intros [Hexcl Hbuf].
  unfold ApexTestRunner.scanLine, finishOrBuffer, saveCurrent;
    cbn [currentSection inSetupMethod inTestMethod].
  split_conditions; split; cbn [currentSection inSetupMethod inTestMethod];
    try reflexivity; intros; try apply snoc_not_nil;
    repeat match goal with
           | H : _ && _ = true |- _ => apply andb_true_iff in H; destruct H
           end;
    destruct (inSetupMethod st), (inTestMethod st); cbn [andb orb] in *;
    try discriminate; try reflexivity; auto.
Qed.

Lemma reached_wellFormed (pre : list string) : wellFormed (reached pre).
Proof.
  induction pre as [ | line pre IH ] using rev_ind.
  - split; [ reflexivity | discriminate ].
  - rewrite scan_passes_through. cbn [scan fold_left]. now apply scanLine_wellFormed.
Qed.

Lemma setup_start_flushes_test (st : ScanState) (line : string) :
  wellFormed st -> opensSetup line = true -> inTestMethod st = true ->
  let st' := scanLine st line in
  testMethodSections st' = (testMethodSections st ++ currentSection st)%list /\
  setupMethodSections st' = setupMethodSections st /\
  currentSection st' = [line] /\
  inSetupMethod st' = true /\ inTestMethod st' = false.
Proof.
  intros [Hexcl Hbuf] Hopen Htest.
  unfold ApexTestRunner.opensSetup in Hopen.
  apply andb_true_iff in Hopen as [Hopen Hname].
  apply andb_true_iff in Hopen as [Hstart Hgiven].
  assert (Hsetup : inSetupMethod st = false)
    by (rewrite Htest, andb_true_r in Hexcl; exact Hexcl).
  assert (Hne : currentSection st <> [])
    by (apply Hbuf; rewrite Htest; apply orb_true_r).
  cbv zeta. unfold ApexTestRunner.scanLine. rewrite Hstart, Hgiven, Hname.
  unfold saveCurrent; cbn [currentSection inSetupMethod inTestMethod andb].
  destruct (currentSection st) as [ | l0 buffer ] eqn:Hcur; [ contradiction | ].
  rewrite Hsetup, Htest.
  cbn [currentSection inSetupMethod inTestMethod setupMethodSections
       testMethodSections app].
  repeat split; reflexivity.
Qed.

Lemma test_start_flushes_setup (st : ScanState) (line : string) :
  wellFormed st -> opensTest line = true -> inSetupMethod st = true ->
  let st' := scanLine st line in
  setupMethodSections st' = (setupMethodSections st ++ currentSection st)%list /\
  testMethodSections st' = testMethodSections st /\
  currentSection st' = [line] /\
  inTestMethod st' = true /\ inSetupMethod st' = false.
Proof.
  intros [Hexcl Hbuf] Hopen Hsetup.
  unfold ApexTestRunner.opensTest in Hopen.
  apply andb_true_iff in Hopen as [Hopen Hname].
  apply andb_true_iff in Hopen as [Hstart Hnot].
  apply negb_true_iff in Hnot. unfold ApexTestRunner.opensSetup in Hnot.
  rewrite Hstart in Hnot. cbn [andb] in Hnot.
  assert (Hne : currentSection st <> [])
    by (apply Hbuf; rewrite Hsetup; reflexivity).
  cbv zeta. unfold ApexTestRunner.scanLine. rewrite Hstart, Hnot, Hname.
  unfold saveCurrent; cbn [currentSection inSetupMethod inTestMethod andb].
  destruct (currentSection st) as [ | l0 buffer ] eqn:Hcur; [ contradiction | ].
  rewrite Hsetup.
  cbn [currentSection inSetupMethod inTestMethod setupMethodSections
       testMethodSections app].
  repeat split; reflexivity.
Qed.

End Flags.

(** C8: at every point of a scan (after any number [pre] of lines) the
    flags "in setup section" and "in test section" are not both set; and a
    unit-start marker that opens one section while the other is open first
    moves the buffered lines to the list of the section that was open, then
    makes the new section the active one, its buffer holding the marker
    line. *)
Theorem flags_exclusive_and_flushed
        (safeClassName safeMethodName safeSetupMethodName : string) (setupGiven : bool) :
  let reached := reached safeClassName safeMethodName safeSetupMethodName setupGiven in
  let scanLine := scanLine safeClassName safeMethodName safeSetupMethodName setupGiven in
  (forall pre : list string,
      inSetupMethod (reached pre) && inTestMethod (reached pre) = false) /\
  (forall (pre : list string) (line : string),
      opensSetup safeClassName safeSetupMethodName line = true ->
      inTestMethod (reached pre) = true ->
      testMethodSections (scanLine (reached pre) line)
        = (testMethodSections (reached pre) ++ currentSection (reached pre))%list /\
      setupMethodSections (scanLine (reached pre) line)
        = setupMethodSections (reached pre) /\
      currentSection (scanLine (reached pre) line) = [line] /\
      inSetupMethod (scanLine (reached pre) line) = true /\
      inTestMethod (scanLine (reached pre) line) = false) /\
  (forall (pre : list string) (line : string),
      opensTest safeClassName safeMethodName safeSetupMethodName line = true ->
      inSetupMethod (reached pre) = true ->
      setupMethodSections (scanLine (reached pre) line)
        = (setupMethodSections (reached pre) ++ currentSection (reached pre))%list /\
      testMethodSections (scanLine (reached pre) line)
        = testMethodSections (reached pre) /\
      currentSection (scanLine (reached pre) line) = [line] /\
      inTestMethod (scanLine (reached pre) line) = true /\
      inSetupMethod (scanLine (reached pre) line) = false).
Proof.
  cbv zeta. split; [ | split ].
  - intros pre. apply reached_wellFormed.
  - intros pre line Hopen Htest.
    now apply setup_start_flushes_test; [ apply reached_wellFormed | | ].
  - intros pre line Hopen Hsetup.
    now apply test_start_flushes_setup; [ apply reached_wellFormed | | ].
Qed.

Lemma flags_exclusive_and_flushed_witness :
  let inTest := ["1|CODE_UNIT_STARTED|x|ClsA.testFoo"; "in test"] in
  let inSetup := ["1|CODE_UNIT_STARTED|x|ClsA.setupData"; "in setup"] in
  let setupStart := "2|CODE_UNIT_STARTED|x|ClsA.setupData" in
  let testStart := "2|CODE_UNIT_STARTED|x|ClsA.testFoo" in
  let reached := reached "ClsA" "testFoo" "setupData" true in
  let scanLine := scanLine "ClsA" "testFoo" "setupData" true in
  (opensSetup "ClsA" "setupData" setupStart = true /\
   inTestMethod (reached inTest) = true /\
   testMethodSections (scanLine (reached inTest) setupStart) = inTest) /\
  (opensTest "ClsA" "testFoo" "setupData" testStart = true /\
   inSetupMethod (reached inSetup) = true /\
   setupMethodSections (scanLine (reached inSetup) testStart) = inSetup).
Proof.
  cbv zeta.
  destruct (flags_exclusive_and_flushed "ClsA" "testFoo" "setupData" true)
    as [_ [Hsetup Htest]].
  split.
  - split; [ reflexivity | split; [ reflexivity | ] ].
    rewrite (proj1 (Hsetup ["1|CODE_UNIT_STARTED|x|ClsA.testFoo"; "in test"]
                           "2|CODE_UNIT_STARTED|x|ClsA.setupData"
                           eq_refl eq_refl)).
    reflexivity.
  - split; [ reflexivity | split; [ reflexivity | ] ].
    rewrite (proj1 (Htest ["1|CODE_UNIT_STARTED|x|ClsA.setupData"; "in setup"]
                          "2|CODE_UNIT_STARTED|x|ClsA.testFoo"
                          eq_refl eq_refl)).
    reflexivity.
Defined.

End ExtractorProperties.

(* ================================================================= *)
(** * Facts on the string built-ins *)

Module StringFacts.

Import Vocabulary.

Lemma append_assoc (a b c : string) : (a ++ b) ++ c = a ++ b ++ c.
Proof. induction a as [ | x a IH ]; cbn; [ reflexivity | now rewrite IH ]. Qed.

Lemma lacks_cons (c a : ascii) (s : string) :
  lacks c (String a s) <-> Ascii.eqb a c = false /\ lacks c s.
Proof.
  unfold lacks. cbn [includes startsWith]. rewrite andb_true_r. apply orb_false_iff.
Qed.

Lemma split_lacking (sep : ascii) (s : string) : lacks sep s -> split sep s = [s].
Proof.
  induction s as [ | a s IH ]; intros H; [ reflexivity | ].
  apply lacks_cons in H as [Ha Hs]. cbn [split]. now rewrite Ha, (IH Hs).
Qed.

(** The first piece of a split is the text before the first separator. *)
Lemma split_app (sep : ascii) (s rest : string) :
  lacks sep s -> split sep (s ++ String sep rest) = s :: split sep rest.
Proof.
  induction s as [ | a s IH ]; intros H.
  - cbn. now rewrite Ascii.eqb_refl.
  - apply lacks_cons in H as [Ha Hs]. cbn [append split]. now rewrite Ha, (IH Hs).
Qed.

(** Lines without a newline are the lines of their join. *)
Lemma split_join (line : string) (lines : list string) :
  Forall (lacks newline) (line :: lines) ->
  split newline (join NL (line :: lines)) = line :: lines.
Proof.
  revert line. induction lines as [ | next lines IH ]; intros line H.
  - cbn [join]. apply split_lacking. now inversion H.
  - change (join NL (line :: next :: lines))
      with (line ++ String newline (join NL (next :: lines))).
    inversion H as [ | ? ? Hline Hrest ]; subst.
    rewrite (split_app _ _ _ Hline). f_equal. now apply IH.
Qed.

(** ** Blank lines *)

Lemma trimEnd_empty (s : string) : trimEnd s = EmptyString -> allWhiteSpace s = true.
Proof.
  induction s as [ | c s IH ]; [ reflexivity | ].
  cbn [trimEnd allWhiteSpace].
  destruct (trimEnd s); [ | discriminate ].
  destruct (isWhiteSpace c); [ intros _; now apply IH | discriminate ].
Qed.

Lemma trimStart_shape (s : string) :
  trimStart s = EmptyString \/
  exists c t, trimStart s = String c t /\ isWhiteSpace c = false.
Proof.
  induction s as [ | c s IH ]; [ now left | ].
  cbn [trimStart]. destruct (isWhiteSpace c) eqn:Hc; [ exact IH | ].
  right. now exists c, s.
Qed.

Lemma trimStart_empty (s : string) : trimStart s = EmptyString -> allWhiteSpace s = true.
Proof.
  induction s as [ | c s IH ]; [ reflexivity | ].
  cbn [trimStart allWhiteSpace].
  destruct (isWhiteSpace c); [ exact IH | discriminate ].
Qed.

(** A line that [trim] empties is made of white space. *)
Lemma blank_allWhiteSpace (s : string) : trim s = EmptyString -> allWhiteSpace s = true.
Proof.
  unfold trim. intros H.
  destruct (trimStart_shape s) as [Hs | [c [t [Hs Hc]]]].
  - now apply trimStart_empty.
  - rewrite Hs in H. apply trimEnd_empty in H. cbn [allWhiteSpace] in H.
    rewrite Hc in H. discriminate.
Qed.

(** A line that starts with a character other than white space is not
    blank. *)
Lemma not_blank (c : ascii) (s : string) :
  isWhiteSpace c = false -> trim (String c s) <> EmptyString.
Proof.
  intros Hc H. apply blank_allWhiteSpace in H. cbn [allWhiteSpace] in H.
  rewrite Hc in H. discriminate.
Qed.

(** A blank line has no [|]: it is one field. *)
Lemma blank_one_field (s : string) : trim s = EmptyString -> split "|" s = [s].
Proof.
  intros H. apply blank_allWhiteSpace in H. apply split_lacking.
  induction s as [ | c s IH ]; [ reflexivity | ].
  cbn [allWhiteSpace] in H. apply andb_true_iff in H as [Hc Hs].
  apply lacks_cons. split; [ | now apply IH ].
  destruct (Ascii.eqb_spec c "|") as [-> | ]; [ discriminate Hc | reflexivity ].
Qed.

Lemma digit_not_whiteSpace (c : ascii) : isDigit c = true -> isWhiteSpace c = false.
Proof.
  unfold isDigit, isWhiteSpace. intros H.
  apply andb_true_iff in H as [Hlo Hhi].
  apply Nat.leb_le in Hlo. apply Nat.leb_le in Hhi.
  repeat (apply orb_false_iff; split);
    [ apply andb_false_iff; right; apply Nat.leb_gt; lia
    | apply Nat.eqb_neq; lia | apply Nat.eqb_neq; lia ].
Qed.

(** ** Patterns anchored at the start *)

Lemma search_anchored_later (r : regex) (s : string) :
  forall pos : nat, search (RSeq RBol r) (S pos) s = None.
Proof.
  induction s as [ | c s IH ]; intros pos; cbn [search]; unfold matchAt;
    cbn [run Nat.eqb]; [ reflexivity | apply IH ].
Qed.

(** A match of an anchored pattern is a match at position 0. *)
Lemma test_anchored (r : regex) (s : string) :
  test (RSeq RBol r) s = true -> matchAt (RSeq RBol r) 0 s <> None.
Proof.
  unfold test, match_. destruct s as [ | c s ]; cbn [search].
  - destruct (matchAt _ 0 _); [ discriminate | discriminate ].
  - destruct (matchAt _ 0 _); [ discriminate | ].
    now rewrite search_anchored_later.
Qed.

(** A line with the timestamp prefix starts with a digit. *)
Lemma timestamp_starts_with_digit (s : string) :
  test LogAnalyzerHandler.timestampPrefix s = true ->
  exists c t, s = String c t /\ isDigit c = true.
Proof.
  unfold LogAnalyzerHandler.timestampPrefix. intros H. apply test_anchored in H.
  destruct s as [ | c t ]; [ exfalso; apply H; reflexivity | ].
  exists c, t. split; [ reflexivity | ].
  destruct (isDigit c) eqn:Hc; [ reflexivity | ].
  exfalso. apply H. unfold matchAt, RPlus, digit. cbn [run Nat.eqb].
  now rewrite Hc.
Qed.

Lemma timestamp_not_blank (s : string) :
  test LogAnalyzerHandler.timestampPrefix s = true -> trim s <> EmptyString.
Proof.
  intros H. destruct (timestamp_starts_with_digit s H) as [c [t [-> Hc]]].
  apply not_blank, digit_not_whiteSpace, Hc.
Qed.

(** ** What the second group of a pattern captures *)

Lemma substring_digitLed (n : nat) (d : ascii) (s : string) :
  isDigit d = true -> digitLed (substring 0 n (String d s)) = true.
Proof. intros H. destruct n; [ reflexivity | exact H ]. Qed.

Lemma secondGroupOk_other (n : nat) (w : string) (caps : captures) :
  n <> 2 -> secondGroupOk caps -> secondGroupOk ((n, w) :: caps).
Proof.
  intros Hn H w' Hw'. cbn [group] in Hw'.
  destruct (Nat.eqb_spec n 2); [ contradiction | now apply H ].
Qed.

Lemma secondGroupOk_digits (w : string) (caps : captures) :
  digitLed w = true -> secondGroupOk ((2, w) :: caps).
Proof. intros Hw w' Hw'. cbn in Hw'. now injection Hw' as <-. Qed.

Lemma run_keeps (r : regex) :
  secondGroupIsDigits r ->
  forall k, keeps k -> keeps (fun pos s caps => run r pos s caps k).
Proof.
  induction r as [ c | p | | | r1 IH1 r2 IH2 | r1 IH1 r2 IH2 | r1 IH1 | n r1 IH1 ];
    intros Hr k Hk; cbn [secondGroupIsDigits] in Hr.
  - intros pos s caps res Hcaps H. cbn [run] in H.
    destruct s as [ | a s ]; [ discriminate | ].
    destruct (Ascii.eqb a c); [ eapply Hk; eassumption | discriminate ].
  - intros pos s caps res Hcaps H. cbn [run] in H.
    destruct s as [ | a s ]; [ discriminate | ].
    destruct (p a); [ eapply Hk; eassumption | discriminate ].
  - intros pos s caps res Hcaps H. eapply Hk; eassumption.
  - intros pos s caps res Hcaps H. cbn [run] in H.
    destruct (pos =? 0)%nat; [ eapply Hk; eassumption | discriminate ].
  - destruct Hr as [Hr1 Hr2]. cbn [run].
    apply (IH1 Hr1 (fun pos' s' caps' => run r2 pos' s' caps' k)).
    now apply IH2.
  - destruct Hr as [Hr1 Hr2]. intros pos s caps res Hcaps H. cbn [run] in H.
    destruct (run r1 pos s caps k) as [ res1 | ] eqn:H1.
    + injection H as <-. eapply (IH1 Hr1 k Hk); eassumption.
    + eapply (IH2 Hr2 k Hk); eassumption.
  - intros pos s caps res Hcaps H. cbn [run] in H.
    revert H. generalize (String.length s). intros fuel. revert pos s caps res Hcaps.
    induction fuel as [ | fuel IHfuel ]; intros pos s caps res Hcaps H.
    + eapply Hk; eassumption.
    + match type of H with
      | match ?first with _ => _ end = _ => destruct first as [ res1 | ] eqn:H1
      end.
      * injection H as <-.
        eapply (IH1 Hr) in H1; [ exact H1 | | exact Hcaps ].
        intros pos' s' caps' res' Hcaps' H'.
        destruct (pos <? pos')%nat; [ | discriminate ].
        eapply IHfuel; eassumption.
      * eapply Hk; eassumption.
  - intros pos s caps res Hcaps H. cbn [run] in H.
    destruct Hr as [ [Hn Hr1] | [-> ->] ].
    + eapply (IH1 Hr1) in H; [ exact H | | exact Hcaps ].
      intros pos' s' caps' res' Hcaps' H'.
      eapply Hk; [ | exact H' ]. now apply secondGroupOk_other.
    + assert (Hs : exists d t, s = String d t /\ isDigit d = true).
      { unfold RPlus, digit in H. cbn [run] in H.
        destruct s as [ | d t ]; [ discriminate | ].
        destruct (isDigit d) eqn:Hd; [ now exists d, t | discriminate ]. }
      destruct Hs as [d [t [-> Hd]]].
      eapply (IH1 (conj I I)) in H; [ exact H | | exact Hcaps ].
      intros pos' s' caps' res' Hcaps' H'.
      eapply Hk; [ | exact H' ].
      now apply secondGroupOk_digits, substring_digitLed.
Qed.

Lemma match_secondGroupOk (r : regex) (s : string) (caps : captures) :
  secondGroupIsDigits r -> match_ r s = Some caps -> digitLed (capture 2 caps) = true.
Proof.
  intros Hr H.
  assert (Hok : secondGroupOk caps).
  { unfold match_ in H. revert H. generalize 0.
    induction s as [ | c s IH ]; intros pos H; cbn [search] in H.
    - destruct (matchAt r pos EmptyString) as [ res | ] eqn:Hm; [ | discriminate ].
      injection H as <-. unfold matchAt in Hm.
      eapply (run_keeps r Hr) in Hm; [ exact Hm | | intros w Hw; discriminate ].
      intros pos' s' caps' res' Hcaps' H'. injection H' as <-.
      now apply secondGroupOk_other.
    - destruct (matchAt r pos (String c s)) as [ res | ] eqn:Hm.
      + injection H as <-. unfold matchAt in Hm.
        eapply (run_keeps r Hr) in Hm; [ exact Hm | | intros w Hw; discriminate ].
        intros pos' s' caps' res' Hcaps' H'. injection H' as <-.
        now apply secondGroupOk_other.
      + eapply IH, H. }
  unfold capture. destruct (group 2 caps) as [ w | ] eqn:Hw; [ now apply Hok | reflexivity ].
Qed.

(** ** Numbers read from digits *)

Lemma ofZ_not_negative (v : Z) : (0 <= v)%Z -> isNegative (ofZ v) = false.
Proof.
  intros Hv. unfold ofZ, binary_normalize.
  destruct v as [ | p | p ]; [ reflexivity | | lia ].
  unfold binary_round, binary_round_aux.
  destruct (shl_align _ _ _) as [mz ez].
  destruct (shr_fexp _ _ _ _ _) as [mrs e'].
  destruct (shr_fexp _ _ _ _ _) as [mrs' e''].
  destruct (shr_m mrs'); try reflexivity.
  destruct (_ <=? _)%Z; reflexivity.
Qed.

Lemma readDigits_nonneg (radix : Z) (valueOf : ascii -> option Z) (s : string) :
  (0 <= radix)%Z ->
  (forall c d, valueOf c = Some d -> (0 <= d)%Z) ->
  forall (acc : Z) (count : nat),
    (0 <= acc)%Z -> (0 <= fst (fst (readDigits radix valueOf s acc count)))%Z.
Proof.
  intros Hradix Hvalue.
  induction s as [ | c s IH ]; intros acc count Hacc; cbn [readDigits]; [ exact Hacc | ].
  destruct (valueOf c) as [ d | ] eqn:Hc; [ | exact Hacc ].
  apply IH. specialize (Hvalue c d Hc). nia.
Qed.

Lemma digitValue_nonneg (c : ascii) (d : Z) : digitValue c = Some d -> (0 <= d)%Z.
Proof.
  unfold digitValue. destruct (isDigit c) eqn:Hc; [ | intros H; discriminate H ].
  intros H. injection H as <-. unfold isDigit in Hc.
  apply andb_true_iff in Hc as [Hlo _]. apply Nat.leb_le in Hlo. lia.
Qed.

Lemma hexDigitValue_nonneg (c : ascii) (d : Z) : hexDigitValue c = Some d -> (0 <= d)%Z.
Proof.
  unfold hexDigitValue. cbv zeta. intros H.
  repeat match type of H with
         | context [if ?b then _ else _] => destruct b eqn:?
         end;
    try discriminate H; injection H as <-;
    repeat match goal with
           | Hb : _ && _ = true |- _ => apply andb_true_iff in Hb; destruct Hb
           | Hb : (_ <=? _)%Z = true |- _ => apply Z.leb_le in Hb
           end;
    try lia.
  unfold isDigit in *.
  repeat match goal with
         | Hb : _ && _ = true |- _ => apply andb_true_iff in Hb; destruct Hb
         | Hb : (_ <=? _)%nat = true |- _ => apply Nat.leb_le in Hb
         end.
  lia.
Qed.

Lemma readSign_digit (d : ascii) (t : string) :
  isDigit d = true -> readSign (String d t) = (false, String d t).
Proof.
  intros H. destruct d as [ [ ] [ ] [ ] [ ] [ ] [ ] [ ] [ ] ];
    try discriminate H; reflexivity.
Qed.

(** [parseInt] of the empty string or of a string that starts with a digit
    is not below zero. *)
Lemma parseInt_not_negative (w : string) :
  digitLed w = true -> isNegative (parseInt w) = false.
Proof.
  destruct w as [ | d t ]; [ reflexivity | ].
  cbn [digitLed]. intros Hd. unfold parseInt.
  cbn [trimStart]. rewrite (digit_not_whiteSpace d Hd), (readSign_digit d t Hd).
  destruct (_ || _).
  - pose proof (readDigits_nonneg 16 hexDigitValue
                  (substring 2 (String.length (String d t)) (String d t))
                  ltac:(lia) hexDigitValue_nonneg 0 0 ltac:(lia)) as Hv.
    destruct (readDigits 16 _ _ _ _) as [ [v count] rest ]. cbn [fst] in Hv.
    destruct count; [ reflexivity | ].
    destruct (v =? 0)%Z; [ reflexivity | ]. now apply ofZ_not_negative.
  - pose proof (readDigits_nonneg 10 digitValue (String d t)
                  ltac:(lia) digitValue_nonneg 0 0 ltac:(lia)) as Hv.
    destruct (readDigits 10 _ _ _ _) as [ [v count] rest ]. cbn [fst] in Hv.
    destruct count; [ reflexivity | ].
    destruct (v =? 0)%Z; [ reflexivity | ]. now apply ofZ_not_negative.
Qed.

End StringFacts.

(* ================================================================= *)
(** * Properties of the log analyzer *)

Module AnalyzerProperties.

Import LogAnalyzerHandler Vocabulary.

(** ** Code coverage *)

(** The claim of C4 fails where the covered/total ratio is the extraction
    that creates the summary: the percentage is then computed from the
    ratio, it is not the default zero.  Here the only coverage line of the
    log carries the ratio [5/10] and no percentage. *)
Lemma ratio_first_computes_percentage :
  test percentPattern "5/10" = false /\
  option_map codeCoverage (analyzeApexLog "1|CODE_COVERAGE|5/10")
    = Some (Some (mkCoverage (ofZ 50) (ofZ 5) (ofZ 10) [])) /\
  ofZ 50 <> zero.
Proof. split; [ | split ]; [ reflexivity | reflexivity | discriminate ]. Qed.

(** C4, amended: the handler sets the coverage flag and runs the three
    extractions in the order percentage, ratio, uncovered lines, each on
    the summary the one before left.  An extraction whose pattern matches
    and that finds no summary creates it with what it matched: the
    percentage and the uncovered-line extractions with zero or empty for the
    fields of the other two, the ratio extraction with an empty
    uncovered-line list and the percentage computed as
    round(covered / total * 100).  An extraction whose pattern matches and
    that finds a summary stores what it matched in its own fields (the
    percentage; covered and total; the uncovered lines) and leaves the
    others as they are; an extraction whose pattern does not match leaves
    the summary as it is.  So when all three patterns match, every field of
    the summary is the one its own extraction matched, whatever the summary
    was before. *)
Theorem coverage_extractions :
  (forall (a : LogAnalysis) (parts : list string),
      let coverageText := join "|" (slice 2 parts) in
      hasCoverageInfo (processCodeCoverage a parts) = true /\
      codeCoverage (processCodeCoverage a parts)
        = extractUncovered coverageText
            (extractRatio coverageText
               (extractPercentage coverageText (codeCoverage a)))) /\
  (forall (text : string) (c : CodeCoverage),
      (extractPercentage text None = Some c ->
       linesCovered c = zero /\ linesTotal c = zero /\ uncoveredLines c = []) /\
      (extractUncovered text None = Some c ->
       coveragePercentage c = zero /\ linesCovered c = zero /\ linesTotal c = zero) /\
      (extractRatio text None = Some c ->
       uncoveredLines c = [] /\
       coveragePercentage c
         = Math_round (mul (div (linesCovered c) (linesTotal c)) (ofZ 100)))) /\
  (forall (text : string) (c : CodeCoverage),
      (exists c', extractPercentage text (Some c) = Some c' /\
                  linesCovered c' = linesCovered c /\ linesTotal c' = linesTotal c /\
                  uncoveredLines c' = uncoveredLines c) /\
      (exists c', extractRatio text (Some c) = Some c' /\
                  coveragePercentage c' = coveragePercentage c /\
                  uncoveredLines c' = uncoveredLines c) /\
      (exists c', extractUncovered text (Some c) = Some c' /\
                  coveragePercentage c' = coveragePercentage c /\
                  linesCovered c' = linesCovered c /\ linesTotal c' = linesTotal c)) /\
  (forall (text : string) (cc : option CodeCoverage),
      (test percentPattern text = false -> extractPercentage text cc = cc) /\
      (test ratioPattern text = false -> extractRatio text cc = cc) /\
      (test uncoveredPattern text = false -> extractUncovered text cc = cc)) /\
  (forall (text : string) (m : captures),
      (match_ percentPattern text = Some m ->
       extractPercentage text None
         = Some (mkCoverage (parseInt (capture 1 m)) zero zero [])) /\
      (match_ ratioPattern text = Some m ->
       extractRatio text None
         = Some (mkCoverage
                   (Math_round (mul (div (parseInt (capture 1 m)) (parseInt (capture 2 m)))
                                    (ofZ 100)))
                   (parseInt (capture 1 m)) (parseInt (capture 2 m)) [])) /\
      (match_ uncoveredPattern text = Some m ->
       extractUncovered text None
         = Some (mkCoverage zero zero zero (parseUncovered (capture 1 m))))) /\
  (forall (text : string) (m : captures) (c : CodeCoverage),
      (match_ percentPattern text = Some m ->
       extractPercentage text (Some c)
         = Some (mkCoverage (parseInt (capture 1 m)) (linesCovered c) (linesTotal c)
                            (uncoveredLines c))) /\
      (match_ ratioPattern text = Some m ->
       extractRatio text (Some c)
         = Some (mkCoverage (coveragePercentage c) (parseInt (capture 1 m))
                            (parseInt (capture 2 m)) (uncoveredLines c))) /\
      (match_ uncoveredPattern text = Some m ->
       extractUncovered text (Some c)
         = Some (mkCoverage (coveragePercentage c) (linesCovered c) (linesTotal c)
                            (parseUncovered (capture 1 m))))) /\
  (forall (a : LogAnalysis) (parts : list string) (percent ratio uncovered : captures),
      let coverageText := join "|" (slice 2 parts) in
      match_ percentPattern coverageText = Some percent ->
      match_ ratioPattern coverageText = Some ratio ->
      match_ uncoveredPattern coverageText = Some uncovered ->
      codeCoverage (processCodeCoverage a parts)
        = Some (mkCoverage (parseInt (capture 1 percent))
                           (parseInt (capture 1 ratio)) (parseInt (capture 2 ratio))
                           (parseUncovered (capture 1 uncovered)))).
Proof.
  split; [ | split; [ | split; [ | split; [ | split; [ | split ] ] ] ] ].
  - intros a parts. split; reflexivity.
  - intros text c. unfold extractPercentage, extractUncovered, extractRatio.
    split; [ | split ]; intros H; destruct (match_ _ text); try discriminate H;
      injection H as <-; repeat split; reflexivity.
  - intros text c. unfold extractPercentage, extractUncovered, extractRatio.
    split; [ | split ]; destruct (match_ _ text); eexists;
      (split; [ reflexivity | repeat split; reflexivity ]).
  - intros text cc. unfold extractPercentage, extractUncovered, extractRatio, test.
    split; [ | split ]; destruct (match_ _ text); intros H;
      try discriminate H; reflexivity.
  - intros text m. unfold extractPercentage, extractUncovered, extractRatio.
    split; [ | split ]; intros ->; reflexivity.
  - intros text m c. unfold extractPercentage, extractUncovered, extractRatio.
    split; [ | split ]; intros ->; reflexivity.
  - intros a parts percent ratio uncovered coverageText Hpercent Hratio Huncovered.
    unfold processCodeCoverage. cbv zeta. fold coverageText.
    cbn [codeCoverage setCodeCoverage setHasCoverageInfo].
    unfold extractPercentage, extractRatio, extractUncovered.
    rewrite Hpercent, Hratio, Huncovered.
    destruct (codeCoverage a); reflexivity.
Qed.

Lemma coverage_extractions_witness :
  extractRatio "5/10" None = Some (mkCoverage (ofZ 50) (ofZ 5) (ofZ 10) []) /\
  (mkCoverage (ofZ 50) (ofZ 5) (ofZ 10) []).(uncoveredLines) = [] /\
  extractPercentage "80%" None = Some (mkCoverage (ofZ 80) zero zero []) /\
  extractUncovered "Lines not covered: 3, 7" None
    = Some (mkCoverage zero zero zero [ofZ 3; ofZ 7]) /\
  test percentPattern "5/10" = false /\
  extractPercentage "5/10" (Some (mkCoverage (ofZ 50) (ofZ 5) (ofZ 10) []))
    = Some (mkCoverage (ofZ 50) (ofZ 5) (ofZ 10) []) /\
  test ratioPattern "80%" = false /\
  extractRatio "80%" (Some (mkCoverage (ofZ 80) zero zero []))
    = Some (mkCoverage (ofZ 80) zero zero []) /\
  test uncoveredPattern "80%" = false /\
  extractUncovered "80%" (Some (mkCoverage (ofZ 80) zero zero []))
    = Some (mkCoverage (ofZ 80) zero zero []) /\
  extractPercentage "80%" (Some (mkCoverage (ofZ 50) (ofZ 5) (ofZ 10) [ofZ 9]))
    = Some (mkCoverage (ofZ 80) (ofZ 5) (ofZ 10) [ofZ 9]) /\
  extractRatio "1/3" (Some (mkCoverage (ofZ 80) (ofZ 5) (ofZ 10) [ofZ 9]))
    = Some (mkCoverage (ofZ 80) (ofZ 1) (ofZ 3) [ofZ 9]) /\
  extractUncovered "Lines not covered: 3, 7"
                   (Some (mkCoverage (ofZ 80) (ofZ 1) (ofZ 3) [ofZ 9]))
    = Some (mkCoverage (ofZ 80) (ofZ 1) (ofZ 3) [ofZ 3; ofZ 7]) /\
  codeCoverage
    (processCodeCoverage
       (setCodeCoverage initializeAnalysis
                        (Some (mkCoverage (ofZ 50) (ofZ 5) (ofZ 10) [ofZ 9])))
       ["1"; "CODE_COVERAGE"; "80%"; "1/3"; "Lines not covered: 3, 7"])
    = Some (mkCoverage (ofZ 80) (ofZ 1) (ofZ 3) [ofZ 3; ofZ 7]) /\
  codeCoverage
    (processCodeCoverage initializeAnalysis
       ["1"; "CODE_COVERAGE"; "80%"; "1/3"; "Lines not covered: 3, 7"])
    = Some (mkCoverage (ofZ 80) (ofZ 1) (ofZ 3) [ofZ 3; ofZ 7]).
Proof.
  destruct coverage_extractions
    as [_ [Hcreate [_ [Hkeep [Hcreated [Hstored Hall]]]]]].
  split; [ exact (proj1 (proj2 (Hcreated "5/10" [(0, "5/10"); (2, "10"); (1, "5")]))
                        eq_refl) | ].
  split; [ exact (proj1 (proj2 (proj2 (Hcreate "5/10" _)) eq_refl)) | ].
  split; [ exact (proj1 (Hcreated "80%" [(0, "80%"); (1, "80")]) eq_refl) | ].
  split; [ exact (proj2 (proj2 (Hcreated "Lines not covered: 3, 7"
                                         [(0, "Lines not covered: 3, 7"); (1, "3, 7")]))
                        eq_refl) | ].
  split; [ reflexivity | ].
  split; [ exact (proj1 (Hkeep "5/10" _) eq_refl) | ].
  split; [ reflexivity | ].
  split; [ exact (proj1 (proj2 (Hkeep "80%" _)) eq_refl) | ].
  split; [ reflexivity | ].
  split; [ exact (proj2 (proj2 (Hkeep "80%" _)) eq_refl) | ].
  split; [ exact (proj1 (Hstored "80%" [(0, "80%"); (1, "80")] _) eq_refl) | ].
  split; [ exact (proj1 (proj2 (Hstored "1/3" [(0, "1/3"); (2, "3"); (1, "1")] _))
                        eq_refl) | ].
  split; [ exact (proj2 (proj2 (Hstored "Lines not covered: 3, 7"
                                        [(0, "Lines not covered: 3, 7"); (1, "3, 7")] _))
                        eq_refl) | ].
  split.
  - exact (Hall (setCodeCoverage initializeAnalysis
                                 (Some (mkCoverage (ofZ 50) (ofZ 5) (ofZ 10) [ofZ 9])))
                ["1"; "CODE_COVERAGE"; "80%"; "1/3"; "Lines not covered: 3, 7"]
                [(0, "80%"); (1, "80")] [(0, "1/3"); (2, "3"); (1, "1")]
                [(0, "Lines not covered: 3, 7"); (1, "3, 7")]
                eq_refl eq_refl eq_refl).
  - exact (Hall initializeAnalysis
                ["1"; "CODE_COVERAGE"; "80%"; "1/3"; "Lines not covered: 3, 7"]
                [(0, "80%"); (1, "80")] [(0, "1/3"); (2, "3"); (1, "1")]
                [(0, "Lines not covered: 3, 7"); (1, "3, 7")]
                eq_refl eq_refl eq_refl).
Defined.

(** ** The stack trace of an exception *)

(** The look-ahead reads the lines at the indices [j < currentIndex + 30]
    only: from [j = currentIndex + 1] these are 29 lines. *)
Lemma collectStackTrace_window (rest : list string) :
  forall (j currentIndex : nat) (stackTrace : string),
    collectStackTrace rest j currentIndex stackTrace
    = collectStackTrace (firstn (currentIndex + 30 - j) rest) j currentIndex stackTrace.
Proof.
  induction rest as [ | nextLine rest IH ]; intros j currentIndex stackTrace.
  - now rewrite firstn_nil.
  - cbn [collectStackTrace].
    destruct (Nat.ltb_spec j (currentIndex + 30)) as [Hin | Hout].
    + replace (currentIndex + 30 - j) with (S (currentIndex + 30 - S j)) by lia.
      cbn [firstn collectStackTrace].
      apply Nat.ltb_lt in Hin. rewrite Hin.
      destruct (test eventHeader nextLine); [ reflexivity | apply IH ].
    + replace (currentIndex + 30 - j) with 0 by lia. reflexivity.
Qed.

Lemma stack_trace_reads_29_lines (a : LogAnalysis) (parts lines : list string)
      (relativeTimeMs : number) (currentIndex : nat) :
  processException a parts relativeTimeMs lines currentIndex
  = processException a parts relativeTimeMs
      (firstn (currentIndex + 30) lines) currentIndex.
Proof.
  unfold processException.
  rewrite (collectStackTrace_window (skipn (currentIndex + 1) lines)).
  rewrite (collectStackTrace_window
             (skipn (currentIndex + 1) (firstn (currentIndex + 30) lines))).
  replace (currentIndex + 30 - (currentIndex + 1)) with 29 by lia.
  rewrite skipn_firstn_comm.
  replace (currentIndex + 30 - (currentIndex + 1)) with 29 by lia.
  rewrite firstn_firstn. reflexivity.
Qed.

(** C5, the code against the claim: after a fatal-error line come thirty
    lines of a stack trace, none of them blank, none an event header.  The
    recorded stack trace holds the first twenty-nine; the thirtieth line,
    inside the window of 30 lines the claim and the comment in the source
    speak of, is not in it. *)
Theorem stack_trace_misses_line_30 :
  let lines := "12:00:00.1 (1)|FATAL_ERROR|boom" :: frames 30 in
  option_map (fun a => map stackTrace (errors a)) (analyzeApexLog (join NL lines))
    = Some [Some (join NL (frames 29))] /\
  nth_error lines 30 = Some (frame 30) /\
  test eventHeader (frame 30) = false /\
  trim (frame 30) = frame 30 /\
  includes (frame 30) (join NL (frames 29)) = false.
Proof. cbv zeta. repeat split; vm_compute; reflexivity. Qed.

(** ** Debug statements *)

Lemma absorbLines_spec (rest : list string) :
  forall (message : string) (nextLineIndex : nat),
    absorbLines rest message nextLineIndex
    = (appendLines message (continuationRun rest),
       nextLineIndex + List.length (continuationRun rest)).
Proof.
  induction rest as [ | line rest IH ]; intros message nextLineIndex;
    cbn [absorbLines continuationRun].
  - cbn. now rewrite Nat.add_0_r.
  - destruct (test timestampPrefix line).
    + cbn. now rewrite Nat.add_0_r.
    + rewrite IH. cbn [appendLines List.length]. f_equal. lia.
Qed.

Lemma includes_tail (sub : string) (c : ascii) (s : string) :
  includes sub (String c s) = false -> includes sub s = false.
Proof.
  cbn [includes]. intros H. apply orb_false_iff in H. apply H.
Qed.

Lemma includes_dropChars (sub : string) (n : nat) :
  forall s : string, includes sub s = false -> includes sub (dropChars n s) = false.
Proof.
  induction n as [ | n IH ]; intros s H; [ now destruct s | ].
  destruct s as [ | c s ]; [ exact H | ].
  cbn [dropChars]. apply IH. eapply includes_tail, H.
Qed.

(** The escape is a backslash and the letter n. *)
Lemma startsWith_escapedNL (s : string) :
  startsWith escapedNL s
  = match s with
    | String c1 (String c2 _) => Ascii.eqb c1 backslash && Ascii.eqb c2 "n"
    | _ => false
    end.
Proof.
  unfold escapedNL.
  destruct s as [ | c1 [ | c2 s ] ]; cbn [startsWith]; try reflexivity.
  - now rewrite andb_false_r.
  - now rewrite andb_true_r.
Qed.

(** The first character [replaceEscapedNewlines] writes is a newline or
    the first character it read. *)
Lemma replaceEscapedNewlines_head (c : ascii) (s : string) :
  exists t, replaceEscapedNewlines (String c s) = String newline t \/
            replaceEscapedNewlines (String c s) = String c t.
Proof.
  cbn [replaceEscapedNewlines]. destruct s as [ | c2 s ]; [ eexists; now right | ].
  destruct (_ && _); eexists; [ now left | now right ].
Qed.

(** After the replacement no escape is left. *)
Lemma no_escape_after_replacement (s : string) :
  includes escapedNL (replaceEscapedNewlines s) = false.
Proof.
  enough (H : includes escapedNL (replaceEscapedNewlines s) = false /\
              forall c, includes escapedNL (replaceEscapedNewlines (String c s)) = false)
    by apply H.
  induction s as [ | c2 s [IHs IHcs] ].
  - split; [ reflexivity | ].
    intros c. cbn [replaceEscapedNewlines includes].
    rewrite startsWith_escapedNL. reflexivity.
  - split; [ apply IHcs | ].
    intros c1. cbn [replaceEscapedNewlines].
    destruct (Ascii.eqb c1 backslash && Ascii.eqb c2 "n") eqn:Hesc.
    + cbn [includes]. rewrite IHs, startsWith_escapedNL.
      destruct (replaceEscapedNewlines s); reflexivity.
    + change (includes escapedNL (String c1 (replaceEscapedNewlines (String c2 s))) = false).
      cbn [includes]. rewrite (IHcs c2), startsWith_escapedNL, orb_false_r.
      destruct (replaceEscapedNewlines_head c2 s) as [t [-> | ->]].
      * destruct (Ascii.eqb c1 backslash); reflexivity.
      * exact Hesc.
Qed.

Lemma debugText_has_no_escape (parts : list string) :
  includes escapedNL (debugText parts) = false.
Proof.
  unfold debugText, stripPrefix.
  destruct (startsWith _ _); [ apply includes_dropChars | ];
    apply no_escape_after_replacement.
Qed.

(** What [processUserDebug] does on an event line of at least three
    fields. *)
Lemma processUserDebug_spec (a : LogAnalysis) (lines parts : list string)
      (currentIndex : nat) (relativeTimeMs : number) (timestamp : string) :
  2 < List.length parts ->
  let absorbed := continuationRun (skipn (currentIndex + 1) lines) in
  exists (a' : LogAnalysis) (n : number),
    processUserDebug a lines currentIndex parts relativeTimeMs timestamp
      = Normal (a', currentIndex + List.length absorbed) /\
    debugLines a'
      = (debugLines a ++
         [mkDebugLine n (appendLines (debugText parts) absorbed) timestamp])%list /\
    limits a' = limits a /\ governorLimits a' = governorLimits a.
Proof.
  intros Hparts absorbed. unfold processUserDebug.
  destruct (nth_error parts 2) as [part2 | ] eqn:Hpart2;
    [ | apply nth_error_None in Hpart2; lia ].
  rewrite absorbLines_spec. fold absorbed.
  assert (Hindex :
            (if (currentIndex + 1 <? currentIndex + 1 + List.length absorbed)%nat
             then currentIndex + 1 + List.length absorbed - 1
             else currentIndex)
            = currentIndex + List.length absorbed)
    by (destruct (Nat.ltb_spec (currentIndex + 1)
                               (currentIndex + 1 + List.length absorbed)); lia).
  rewrite Hindex.
  eexists. eexists. split; [ reflexivity | ].
  split; [ reflexivity | split; reflexivity ].
Qed.

Lemma processContinuedDebugLine_spec (a : LogAnalysis) (line : string)
      (before : list DebugLine) (d : DebugLine) :
  debugLines a = (before ++ [d])%list ->
  debugLines (processContinuedDebugLine a line)
  = (before ++
     [mkDebugLine (lineNumber d) (message d ++ NL ++ stripPrefix "DEBUG|" line)
                  (timestamp d)])%list.
Proof.
  intros Hd. unfold processContinuedDebugLine.
  rewrite Hd, rev_app_distr. cbn [rev app debugLines setTimeline setDebugLines].
  now rewrite rev_involutive.
Qed.

(** The claim of C7 fails on the continuation lines: they are stored as
    they are.  Here the event line and the line after it both hold a
    backslash followed by [n]; the one of the event line is converted, the
    one of the continuation line is still in the stored message. *)
Lemma continuation_line_keeps_escape :
  option_map (fun a => map message (debugLines a))
    (analyzeApexLog ("12:00:00.1 (1)|USER_DEBUG|[7]|DEBUG|first\nsecond" ++ NL ++
                     "third\nfourth"))
    = Some ["first" ++ NL ++ "second" ++ NL ++ "third\nfourth"] /\
  includes escapedNL ("first" ++ NL ++ "second" ++ NL ++ "third\nfourth") = true.
Proof. split; vm_compute; reflexivity. Qed.

(** C7, amended: for every user-debug event line of at least three fields
    the stored message is the text of the event line followed by the
    absorbed continuation lines, each after a newline and each as it is in
    the log.  The text of the event line is the fields from the fourth on,
    joined by [|] and trimmed, in which every backslash-n has been
    converted to a newline (none is left) and from which a leading
    [DEBUG|] has then been removed.  A line that the top-level loop
    appends later loses a leading [DEBUG|]; its escapes are not
    converted. *)
Theorem debug_message_as_stored :
  (forall (a : LogAnalysis) (lines parts : list string) (currentIndex : nat)
          (relativeTimeMs : number) (timestamp : string),
      2 < List.length parts ->
      exists (a' : LogAnalysis) (n : number) (newIndex : nat),
        processUserDebug a lines currentIndex parts relativeTimeMs timestamp
          = Normal (a', newIndex) /\
        debugLines a'
          = (debugLines a ++
             [mkDebugLine n
                (appendLines (debugText parts)
                   (continuationRun (skipn (currentIndex + 1) lines)))
                timestamp])%list) /\
  (forall parts : list string,
      debugText parts
        = stripPrefix "DEBUG|"
            (replaceEscapedNewlines (trim (join "|" (slice 3 parts)))) /\
      includes escapedNL (replaceEscapedNewlines (trim (join "|" (slice 3 parts))))
        = false /\
      includes escapedNL (debugText parts) = false) /\
  (forall (a : LogAnalysis) (line : string) (before : list DebugLine) (d : DebugLine),
      debugLines a = (before ++ [d])%list ->
      debugLines (processContinuedDebugLine a line)
      = (before ++
         [mkDebugLine (lineNumber d) (message d ++ NL ++ stripPrefix "DEBUG|" line)
                      (timestamp d)])%list).
Proof.
  split; [ | split ].
  - intros a lines parts currentIndex relativeTimeMs timestamp Hparts.
    destruct (processUserDebug_spec a lines parts currentIndex relativeTimeMs
                                    timestamp Hparts) as [a' [n [Hrun [Hd _]]]].
    exists a', n. eexists. split; [ exact Hrun | exact Hd ].
  - intros parts. split; [ reflexivity | split ].
    + apply no_escape_after_replacement.
    + apply debugText_has_no_escape.
  - apply processContinuedDebugLine_spec.
Qed.

Lemma debug_message_as_stored_witness :
  let parts := ["12:00:00.1 (1)"; "USER_DEBUG"; "[7]"; "DEBUG"; "first\nsecond"] in
  let lines := ["12:00:00.1 (1)|USER_DEBUG|[7]|DEBUG|first\nsecond"; "third\nfourth";
                "12:00:00.2 (2)|HEAP_ALLOCATE|[8]|Bytes:4"] in
  let d := mkDebugLine (ofZ 7) "first" "12:00:00.1 (1)" in
  let a := setDebugLines initializeAnalysis [d] in
  (2 < List.length parts /\
   exists (a' : LogAnalysis) (n : number) (newIndex : nat),
     processUserDebug initializeAnalysis lines 0 parts zero "12:00:00.1 (1)"
       = Normal (a', newIndex) /\
     debugLines a'
       = [mkDebugLine n ("first" ++ NL ++ "second" ++ NL ++ "third\nfourth")
                      "12:00:00.1 (1)"]) /\
  (debugLines a = ([] ++ [d])%list /\
   debugLines (processContinuedDebugLine a "DEBUG|more\nlines")
     = [mkDebugLine (ofZ 7) ("first" ++ NL ++ "more\nlines") "12:00:00.1 (1)"]).
Proof.
  cbv zeta.
  assert (H : 2 < List.length ["12:00:00.1 (1)"; "USER_DEBUG"; "[7]"; "DEBUG";
                               "first\nsecond"]) by (cbn; lia).
  split; split; [ exact H | | reflexivity | ].
  - exact (proj1 debug_message_as_stored initializeAnalysis
                 ["12:00:00.1 (1)|USER_DEBUG|[7]|DEBUG|first\nsecond"; "third\nfourth";
                  "12:00:00.2 (2)|HEAP_ALLOCATE|[8]|Bytes:4"]
                 _ 0 zero "12:00:00.1 (1)" H).
  - exact (proj2 (proj2 debug_message_as_stored)
                 (setDebugLines initializeAnalysis
                                [mkDebugLine (ofZ 7) "first" "12:00:00.1 (1)"])
                 "DEBUG|more\nlines" []
                 (mkDebugLine (ofZ 7) "first" "12:00:00.1 (1)") eq_refl).
Defined.

(** ** The loop, one iteration at a time *)

Import StringFacts.

Lemma loop_step (fuel : nat) (lines : list string) (st : LoopState) :
  i st < List.length lines ->
  loop (S fuel) lines st = loop fuel lines (increment (iteration lines st)).
Proof. intros H. cbn [loop]. apply Nat.ltb_lt in H. now rewrite H. Qed.

Lemma loop_exit (fuel : nat) (lines : list string) (st : LoopState) :
  List.length lines <= i st -> loop (S fuel) lines st = Some st.
Proof. intros H. cbn [loop]. apply Nat.ltb_ge in H. now rewrite H. Qed.

(** An event line of the user-debug kind, with its three fields at least,
    met while no debug capture claims it: the statement is pushed with the
    lines absorbed, the capture is open at this index, and the index moves to
    the last line absorbed. *)
Lemma iteration_user_debug (lines : list string) (st : LoopState) :
  let line := nth (i st) lines EmptyString in
  let parts := split "|" line in
  let absorbed := continuationRun (skipn (i st + 1) lines) in
  isPartOfPreviousDebugLine (lastDebugLineIndex st) line = false ->
  2 < List.length parts ->
  classify (nth 1 parts EmptyString) = Some UserDebug ->
  exists (a' : LogAnalysis) (n : number),
    iteration lines st
      = mkLoop a' (limitMap st) (startTime st) (endTime st) (Z.of_nat (i st))
               (i st + List.length absorbed) (limitWrites st) /\
    debugLines a'
      = (debugLines (analysis st) ++
         [mkDebugLine n (appendLines (debugText parts) absorbed)
                      (nth 0 parts EmptyString)])%list /\
    limits a' = limits (analysis st) /\
    governorLimits a' = governorLimits (analysis st).
Proof.
  intros line parts absorbed Hfree Hparts Hkind.
  assert (Hline : trim line <> EmptyString).
  { intros Hblank. apply blank_one_field in Hblank. fold parts in Hblank.
    rewrite Hblank in Hparts. cbn in Hparts. lia. }
  unfold iteration. fold line. apply String.eqb_neq in Hline. rewrite Hline.
  unfold tryBlock. rewrite Hfree. fold parts.
  assert (Hlen : (List.length parts <? 2)%nat = false) by (apply Nat.ltb_ge; lia).
  rewrite Hlen, Hkind.
  destruct (processUserDebug_spec (analysis st) lines parts (i st)
              (Math_round (mul (sub (parseFloat (nth 0 parts EmptyString))
                                    (startTime st)) (ofZ 1000)))
              (nth 0 parts EmptyString) Hparts)
    as [a' [n [Hrun Hd]]].
  rewrite Hrun. now exists a', n.
Qed.

(** The analysis of the three lines [eventLine], [second], [third], where
    the last two lack the timestamp prefix. *)
Lemma debug_absorbs_two_lines (eventLine second third : string) :
  let parts := split "|" eventLine in
  Forall (lacks newline) [eventLine; second; third] ->
  2 < List.length parts ->
  classify (nth 1 parts EmptyString) = Some UserDebug ->
  test timestampPrefix second = false ->
  test timestampPrefix third = false ->
  exists (a : LogAnalysis) (n : number),
    analyzeApexLog (join NL [eventLine; second; third]) = Some a /\
    debugLines a
      = [mkDebugLine n (debugText parts ++ NL ++ second ++ NL ++ third)
                     (nth 0 parts EmptyString)].
Proof.
  intros parts Hlines Hparts Hkind Hsecond Hthird.
  unfold analyzeApexLog, runLoop. rewrite (split_join _ _ Hlines).
  set (lines := [eventLine; second; third]).
  destruct (iteration_user_debug lines initialState eq_refl Hparts Hkind)
    as [a' [n [Hiter [Hd _]]]].
  cbn [initialState i lines skipn Nat.add continuationRun] in Hiter, Hd.
  rewrite Hsecond, Hthird in Hiter, Hd.
  cbn [List.length Nat.add appendLines] in Hiter, Hd.
  assert (Hloop : loop (S (List.length lines)) lines initialState
                  = Some (increment (iteration lines initialState))).
  { rewrite loop_step by (cbn; lia). rewrite Hiter. apply loop_exit. cbn. lia. }
  rewrite Hloop, Hiter.
  eexists. exists n. split; [ reflexivity | ].
  cbn [analysis increment finalizeAnalysis debugLines setSummary setLimits].
  rewrite Hd. cbn [initialState analysis initializeAnalysis debugLines app lines nth].
  fold parts. do 2 f_equal. now rewrite !append_assoc.
Qed.

(** C6: a log of a user-debug event line, one line that is not blank, and
    one empty line, the two without the timestamp prefix.  The analyzer
    records one debug statement; its message is the text of the event line, a
    newline, the second line, a newline, and the empty string, where the text
    of the event line has its escapes expanded and its leading [DEBUG|]
    removed. *)
Theorem debug_with_continuation_and_blank (eventLine continuation : string) :
  let parts := split "|" eventLine in
  lacks newline eventLine -> lacks newline continuation ->
  2 < List.length parts ->
  classify (nth 1 parts EmptyString) = Some UserDebug ->
  trim continuation <> EmptyString ->
  test timestampPrefix continuation = false ->
  exists (a : LogAnalysis) (n : number),
    analyzeApexLog (eventLine ++ NL ++ continuation ++ NL ++ EmptyString) = Some a /\
    debugLines a
      = [mkDebugLine n
           (stripPrefix "DEBUG|"
              (replaceEscapedNewlines (trim (join "|" (slice 3 parts)))) ++
            NL ++ continuation ++ NL ++ EmptyString)
           (nth 0 parts EmptyString)].
Proof.
  intros parts HeventLine Hcontinuation Hparts Hkind _ Hprefix.
  apply (debug_absorbs_two_lines eventLine continuation EmptyString);
    try assumption; [ | reflexivity ].
  repeat constructor; assumption || reflexivity.
Qed.

Lemma debug_with_continuation_and_blank_witness :
  let eventLine := "12:00:00.1 (1)|USER_DEBUG|[5]|DEBUG|total\n42" in
  exists (a : LogAnalysis) (n : number),
    analyzeApexLog (eventLine ++ NL ++ "  and more" ++ NL ++ EmptyString) = Some a /\
    debugLines a
      = [mkDebugLine n ("total" ++ NL ++ "42" ++ NL ++ "  and more" ++ NL ++ EmptyString)
                     "12:00:00.1 (1)"].
Proof.
  cbv zeta.
  refine (debug_with_continuation_and_blank
            "12:00:00.1 (1)|USER_DEBUG|[5]|DEBUG|total\n42" "  and more"
            eq_refl eq_refl _ eq_refl _ eq_refl).
  - cbn. lia.
  - discriminate.
Defined.

(** ** Lines the loop passes over *)

Lemma advance_zero (st : LoopState) : advance st 0 = st.
Proof. destruct st. unfold advance. cbn. now rewrite Nat.add_0_r. Qed.

Lemma iteration_passes_over (lines : list string) (st : LoopState) :
  isPassedOver (nth (i st) lines EmptyString) = true -> iteration lines st = st.
Proof.
  unfold isPassedOver. intros H. apply andb_true_iff in H as [Hprefix Hskip].
  unfold iteration.
  pose proof (timestamp_not_blank _ Hprefix) as Hline.
  apply String.eqb_neq in Hline. rewrite Hline.
  unfold tryBlock, isPartOfPreviousDebugLine. rewrite Hprefix, andb_false_r.
  destruct (_ <? 2)%nat; [ reflexivity | ].
  cbn [orb] in Hskip. destruct (classify _); [ discriminate | reflexivity ].
Qed.

(** The loop over a run of such lines: only the index changes. *)
Lemma loop_passes_over (skipped : list string) :
  forall (pre post : list string) (st : LoopState) (fuel : nat),
    i st = List.length pre ->
    forallb isPassedOver skipped = true ->
    loop (List.length skipped + fuel) (pre ++ skipped ++ post) st
    = loop fuel (pre ++ skipped ++ post) (advance st (List.length skipped)).
Proof.
  induction skipped as [ | line skipped IH ]; intros pre post st fuel Hi Hall.
  - cbn [List.length Nat.add]. now rewrite advance_zero.
  - cbn [forallb] in Hall. apply andb_true_iff in Hall as [Hline Hall].
    cbn [List.length Nat.add].
    assert (Hnth : nth (i st) (pre ++ (line :: skipped) ++ post) EmptyString = line)
      by (rewrite Hi; apply nth_middle).
    rewrite loop_step by (rewrite Hi, !length_app; cbn; lia).
    rewrite iteration_passes_over by (now rewrite Hnth).
    replace (pre ++ (line :: skipped) ++ post)%list
      with ((pre ++ [line]) ++ skipped ++ post)%list
      by (now rewrite <- app_assoc).
    rewrite IH; [ | cbn [increment i]; rewrite length_app; cbn; lia | exact Hall ].
    f_equal. unfold advance, increment. cbn. f_equal. lia.
Qed.

(** A line without the timestamp prefix, not blank, met while a debug
    capture is open: it goes to the end of the last debug statement, and the
    capture stays open. *)
Lemma iteration_continues (lines : list string) (st : LoopState)
      (before : list DebugLine) (d : DebugLine) :
  let line := nth (i st) lines EmptyString in
  trim line <> EmptyString ->
  test timestampPrefix line = false ->
  (0 <= lastDebugLineIndex st)%Z ->
  debugLines (analysis st) = (before ++ [d])%list ->
  exists a' : LogAnalysis,
    iteration lines st
      = mkLoop a' (limitMap st) (startTime st) (endTime st) (lastDebugLineIndex st)
               (i st) (limitWrites st) /\
    debugLines a'
      = (before ++
         [mkDebugLine (lineNumber d) (message d ++ NL ++ stripPrefix "DEBUG|" line)
                      (timestamp d)])%list.
Proof.
  intros line Hline Hprefix Hopen Hd.
  unfold iteration. fold line. apply String.eqb_neq in Hline. rewrite Hline.
  unfold tryBlock, isPartOfPreviousDebugLine. rewrite Hprefix.
  apply Z.leb_le in Hopen. rewrite Hopen. cbn [andb negb].
  eexists. split; [ reflexivity | ].
  now apply processContinuedDebugLine_spec.
Qed.

(** From a state with an open capture, over lines that are passed over,
    to the next line that continues the last debug statement. *)
Lemma loop_appends_after_passed_over
      (pre skipped post : list string) (line : string) (st : LoopState)
      (before : list DebugLine) (d : DebugLine) (fuel : nat) :
  i st = List.length pre ->
  forallb isPassedOver skipped = true ->
  trim line <> EmptyString ->
  test timestampPrefix line = false ->
  (0 <= lastDebugLineIndex st)%Z ->
  debugLines (analysis st) = (before ++ [d])%list ->
  exists a' : LogAnalysis,
    loop (List.length skipped + S fuel) (pre ++ skipped ++ line :: post) st
    = loop fuel (pre ++ skipped ++ line :: post)
           (mkLoop a' (limitMap st) (startTime st) (endTime st)
                   (lastDebugLineIndex st)
                   (List.length pre + List.length skipped + 1) (limitWrites st)) /\
    debugLines a'
    = (before ++
       [mkDebugLine (lineNumber d) (message d ++ NL ++ stripPrefix "DEBUG|" line)
                    (timestamp d)])%list.
Proof.
  intros Hi Hall Hline Hprefix Hopen Hd.
  rewrite loop_passes_over by assumption.
  set (lines := (pre ++ skipped ++ line :: post)%list).
  set (st1 := advance st (List.length skipped)).
  assert (Hnth : nth (i st1) lines EmptyString = line).
  { unfold st1, lines. cbn [advance i]. rewrite Hi, app_assoc, <- length_app.
    apply nth_middle. }
  destruct (iteration_continues lines st1 before d) as [a' [Hiter Hd']];
    try (rewrite Hnth); try assumption.
  rewrite Hnth in Hd'.
  exists a'. split; [ | exact Hd' ].
  rewrite loop_step
    by (unfold st1, lines; cbn [advance i]; rewrite Hi, !length_app; cbn; lia).
  rewrite Hiter. unfold st1, increment.
  cbn [advance analysis limitMap startTime endTime lastDebugLineIndex i limitWrites].
  do 2 f_equal. lia.
Qed.

(** The log of a user-debug event line, lines that are passed over (one at
    least), and one more line. *)
Lemma debug_then_passed_over_then_line
      (eventLine first line : string) (skipped : list string) :
  let parts := split "|" eventLine in
  Forall (lacks newline) (eventLine :: first :: skipped ++ [line]) ->
  2 < List.length parts ->
  classify (nth 1 parts EmptyString) = Some UserDebug ->
  forallb isPassedOver (first :: skipped) = true ->
  trim line <> EmptyString ->
  test timestampPrefix line = false ->
  exists (a : LogAnalysis) (n : number),
    analyzeApexLog (join NL (eventLine :: first :: skipped ++ [line])) = Some a /\
    debugLines a
    = [mkDebugLine n (debugText parts ++ NL ++ stripPrefix "DEBUG|" line)
                   (nth 0 parts EmptyString)].
Proof.
  intros parts Hlines Hparts Hkind Hall Hline Hprefix.
  unfold analyzeApexLog, runLoop. rewrite (split_join _ _ Hlines).
  set (lines := eventLine :: first :: (skipped ++ [line])%list).
  destruct (iteration_user_debug lines initialState eq_refl Hparts Hkind)
    as [a1 [n [Hiter [Hd _]]]].
  assert (Hfirst : test timestampPrefix first = true).
  { cbn [forallb] in Hall. apply andb_true_iff in Hall as [Hfirst _].
    unfold isPassedOver in Hfirst. now apply andb_true_iff in Hfirst as [Hfirst _]. }
  cbn [initialState i lines skipn Nat.add continuationRun nth] in Hiter, Hd.
  rewrite Hfirst in Hiter, Hd.
  cbn [List.length Nat.add appendLines app initialState analysis
       initializeAnalysis debugLines] in Hiter, Hd.
  fold parts in Hd.
  destruct (loop_appends_after_passed_over
              [eventLine] (first :: skipped) [] line
              (increment (iteration lines initialState)) []
              (mkDebugLine n (debugText parts) (nth 0 parts EmptyString)) 1)
    as [a2 [Hloop Hd2]]; try assumption;
    try (rewrite Hiter; cbn [increment analysis i lastDebugLineIndex]);
    try reflexivity; try assumption; try (cbn; lia).
  assert (Hrun : loop (S (List.length lines)) lines initialState
                 = Some (mkLoop a2 [] zero zero 0 (List.length lines) [])).
  { cbn [app] in Hloop. fold lines in Hloop.
    rewrite loop_step by (cbn; lia).
    replace (List.length lines) with (List.length (first :: skipped) + S 1)
      by (unfold lines; cbn [List.length]; rewrite length_app; cbn; lia).
    rewrite Hloop, Hiter.
    cbn [increment analysis limitMap startTime endTime lastDebugLineIndex i
         limitWrites initialState Z.of_nat].
    rewrite loop_exit
      by (unfold lines; cbn [List.length i]; rewrite length_app; cbn; lia).
    do 2 f_equal. cbn [List.length]. lia. }
  rewrite Hrun. eexists. exists n. split; [ reflexivity | ].
  cbn [analysis finalizeAnalysis debugLines setSummary setLimits].
  rewrite Hd2. reflexivity.
Qed.

(** C9: a line with the timestamp prefix that has fewer than two fields,
    or a tag that is not recognized, leaves the state of the loop as it is,
    the debug capture included.  So from a state where a capture is open and
    [d] is the last debug statement (as after a user-debug event), the loop
    passes over any run of such lines and appends the next line that is not
    blank and lacks the timestamp prefix to the message of [d]; in the log of
    a user-debug event line, such lines, and one more line, the one statement
    recorded ends with that line. *)
Theorem continuation_after_passed_over_lines :
  (forall (lines : list string) (st : LoopState),
      isPassedOver (nth (i st) lines EmptyString) = true ->
      iteration lines st = st) /\
  (forall (pre skipped post : list string) (line : string) (st : LoopState)
          (before : list DebugLine) (d : DebugLine) (fuel : nat),
      i st = List.length pre ->
      forallb isPassedOver skipped = true ->
      trim line <> EmptyString ->
      test timestampPrefix line = false ->
      (0 <= lastDebugLineIndex st)%Z ->
      debugLines (analysis st) = (before ++ [d])%list ->
      exists a' : LogAnalysis,
        loop (List.length skipped + S fuel) (pre ++ skipped ++ line :: post) st
        = loop fuel (pre ++ skipped ++ line :: post)
               (mkLoop a' (limitMap st) (startTime st) (endTime st)
                       (lastDebugLineIndex st)
                       (List.length pre + List.length skipped + 1) (limitWrites st)) /\
        debugLines a'
        = (before ++
           [mkDebugLine (lineNumber d)
                        (message d ++ NL ++ stripPrefix "DEBUG|" line)
                        (timestamp d)])%list) /\
  (forall (eventLine first line : string) (skipped : list string),
      let parts := split "|" eventLine in
      Forall (lacks newline) (eventLine :: first :: skipped ++ [line]) ->
      2 < List.length parts ->
      classify (nth 1 parts EmptyString) = Some UserDebug ->
      forallb isPassedOver (first :: skipped) = true ->
      trim line <> EmptyString ->
      test timestampPrefix line = false ->
      exists (a : LogAnalysis) (n : number),
        analyzeApexLog (join NL (eventLine :: first :: skipped ++ [line])) = Some a /\
        debugLines a
        = [mkDebugLine n (debugText parts ++ NL ++ stripPrefix "DEBUG|" line)
                       (nth 0 parts EmptyString)]).
Proof.
  split; [ exact iteration_passes_over | split ].
  - exact loop_appends_after_passed_over.
  - exact debug_then_passed_over_then_line.
Qed.

Lemma continuation_after_passed_over_lines_witness :
  let eventLine := "12:00:00.1 (1)|USER_DEBUG|[5]|DEBUG|total" in
  let unknown := "12:00:00.3 (3)|VARIABLE_ASSIGNMENT|[6]|x|1" in
  let lines := [eventLine; "12:00:00.2"; unknown; "late line"] in
  let d := mkDebugLine (ofZ 5) "total" "12:00:00.1 (1)" in
  let st := increment (iteration lines initialState) in
  (isPassedOver "12:00:00.2" = true /\ isPassedOver unknown = true /\
   iteration lines st = st) /\
  (i st = 1 /\ (0 <= lastDebugLineIndex st)%Z /\
   debugLines (analysis st) = ([] ++ [d])%list /\
   exists a' : LogAnalysis,
     loop (2 + 2) lines st
     = loop 1 lines (mkLoop a' [] zero zero 0 4 []) /\
     debugLines a'
     = [mkDebugLine (ofZ 5) ("total" ++ NL ++ "late line") "12:00:00.1 (1)"]) /\
  (exists (a : LogAnalysis) (n : number),
      analyzeApexLog (join NL lines) = Some a /\
      debugLines a = [mkDebugLine n ("total" ++ NL ++ "late line") "12:00:00.1 (1)"]).
Proof.
  intros eventLine unknown lines d st.
  destruct continuation_after_passed_over_lines as [Hpass [Hloop Hlog]].
  split; [ | split ].
  - split; [ reflexivity | split; [ reflexivity | ] ].
    apply Hpass. reflexivity.
  - split; [ reflexivity | split; [ discriminate | split; [ reflexivity | ] ] ].
    apply (Hloop [eventLine] ["12:00:00.2"; unknown] [] "late line" st [] d 1);
      try reflexivity; discriminate.
  - apply (Hlog eventLine "12:00:00.2" "late line" [unknown]); try reflexivity.
    + repeat constructor.
    + cbn. lia.
    + discriminate.
Defined.

(** ** The limit map against the history of its writes *)

Lemma lastWrite_app (key : string) (earlier later : list (string * (number * number))) :
  lastWrite key (earlier ++ later)
  = match lastWrite key later with
    | Some w => Some w
    | None => lastWrite key earlier
    end.
Proof.
  induction earlier as [ | [k v] earlier IH ]; cbn [app lastWrite].
  - now destruct (lastWrite key later).
  - rewrite IH. now destruct (lastWrite key later).
Qed.

Lemma mapGet_mapSet (key k : string) (v : number * number) (m : LimitMap) :
  mapGet key (mapSet k v m) = if String.eqb k key then Some v else mapGet key m.
Proof.
  induction m as [ | [k0 w] m IH ]; cbn [mapSet mapGet].
  - reflexivity.
  - destruct (String.eqb_spec k0 k) as [-> | Hk0]; cbn [mapGet].
    + now destruct (String.eqb k key).
    + rewrite IH. destruct (String.eqb_spec k0 key) as [<- | ]; [ | reflexivity ].
      destruct (String.eqb_spec k k0) as [-> | ]; [ contradiction | reflexivity ].
Qed.

Lemma mapSet_keys (key k : string) (v : number * number) (m : LimitMap) :
  In key (map fst (mapSet k v m)) <-> key = k \/ In key (map fst m).
Proof.
  induction m as [ | [k0 w] m IH ]; cbn [mapSet map fst In].
  - intuition congruence.
  - destruct (String.eqb_spec k0 k) as [-> | Hk0]; cbn [map fst In].
    + intuition congruence.
    + rewrite IH. intuition congruence.
Qed.

Lemma mapSet_NoDup (k : string) (v : number * number) (m : LimitMap) :
  NoDup (map fst m) -> NoDup (map fst (mapSet k v m)).
Proof.
  induction m as [ | [k0 w] m IH ]; cbn [mapSet map fst]; intros Hm.
  - constructor; [ intros [] | constructor ].
  - inversion Hm as [ | ? ? Hnotin Hrest ]; subst.
    destruct (String.eqb_spec k0 k) as [-> | Hk0]; cbn [map fst].
    + now constructor.
    + constructor; [ | now apply IH ].
      rewrite mapSet_keys. intros [-> | Hin]; [ now apply Hk0 | contradiction ].
Qed.

Lemma agrees_applyWrites (new : list (string * (number * number))) :
  forall (m : LimitMap) (writes : list (string * (number * number))),
    agrees m writes -> agrees (applyWrites new m) (writes ++ new).
Proof.
  induction new as [ | [k v] new IH ]; intros m writes [Hdup Hget].
  - cbn. rewrite app_nil_r. now split.
  - replace (writes ++ (k, v) :: new)%list with ((writes ++ [(k, v)]) ++ new)%list
      by (now rewrite <- app_assoc).
    apply IH. split; [ now apply mapSet_NoDup | ].
    intros key. cbn [fst snd]. rewrite mapGet_mapSet, lastWrite_app.
    cbn [lastWrite]. destruct (String.eqb k key); [ reflexivity | apply Hget ].
Qed.

Lemma limitUsageLoop_applies (fields : list string) :
  forall m : LimitMap, limitUsageLoop fields m = applyWrites (limitSamples fields) m.
Proof.
  induction fields as [ | part fields IH ]; intros m; cbn [limitUsageLoop limitSamples].
  - reflexivity.
  - destruct (String.eqb _ _); [ apply IH | ].
    destruct (limitMatch _) as [ [limitName v] | ]; [ | apply IH ].
    rewrite IH. reflexivity.
Qed.

Lemma mapGet_In (key : string) (v : number * number) (m : LimitMap) :
  mapGet key m = Some v -> In (key, v) m.
Proof.
  induction m as [ | [k w] m IH ]; cbn [mapGet]; [ discriminate | ].
  destruct (String.eqb_spec k key) as [-> | ].
  - intros H. injection H as ->. now left.
  - intros H. right. now apply IH.
Qed.

Lemma mapGet_None (key : string) (m : LimitMap) :
  mapGet key m = None -> ~ In key (map fst m).
Proof.
  induction m as [ | [k w] m IH ]; cbn [mapGet map fst In]; [ tauto | ].
  destruct (String.eqb_spec k key) as [-> | Hk ]; [ discriminate | ].
  intros H [Heq | Hin]; [ now apply Hk | now apply IH ].
Qed.

(** ** The finalized list *)

Lemma insertLimit_permutation (x : LimitUsage) (l : list LimitUsage) :
  Permutation (insertLimit x l) (x :: l).
Proof.
  induction l as [ | y l IH ]; cbn [insertLimit]; [ reflexivity | ].
  destruct (sortsAfter x y); [ | reflexivity ].
  rewrite IH. apply perm_swap.
Qed.

Lemma sortLimits_permutation (l : list LimitUsage) : Permutation (sortLimits l) l.
Proof.
  induction l as [ | x l IH ]; cbn [sortLimits fold_right]; [ reflexivity | ].
  rewrite insertLimit_permutation. now constructor.
Qed.

Lemma limitOfEntry_name (m : LimitMap) : map name (map limitOfEntry m) = map fst m.
Proof.
  induction m as [ | [k [u t]] m IH ]; cbn; [ reflexivity | now rewrite IH ].
Qed.

Lemma entriesNamed_absent (key : string) (l : list LimitUsage) :
  ~ In key (map name l) -> entriesNamed key l = [].
Proof.
  induction l as [ | y l IH ]; cbn [entriesNamed filter map In]; intros H;
    [ reflexivity | ].
  destruct (String.eqb_spec (name y) key) as [Hy | _]; [ tauto | ].
  apply IH. tauto.
Qed.

Lemma entriesNamed_single (x : LimitUsage) (l : list LimitUsage) :
  NoDup (map name l) -> In x l -> entriesNamed (name x) l = [x].
Proof.
  induction l as [ | y l IH ]; cbn [map In]; intros Hdup Hin; [ contradiction | ].
  inversion Hdup as [ | ? ? Hnotin Hrest ]; subst.
  unfold entriesNamed. cbn [filter]. fold (entriesNamed (name x) l).
  destruct Hin as [-> | Hin].
  - rewrite String.eqb_refl. f_equal. now apply entriesNamed_absent.
  - destruct (String.eqb_spec (name y) (name x)) as [Hy | _].
    + exfalso. apply Hnotin. rewrite Hy. now apply in_map.
    + now apply IH.
Qed.

(** ** High-usage entries against the cumulative samples *)

Lemma filter_push_other (events : list TimelineEvent) (label : string) (t : number)
      (d : option string) :
  String.eqb label "High Limit Usage" = false ->
  filter isHighEvent (events ++ [mkEvent label t d]) = filter isHighEvent events.
Proof.
  intros H. rewrite filter_app. cbn [filter]. unfold isHighEvent at 2. cbn [event].
  rewrite H. apply app_nil_r.
Qed.

Lemma filter_updateFirst {A : Type} (p q : A -> bool) (f : A -> A) (l : list A) :
  (forall x, p x = true -> q x = false /\ q (f x) = false) ->
  filter q (updateFirst p f l) = filter q l.
Proof.
  intros H. induction l as [ | x l IH ]; cbn [updateFirst filter]; [ reflexivity | ].
  destruct (p x) eqn:Hp; cbn [filter].
  - destruct (H x Hp) as [-> ->]. reflexivity.
  - now rewrite IH.
Qed.

Lemma filter_updateLast {A : Type} (p q : A -> bool) (f : A -> A) (l : list A) :
  (forall x, p x = true -> q x = false /\ q (f x) = false) ->
  filter q (updateLast p f l) = filter q l.
Proof.
  intros H. unfold updateLast.
  now rewrite filter_rev, filter_updateFirst, filter_rev, rev_involutive.
Qed.

Ltac simpl_view :=
  unfold view, pushTimeline;
  cbn [limits governorLimits timeline setSummary setDebugLines setTimeline setErrors
       setLimits setGovernorLimits setCodeCoverage setHasCoverageInfo
       setTotalExecutionTimeMs];
  rewrite ?filter_push_other by reflexivity.

Ltac solve_view :=
  repeat match goal with
         | |- context [match ?x with _ => _ end] => destruct x
         end;
  simpl_view; reflexivity.

Lemma view_processContinuedDebugLine (a : LogAnalysis) (line : string) :
  view (processContinuedDebugLine a line) = view a.
Proof.
  unfold processContinuedDebugLine. destruct (rev (debugLines a)); [ reflexivity | ].
  simpl_view. rewrite filter_updateLast; [ reflexivity | ].
  intros x Hx. unfold isDebugLog in Hx. apply String.eqb_eq in Hx.
  unfold isHighEvent. cbn [event]. now rewrite Hx.
Qed.

Lemma view_processUserDebug (a a' : LogAnalysis) (lines parts : list string)
      (currentIndex newIndex : nat) (relativeTimeMs : number) (timestamp : string) :
  processUserDebug a lines currentIndex parts relativeTimeMs timestamp
    = Normal (a', newIndex) ->
  view a' = view a.
Proof.
  unfold processUserDebug. destruct (nth_error parts 2); [ | discriminate ].
  destruct (absorbLines _ _ _). intros H. injection H as <- _.
  simpl_view. reflexivity.
Qed.

Lemma view_processExecutionStarted (a : LogAnalysis) :
  view (processExecutionStarted a) = view a.
Proof. unfold processExecutionStarted. solve_view. Qed.

Lemma view_processMethodEntry (a : LogAnalysis) (parts : list string) (t : number) :
  view (processMethodEntry a parts t) = view a.
Proof. unfold processMethodEntry. solve_view. Qed.

Lemma view_processMethodExit (a : LogAnalysis) (parts : list string) (t : number) :
  view (processMethodExit a parts t) = view a.
Proof. unfold processMethodExit. solve_view. Qed.

Lemma view_processExecutionFinished (a : LogAnalysis) (startTime endTime : number) :
  view (processExecutionFinished a startTime endTime) = view a.
Proof. unfold processExecutionFinished. solve_view. Qed.

Lemma view_processSoqlQuery (a : LogAnalysis) (parts : list string) (t : number) :
  view (processSoqlQuery a parts t) = view a.
Proof. unfold processSoqlQuery. solve_view. Qed.

Lemma view_processDmlOperation (a : LogAnalysis) (parts : list string) (t : number) :
  view (processDmlOperation a parts t) = view a.
Proof. unfold processDmlOperation. solve_view. Qed.

Lemma view_processHeapAllocation (a : LogAnalysis) (line : string) :
  view (processHeapAllocation a line) = view a.
Proof. unfold processHeapAllocation. solve_view. Qed.

Lemma view_processException (a : LogAnalysis) (parts lines : list string) (t : number)
      (currentIndex : nat) :
  view (processException a parts t lines currentIndex) = view a.
Proof. unfold processException. solve_view. Qed.

Lemma view_processCodeCoverage (a : LogAnalysis) (parts : list string) :
  view (processCodeCoverage a parts) = view a.
Proof. reflexivity. Qed.

Lemma view_processSystemMode (a : LogAnalysis) (eventType : string) (t : number) :
  view (processSystemMode a eventType t) = view a.
Proof. unfold processSystemMode. destruct (includes _ _); solve_view. Qed.

Lemma view_processConstructor (a : LogAnalysis) (eventType : string)
      (parts : list string) (t : number) :
  view (processConstructor a eventType parts t) = view a.
Proof. unfold processConstructor. destruct (includes _ _); solve_view. Qed.

Lemma view_processCustomMethod (a : LogAnalysis) (eventType : string)
      (parts : list string) (t : number) :
  view (processCustomMethod a eventType parts t) = view a.
Proof. unfold processCustomMethod. destruct (includes _ _); solve_view. Qed.

Lemma view_processEnd (label : string) (a : LogAnalysis) (parts : list string)
      (t : number) :
  String.eqb label "High Limit Usage" = false ->
  view (processEnd label a parts t) = view a.
Proof.
  intros H. unfold processEnd. destruct (match_ _ _); [ | reflexivity ].
  unfold view, pushTimeline. cbn [limits governorLimits timeline setSummary setTimeline].
  now rewrite filter_push_other.
Qed.

(** What [processCumulativeLimits] does with the samples of its line. *)
Lemma cumulativeLoop_spec (fields : list string) :
  forall (a : LogAnalysis) (m : LimitMap) (relativeTimeMs : number),
    let samples := limitSamples fields in
    let result := cumulativeLoop fields a m relativeTimeMs in
    timeline (fst result)
      = (timeline a ++ map (sampleEvent relativeTimeMs) (filter sampleIsHigh samples))%list /\
    governorLimits (fst result) = (governorLimits a ++ map sampleRecord samples)%list /\
    limits (fst result) = limits a /\
    snd result = applyWrites samples m.
Proof.
  induction fields as [ | part fields IH ]; intros a m relativeTimeMs;
    cbn [limitSamples cumulativeLoop].
  - cbn. now rewrite !app_nil_r.
  - destruct (String.eqb _ _); [ apply IH | ].
    destruct (limitMatch _) as [ [limitName [u t]] | ]; [ | apply IH ].
    cbv zeta.
    match goal with
    | |- context [cumulativeLoop fields ?a2 ?m2 relativeTimeMs] =>
        destruct (IH a2 m2 relativeTimeMs) as [Htl [Hgl [Hl Hm]]]
    end.
    cbv zeta in Htl, Hgl, Hl, Hm. rewrite Htl, Hgl, Hl, Hm.
    cbn [filter map applyWrites fold_left fst snd].
    unfold sampleIsHigh at 2. cbn [fst snd].
    destruct (isHighUsage u t);
      cbn [map timeline governorLimits limits pushTimeline setTimeline
           setGovernorLimits];
      rewrite <- !app_assoc; repeat split; reflexivity.
Qed.

Lemma consistent_view (a a' : LogAnalysis) :
  view a' = view a -> consistent a -> consistent a'.
Proof.
  unfold view, consistent, highUsageDetails. intros H [Hl [Hh Hu]].
  injection H as -> -> ->. now repeat split.
Qed.

Lemma secondGroupIsDigits_limitPattern : secondGroupIsDigits limitPattern.
Proof.
  cbn. repeat split; try (left; split; [ discriminate | ]); cbn; auto.
Qed.

Lemma limitMatch_not_negative (limitPart limitName : string) (u t : number) :
  limitMatch limitPart = Some (limitName, (u, t)) -> isNegative u = false.
Proof.
  unfold limitMatch. destruct (match_ limitPattern limitPart) as [ m | ] eqn:Hm;
    [ | discriminate ].
  intros H. injection H as _ <- _.
  apply parseInt_not_negative.
  exact (match_secondGroupOk _ _ _ secondGroupIsDigits_limitPattern Hm).
Qed.

Lemma limitSamples_not_negative (fields : list string) :
  Forall (fun sample => isNegative (fst (snd sample)) = false) (limitSamples fields).
Proof.
  induction fields as [ | part fields IH ]; cbn [limitSamples]; [ constructor | ].
  destruct (String.eqb _ _); [ exact IH | ].
  destruct (limitMatch _) as [ [limitName [u t]] | ] eqn:Hmatch; [ | exact IH ].
  constructor; [ | exact IH ]. cbn [fst snd].
  eapply limitMatch_not_negative, Hmatch.
Qed.

(** For a usage that is not below zero the test [used > 0] of the source
    adds nothing to the test on the ratio. *)
Lemma isHighUsage_ratio (u t : number) :
  isNegative u = false -> isHighUsage u t = overHalf u t.
Proof.
  unfold isHighUsage, overHalf.
  destruct u as [ [ ] | [ ] | | [ ] m e ]; try discriminate; intros _;
    try reflexivity; destruct t as [ [ ] | [ ] | | [ ] m' e' ]; reflexivity.
Qed.

Lemma filter_sampleRecord (samples : list (string * (number * number))) :
  filter recordIsHigh (map sampleRecord samples)
  = map sampleRecord (filter sampleIsHigh samples).
Proof.
  induction samples as [ | sample samples IH ]; cbn [map filter]; [ reflexivity | ].
  change (recordIsHigh (sampleRecord sample)) with (sampleIsHigh sample).
  destruct (sampleIsHigh sample); cbn [map]; now rewrite IH.
Qed.

Lemma filter_sampleEvent (t : number) (samples : list (string * (number * number))) :
  filter isHighEvent (map (sampleEvent t) samples) = map (sampleEvent t) samples.
Proof.
  induction samples as [ | sample samples IH ]; cbn [map filter]; [ reflexivity | ].
  change (isHighEvent (sampleEvent t sample)) with true. cbv iota. now rewrite IH.
Qed.

Lemma consistent_cumulative (a : LogAnalysis) (m : LimitMap) (parts : list string)
      (relativeTimeMs : number) :
  consistent a -> consistent (fst (processCumulativeLimits a m parts relativeTimeMs)).
Proof.
  intros [Hl [Hh Hu]]. unfold processCumulativeLimits.
  destruct (cumulativeLoop_spec (slice 3 parts) a m relativeTimeMs)
    as [Htl [Hgl [Hl' _]]].
  cbv zeta in Htl, Hgl, Hl'. split; [ now rewrite Hl' | split ].
  - unfold highUsageDetails in *.
    rewrite Htl, Hgl, !filter_app, !map_app, Hh, filter_sampleEvent, filter_sampleRecord.
    f_equal. rewrite !map_map. reflexivity.
  - rewrite Hgl. apply Forall_app. split; [ exact Hu | ].
    apply Forall_map. exact (limitSamples_not_negative (slice 3 parts)).
Qed.

(** ** The invariant of the loop *)

Lemma invariant_handled (st : LoopState) (a : LogAnalysis) :
  invariant st -> view a = view (analysis st) -> invariant (handled st a).
Proof.
  intros [Hm Ha] Hview. split; [ exact Hm | ].
  cbn [handled analysis]. eapply consistent_view; eassumption.
Qed.

Lemma tryBlock_invariant (lines : list string) (st : LoopState) (line : string) :
  invariant st -> invariant (fst (tryBlock lines st line)).
Proof.
  intros Hinv. pose proof Hinv as [Hm Ha]. unfold tryBlock. cbv zeta.
  destruct (isPartOfPreviousDebugLine _ _).
  { split; [ exact Hm | ]. cbn [fst analysis].
    eapply consistent_view; [ apply view_processContinuedDebugLine | exact Ha ]. }
  destruct (_ <? 2)%nat; [ exact Hinv | ].
  destruct (classify _) as [ [ ] | ]; cbn [fst]; try exact Hinv;
    try (apply (invariant_handled st);
         [ exact Hinv
         | first [ apply view_processExecutionStarted
                 | apply view_processExecutionFinished
                 | apply view_processSoqlQuery
                 | apply view_processDmlOperation
                 | apply view_processHeapAllocation
                 | apply view_processException
                 | apply view_processMethodEntry
                 | apply view_processMethodExit
                 | apply view_processCodeCoverage
                 | apply view_processSystemMode
                 | apply view_processConstructor
                 | apply view_processCustomMethod
                 | apply view_processEnd; reflexivity
                 | reflexivity ] ]).
  - destruct (processUserDebug _ _ _ _ _ _) as [ [a' newIndex] | e ] eqn:Hdebug;
      cbn [fst]; (split; [ exact Hm | ]); cbn [analysis]; [ | exact Ha ].
    eapply consistent_view; [ eapply view_processUserDebug, Hdebug | exact Ha ].
  - split; [ | exact Ha ]. cbn [limitMap limitWrites]. unfold processLimitUsage.
    rewrite limitUsageLoop_applies. now apply agrees_applyWrites.
  - pose proof (consistent_cumulative (analysis st) (limitMap st)
                  (split "|" line)
                  (Math_round (mul (sub (parseFloat (nth 0 (split "|" line) EmptyString))
                                        (startTime st)) (ofZ 1000))) Ha) as Hc.
    pose proof (cumulativeLoop_spec (slice 3 (split "|" line)) (analysis st)
                  (limitMap st)
                  (Math_round (mul (sub (parseFloat (nth 0 (split "|" line) EmptyString))
                                        (startTime st)) (ofZ 1000)))) as [_ [_ [_ Hw]]].
    cbv zeta in Hw. fold (processCumulativeLimits (analysis st) (limitMap st)
                            (split "|" line)
                            (Math_round (mul (sub (parseFloat (nth 0 (split "|" line)
                                                                   EmptyString))
                                                  (startTime st)) (ofZ 1000)))) in Hw.
    destruct (processCumulativeLimits _ _ _ _) as [a' m'].
    cbn [fst snd] in *. split; [ | exact Hc ].
    cbn [limitMap limitWrites]. rewrite Hw. now apply agrees_applyWrites.
Qed.

Lemma iteration_invariant (lines : list string) (st : LoopState) :
  invariant st -> invariant (iteration lines st).
Proof.
  intros Hinv. unfold iteration. destruct (String.eqb _ _); [ exact Hinv | ].
  pose proof (tryBlock_invariant lines st (nth (i st) lines EmptyString) Hinv) as H.
  destruct (tryBlock _ _ _) as [st' [ u | e ]]; exact H.
Qed.

Lemma loop_invariant (fuel : nat) :
  forall (lines : list string) (st st' : LoopState),
    invariant st -> loop fuel lines st = Some st' -> invariant st'.
Proof.
  induction fuel as [ | fuel IH ]; intros lines st st' Hinv; cbn [loop];
    [ discriminate | ].
  destruct (_ <? _)%nat.
  - apply IH. apply (iteration_invariant lines) in Hinv.
    destruct Hinv as [Hm Ha]. split; assumption.
  - intros H. injection H as <-. exact Hinv.
Qed.

Lemma runLoop_invariant (log : string) (st : LoopState) :
  runLoop log = Some st -> invariant st.
Proof.
  apply loop_invariant. split; [ split | repeat split ]; try reflexivity; constructor.
Qed.

(** ** Last write wins *)

Lemma finalized_entries (a : LogAnalysis) (m : LimitMap)
      (writes : list (string * (number * number))) :
  limits a = [] -> agrees m writes ->
  (forall key u t,
      lastWrite key writes = Some (u, t) ->
      entriesNamed key (limits (finalizeAnalysis a m)) = [limitOfEntry (key, (u, t))]) /\
  (forall key,
      lastWrite key writes = None ->
      entriesNamed key (limits (finalizeAnalysis a m)) = []).
Proof.
  intros Hl [Hdup Hget].
  assert (Hlimits : limits (finalizeAnalysis a m) = sortLimits (map limitOfEntry m))
    by (cbn [finalizeAnalysis limits setSummary setLimits]; now rewrite Hl).
  assert (Hperm : Permutation (map name (limits (finalizeAnalysis a m))) (map fst m)).
  { rewrite Hlimits, <- limitOfEntry_name. apply Permutation_map, sortLimits_permutation. }
  split.
  - intros key u t Hlast.
    change key with (name (limitOfEntry (key, (u, t)))) at 1.
    apply entriesNamed_single.
    + eapply Permutation_NoDup; [ symmetry; exact Hperm | exact Hdup ].
    + rewrite Hlimits.
      eapply Permutation_in; [ symmetry; apply sortLimits_permutation | ].
      apply in_map, mapGet_In. now rewrite Hget.
  - intros key Hlast. apply entriesNamed_absent. intros Hin.
    eapply Permutation_in in Hin; [ | exact Hperm ].
    revert Hin. apply mapGet_None. now rewrite Hget.
Qed.

(** C2: in the finalized list of every log each limit name that was
    sampled has one entry, with the used and total values of the last sample
    written under that name and the percentage computed from them; a name
    never sampled has none.  A cumulative sample appends its own high-usage
    entry to the timeline, at the time of its line, when its ratio
    used / total is over one half, and nothing else appends or changes such
    an entry: the high-usage entries of the timeline are, in order, those of
    the cumulative samples over one half.  For "Queries" sampled at 10 of 100
    and then at 55 of 100 the list is the one entry 55 of 100 at 55%, and the
    one high-usage entry is that of the second sample. *)
Theorem limits_last_write_wins :
  (forall (log : string) (st : LoopState),
      runLoop log = Some st ->
      let a := finalizeAnalysis (analysis st) (limitMap st) in
      analyzeApexLog log = Some a /\
      (forall key u t,
          lastWrite key (limitWrites st) = Some (u, t) ->
          entriesNamed key (limits a)
          = [mkLimit key u t
                     (if gt t zero then Math_round (mul (div u t) (ofZ 100)) else zero)]) /\
      (forall key,
          lastWrite key (limitWrites st) = None -> entriesNamed key (limits a) = []) /\
      highUsageDetails (timeline a)
      = map recordDetails
            (filter (fun g => overHalf (usage g) (governorTotal g)) (governorLimits a))) /\
  (forall (a : LogAnalysis) (m : LimitMap) (parts : list string) (relativeTimeMs : number),
      let samples := limitSamples (slice 3 parts) in
      let result := processCumulativeLimits a m parts relativeTimeMs in
      timeline (fst result)
      = (timeline a ++
         map (sampleEvent relativeTimeMs)
             (filter (fun sample => overHalf (fst (snd sample)) (snd (snd sample)))
                     samples))%list /\
      governorLimits (fst result) = (governorLimits a ++ map sampleRecord samples)%list /\
      snd result = applyWrites samples m) /\
  option_map limits (analyzeApexLog queriesLog)
    = Some [mkLimit "Queries" (ofZ 55) (ofZ 100) (ofZ 55)] /\
  option_map (fun a => filter isHighEvent (timeline a)) (analyzeApexLog queriesLog)
    = Some [mkEvent "High Limit Usage" (ofZ 2000) (Some "Queries: 55 of 100 (55%)")] /\
  option_map governorLimits (analyzeApexLog queriesLog)
    = Some [mkGovernorLimit "Queries" (ofZ 10) (ofZ 100);
            mkGovernorLimit "Queries" (ofZ 55) (ofZ 100)].
Proof.
  split; [ | split; [ | repeat split; vm_compute; reflexivity ] ].
  - intros log st Hrun. cbv zeta.
    destruct (runLoop_invariant log st Hrun) as [Hm [Hl [Hh Hu]]].
    destruct (finalized_entries (analysis st) (limitMap st) (limitWrites st) Hl Hm)
      as [Hsome Hnone].
    split; [ unfold analyzeApexLog; now rewrite Hrun | ].
    split; [ exact Hsome | split; [ exact Hnone | ] ].
    cbn [finalizeAnalysis timeline governorLimits setSummary setLimits].
    rewrite Hh. f_equal. apply filter_ext_in. intros g Hg.
    apply isHighUsage_ratio. rewrite Forall_forall in Hu. now apply Hu.
  - intros a m parts relativeTimeMs. cbv zeta. unfold processCumulativeLimits.
    destruct (cumulativeLoop_spec (slice 3 parts) a m relativeTimeMs)
      as [Htl [Hgl [_ Hw]]].
    cbv zeta in Htl, Hgl, Hw. rewrite Htl, Hgl, Hw.
    split; [ | split; reflexivity ].
    do 2 f_equal. apply filter_ext_in. intros sample Hsample.
    apply isHighUsage_ratio.
    pose proof (limitSamples_not_negative (slice 3 parts)) as Hall.
    rewrite Forall_forall in Hall. now apply Hall.
Qed.

Lemma limits_last_write_wins_witness :
  match runLoop queriesLog with
  | Some st =>
      lastWrite "Queries" (limitWrites st) = Some (ofZ 55, ofZ 100) /\
      entriesNamed "Queries" (limits (finalizeAnalysis (analysis st) (limitMap st)))
      = [mkLimit "Queries" (ofZ 55) (ofZ 100) (ofZ 55)] /\
      lastWrite "Rows" (limitWrites st) = None /\
      entriesNamed "Rows" (limits (finalizeAnalysis (analysis st) (limitMap st))) = []
  | None => False
  end.
Proof.
  destruct (runLoop queriesLog) as [ st | ] eqn:Hrun;
    [ | vm_compute in Hrun; discriminate Hrun ].
  assert (Hlast : lastWrite "Queries" (limitWrites st) = Some (ofZ 55, ofZ 100))
    by (vm_compute in Hrun; injection Hrun as <-; vm_compute; reflexivity).
  assert (Hnone : lastWrite "Rows" (limitWrites st) = None)
    by (vm_compute in Hrun; injection Hrun as <-; vm_compute; reflexivity).
  destruct (proj1 limits_last_write_wins queriesLog st Hrun) as [_ [Hsome [Habsent _]]].
  split; [ exact Hlast | split; [ | split; [ exact Hnone | ] ] ].
  - exact (Hsome "Queries" (ofZ 55) (ofZ 100) Hlast).
  - exact (Habsent "Rows" Hnone).
Defined.

End AnalyzerProperties.

(* ================================================================= *)
(** * Both entry points return *)

Module Totality.

Import LogAnalyzerHandler ApexTestRunner Vocabulary.

(** ** The loop of the analyzer leaves every line behind *)

Lemma processUserDebug_index (a a' : LogAnalysis) (lines parts : list string)
      (currentIndex newIndex : nat) (relativeTimeMs : number) (timestamp : string) :
  processUserDebug a lines currentIndex parts relativeTimeMs timestamp
    = Normal (a', newIndex) ->
  currentIndex <= newIndex.
Proof.
  unfold processUserDebug.
  destruct (nth_error parts 2); [ | discriminate ].
  destruct (absorbLines _ _ _) as [message nextLineIndex].
  intros H. injection H as _ <-.
  destruct (Nat.ltb_spec (currentIndex + 1) nextLineIndex); lia.
Qed.

Lemma tryBlock_index (lines : list string) (st : LoopState) (line : string) :
  i st <= i (fst (tryBlock lines st line)).
Proof.
  unfold tryBlock.
  destruct (isPartOfPreviousDebugLine _ _); [ apply Nat.le_refl | ].
  destruct (_ <? 2)%nat; [ apply Nat.le_refl | ].
  destruct (classify _) as [ [ ] | ]; try apply Nat.le_refl.
  - destruct (processUserDebug _ _ _ _ _ _) as [ [a' newIndex] | e ] eqn:Hdebug;
      [ | apply Nat.le_refl ].
    cbn [fst i]. eapply processUserDebug_index, Hdebug.
  - destruct (processCumulativeLimits _ _ _ _). apply Nat.le_refl.
Qed.

Lemma iteration_index (lines : list string) (st : LoopState) :
  i st <= i (iteration lines st).
Proof.
  unfold iteration.
  destruct (String.eqb _ _); [ apply Nat.le_refl | ].
  pose proof (tryBlock_index lines st (nth (i st) lines EmptyString)) as H.
  destruct (tryBlock _ _ _) as [st' [ u | e ]]; exact H.
Qed.

(** With more fuel than lines are left the loop reaches its exit. *)
Lemma loop_terminates (fuel : nat) :
  forall (lines : list string) (st : LoopState),
    List.length lines - i st < fuel ->
    exists st', loop fuel lines st = Some st'.
Proof.
  induction fuel as [ | fuel IH ]; intros lines st Hfuel; [ lia | ].
  cbn [loop].
  destruct (Nat.ltb_spec (i st) (List.length lines)) as [Hin | Hout].
  - apply IH. pose proof (iteration_index lines st). cbn [increment i]. lia.
  - now exists st.
Qed.

Lemma runLoop_returns (log : string) : exists st, runLoop log = Some st.
Proof. apply loop_terminates. cbn [initialState i]. lia. Qed.

Lemma extractor_returns (log : string) (className methodName setupMethodName : value) :
  exists result,
    filterLogsForMethod (VString log) className methodName setupMethodName
      = Normal result.
Proof.
  unfold filterLogsForMethod.
  destruct (_ || _); [ now eexists | ].
  destruct (_ || _); [ now eexists | ].
  destruct className, methodName; try (now eexists).
  destruct (_ <? _)%Z; [ now eexists | ].
  destruct (_ <? _)%Z; now eexists.
Qed.

(** C1: on every string the analyzer and the extractor return a value: the
    loop of the analyzer ends within the fuel its definition gives it, and
    neither function ends in [Throw]; an exception thrown while one line
    is processed is caught in the loop, which leaves the analysis as it was
    and goes on with the next line. *)
Theorem analyzer_and_extractor_return :
  (forall log : string, exists a, analyzeApexLog log = Some a) /\
  (forall (log : string) (className methodName setupMethodName : value),
      exists result,
        filterLogsForMethod (VString log) className methodName setupMethodName
          = Normal result) /\
  (forall (lines : list string) (st st' : LoopState) (e : error) (fuel : nat),
      i st < List.length lines ->
      trim (nth (i st) lines EmptyString) <> EmptyString ->
      tryBlock lines st (nth (i st) lines EmptyString) = (st', Throw e) ->
      analysis st' = analysis st /\
      loop (S fuel) lines st = loop fuel lines (increment st') /\
      i (increment st') = S (i st)).
Proof.
  split; [ | split ].
  - intros log. unfold analyzeApexLog.
    destruct (runLoop_returns log) as [st ->]. now eexists.
  - apply extractor_returns.
  - intros lines st st' e fuel Hin Hline Hthrow.
    assert (Hst' : analysis st' = analysis st /\ i st' = i st).
    { revert Hthrow. unfold tryBlock.
      destruct (isPartOfPreviousDebugLine _ _); [ discriminate | ].
      destruct (_ <? 2)%nat; [ discriminate | ].
      destruct (classify _) as [ [ ] | ]; try discriminate.
      - destruct (processUserDebug _ _ _ _ _ _) as [ [a' newIndex] | e' ];
          [ discriminate | ].
        intros H. injection H as <- _. split; reflexivity.
      - destruct (processCumulativeLimits _ _ _ _). discriminate. }
    destruct Hst' as [Ha Hi].
    split; [ exact Ha | split ].
    + cbn [loop]. apply Nat.ltb_lt in Hin. rewrite Hin.
      unfold iteration. apply String.eqb_neq in Hline. rewrite Hline, Hthrow.
      reflexivity.
    + cbn [increment i]. now rewrite Hi.
Qed.

Lemma analyzer_and_extractor_return_witness :
  let lines := ["1|USER_DEBUG"; "2|SOQL_EXECUTE_BEGIN|q"] in
  let thrown := TypeError "Cannot read properties of undefined (reading 'match')" in
  let st' := mkLoop initializeAnalysis [] zero zero 0 0 [] in
  tryBlock lines initialState "1|USER_DEBUG" = (st', Throw thrown) /\
  loop 3 lines initialState = loop 2 lines (increment st') /\
  exists a, analyzeApexLog (join NL lines) = Some a.
Proof.
  cbv zeta.
  destruct analyzer_and_extractor_return as [Hanalyzer [_ Hcaught]].
  split; [ reflexivity | split ].
  - refine (proj1 (proj2 (Hcaught ["1|USER_DEBUG"; "2|SOQL_EXECUTE_BEGIN|q"]
                                  initialState _ _ 2 _ _ eq_refl))).
    + cbn. lia.
    + discriminate.
  - apply Hanalyzer.
Defined.

End Totality.

(* ================================================================= *)
(** * Properties of the command-line client and of the calls around it *)

Module ClientProperties.

Import ApexTestRunner Vocabulary StringFacts.

(** ** Character classes *)

Lemma everyChar_app (p : ascii -> bool) (s t : string) :
  everyChar p (s ++ t) = everyChar p s && everyChar p t.
Proof.
  induction s as [|c s IH]; simpl; [reflexivity|].
  rewrite IH. apply andb_assoc.
Qed.

Lemma everyChar_weaken (p q : ascii -> bool) (s : string) :
  (forall c, p c = true -> q c = true) -> everyChar p s = true -> everyChar q s = true.
Proof.
  intros Hpq. induction s as [|c s IH]; simpl; [reflexivity|].
  intros H. apply andb_true_iff in H as [Hc Hs].
  rewrite (Hpq c Hc), (IH Hs). reflexivity.
Qed.

Lemma keepChars_everyChar (p : ascii -> bool) (s : string) :
  everyChar p (keepChars p s) = true.
Proof.
  induction s as [|c s IH]; simpl; [reflexivity|].
  destruct (p c) eqn:Hc; simpl; [rewrite Hc|]; exact IH.
Qed.

Lemma keepChars_clean (p : ascii -> bool) (s : string) :
  everyChar p s = true -> keepChars p s = s.
Proof.
  induction s as [|c s IH]; simpl; [reflexivity|].
  intros H. apply andb_true_iff in H as [Hc Hs].
  rewrite Hc, (IH Hs). reflexivity.
Qed.

Lemma keepChars_fixed (p : ascii -> bool) (s : string) :
  String.eqb (keepChars p s) s = everyChar p s.
Proof.
  destruct (everyChar p s) eqn:H.
  - rewrite (keepChars_clean p s H). apply String.eqb_refl.
  - apply String.eqb_neq. intros Heq.
    rewrite <- Heq, keepChars_everyChar in H. discriminate H.
Qed.

Lemma cliChar_argChar (c : ascii) : SalesforceClient.isCliChar c = true -> isArgChar c = true.
Proof. unfold isArgChar. intros ->. reflexivity. Qed.

Lemma alphanumeric_argChar (c : ascii) :
  SalesforceClient.isAlphanumeric c = true -> isArgChar c = true.
Proof.
  unfold isArgChar, SalesforceClient.isCliChar, SalesforceClient.isAlphanumeric.
  intros ->. reflexivity.
Qed.

(** ** The sanitizer of the extractor *)

(** X1: the sanitized name of [filterLogsForMethod] has only letters, digits,
    underscores and dots; sanitizing it again changes nothing; and a name is
    left as it is exactly when it has only such characters. *)
Theorem sanitize_keeps_name_characters (s : string) :
  everyChar isNameChar (sanitize s) = true /\
  sanitize (sanitize s) = sanitize s /\
  (sanitize s = s <-> everyChar isNameChar s = true).
Proof.
  unfold sanitize. split; [apply keepChars_everyChar|]. split.
  - apply keepChars_clean, keepChars_everyChar.
  - rewrite <- keepChars_fixed. split.
    + intros ->. apply String.eqb_refl.
    + apply String.eqb_eq.
Qed.

(** ** [runApexTest] of the client *)

(** X2: the client reaches the command line exactly when the class name,
    and the method name if one is given, have only the characters
    [a-zA-Z0-9_.,]; otherwise it throws before any command is run. *)
Theorem runApexTest_reaches_command_iff_clean (className : string)
        (methodName : option string) :
  (exists testArgs, SalesforceClient.runApexTest className methodName = Proceeds testArgs)
  <->
  everyChar SalesforceClient.isCliChar className = true /\
  (forall method, methodName = Some method ->
                  everyChar SalesforceClient.isCliChar method = true).
Proof.
  unfold SalesforceClient.runApexTest, SalesforceClient.sanitizeCliArg.
  rewrite keepChars_fixed.
  destruct (everyChar SalesforceClient.isCliChar className) eqn:Hclass; simpl.
  - destruct methodName as [method|].
    + destruct (String.eqb_spec method EmptyString) as [->|Hne].
      * split; [|intros _; eexists; reflexivity].
        intros _. split; [reflexivity|]. intros ? [= <-]. reflexivity.
      * rewrite keepChars_fixed.
        destruct (everyChar SalesforceClient.isCliChar method) eqn:Hmethod; simpl.
        -- split.
           ++ intros _. split; [reflexivity|]. intros ? [= <-]. exact Hmethod.
           ++ intros _. destruct (includes "," method); eexists; reflexivity.
        -- split.
           ++ intros [? H]. discriminate H.
           ++ intros [_ H]. specialize (H method eq_refl). congruence.
    + split; [|intros _; eexists; reflexivity].
      intros _. split; [reflexivity|]. intros ? H. discriminate H.
  - split.
    + intros [? H]. discriminate H.
    + intros [H _]. discriminate H.
Qed.

(** X3: every argument with which [runApexTest] or [getLogContent] calls
    the command line has only the characters [a-zA-Z0-9_.,-]. *)
Theorem command_arguments_are_clean (className logId : string)
        (methodName : option string) (testArgs : list string) :
  SalesforceClient.runApexTest className methodName = Proceeds testArgs \/
  SalesforceClient.getLogContent logId = Proceeds testArgs ->
  Forall (fun arg => everyChar isArgChar arg = true) testArgs.
Proof.
  assert (Hfixed : forall x tail,
             everyChar isArgChar x = true ->
             Forall (fun arg => everyChar isArgChar arg = true) tail ->
             Forall (fun arg => everyChar isArgChar arg = true) (x :: tail)).
  { intros x tail Hx Htail. constructor; assumption. }
  intros [H|H].
  - unfold SalesforceClient.runApexTest, SalesforceClient.sanitizeCliArg in H.
    rewrite keepChars_fixed in H.
    destruct (everyChar SalesforceClient.isCliChar className) eqn:Hclass;
      simpl in H; [|discriminate H].
    assert (Hc : everyChar isArgChar (keepChars SalesforceClient.isCliChar className) = true).
    { apply (everyChar_weaken _ _ _ cliChar_argChar), keepChars_everyChar. }
    destruct methodName as [method|].
    + destruct (String.eqb method EmptyString).
      * injection H as <-. cbn [app].
        repeat (apply Hfixed; [first [reflexivity | exact Hc]|]). constructor.
      * rewrite keepChars_fixed in H.
        destruct (everyChar SalesforceClient.isCliChar method) eqn:Hmethod;
          simpl in H; [|discriminate H].
        assert (Hm : everyChar isArgChar (keepChars SalesforceClient.isCliChar method) = true).
        { apply (everyChar_weaken _ _ _ cliChar_argChar), keepChars_everyChar. }
        destruct (includes "," method); injection H as <-; cbn [app].
        -- repeat (apply Hfixed; [first [reflexivity | exact Hm]|]). constructor.
        -- repeat (apply Hfixed; [reflexivity|]).
           apply Hfixed.
           { rewrite !everyChar_app, Hc. cbn [everyChar]. rewrite Hm. reflexivity. }
           repeat (apply Hfixed; [reflexivity|]). constructor.
    + injection H as <-. cbn [app].
      repeat (apply Hfixed; [first [reflexivity | exact Hc]|]). constructor.
  - unfold SalesforceClient.getLogContent, SalesforceClient.isValidSalesforceId in H.
    destruct (everyChar SalesforceClient.isAlphanumeric logId) eqn:Hid;
      [|discriminate H].
    destruct ((15 <=? String.length logId)%nat && (String.length logId <=? 18)%nat);
      [|discriminate H].
    cbn [andb negb] in H.
    injection H as <-.
    repeat (apply Hfixed;
            [first [reflexivity
                   | exact (everyChar_weaken _ _ _ alphanumeric_argChar Hid)]|]).
    constructor.
Qed.

Lemma command_arguments_are_clean_witness :
  Forall (fun arg => everyChar isArgChar arg = true)
         ["apex"; "test"; "run"; "--tests"; "AccountTest.testInsert";
          "--result-format"; "json"; "--synchronous"; "--wait"; "60"].
Proof.
  apply (command_arguments_are_clean "AccountTest" EmptyString (Some "testInsert")).
  left. reflexivity.
Defined.


(** ** [queryTestResults] *)

Lemma countChar_app (c : ascii) (s t : string) :
  countChar c (s ++ t) = countChar c s + countChar c t.
Proof.
  induction s as [|d s IH]; simpl; [reflexivity|]. rewrite IH. lia.
Qed.

Lemma countChar_outside (p : ascii -> bool) (c : ascii) (s : string) :
  p c = false -> everyChar p s = true -> countChar c s = 0.
Proof.
  intros Hc. induction s as [|d s IH]; simpl; [reflexivity|].
  intros H. apply andb_true_iff in H as [Hd Hs].
  destruct (Ascii.eqb_spec d c) as [->|_]; [congruence|].
  rewrite (IH Hs). reflexivity.
Qed.

Lemma alphanumeric_idListChar (c : ascii) :
  SalesforceClient.isAlphanumeric c = true -> isIdListChar c = true.
Proof. unfold isIdListChar. intros ->. reflexivity. Qed.

Lemma valid_id_alphanumeric (id : string) :
  SalesforceClient.isValidSalesforceId id = true ->
  everyChar SalesforceClient.isAlphanumeric id = true.
Proof.
  unfold SalesforceClient.isValidSalesforceId. intros H.
  apply andb_true_iff in H as [H _]. exact H.
Qed.

Lemma quoteId_chars (id : string) :
  everyChar SalesforceClient.isAlphanumeric id = true ->
  everyChar isIdListChar (SalesforceClient.quoteId id) = true /\
  countChar "'" (SalesforceClient.quoteId id) = 2.
Proof.
  intros H. unfold SalesforceClient.quoteId. split.
  - cbn [append everyChar]. rewrite everyChar_app.
    rewrite (everyChar_weaken _ _ _ alphanumeric_idListChar H). reflexivity.
  - cbn [append countChar]. rewrite countChar_app.
    rewrite (countChar_outside SalesforceClient.isAlphanumeric "'" id eq_refl H).
    reflexivity.
Qed.

Lemma join_quoted_chars (ids : list string) :
  Forall (fun id => everyChar SalesforceClient.isAlphanumeric id = true) ids ->
  everyChar isIdListChar (join ", " (map SalesforceClient.quoteId ids)) = true /\
  countChar "'" (join ", " (map SalesforceClient.quoteId ids)) = 2 * List.length ids.
Proof.
  induction 1 as [|id ids Hid Hids [IHe IHc]]; [split; reflexivity|].
  destruct (quoteId_chars id Hid) as [He Hc].
  destruct ids as [|id2 ids].
  - simpl. split; [exact He | exact Hc].
  - change (join ", " (map SalesforceClient.quoteId (id :: id2 :: ids)))
      with (SalesforceClient.quoteId id ++ ", " ++
            join ", " (map SalesforceClient.quoteId (id2 :: ids))).
    rewrite !everyChar_app, !countChar_app, He, Hc, IHe, IHc.
    split; [reflexivity|]. cbn [countChar List.length Ascii.eqb Bool.eqb]. lia.
Qed.

(** X4: [queryTestResults] throws ['Invalid class IDs'] when no id is 15 to
    18 letters and digits, and otherwise queries with the list of the valid
    ids only: that list has nothing but letters, digits, apostrophes, commas
    and spaces, and two apostrophes for each id. *)
Theorem queryTestResults_lists_valid_ids_only (classIds : list string)
        (startTime endTime : string) :
  let valid := filter SalesforceClient.isValidSalesforceId classIds in
  let classIdList := join ", " (map SalesforceClient.quoteId valid) in
  SalesforceClient.queryTestResults classIds startTime endTime
    = match valid with
      | [] => ThrowsError "Invalid class IDs"
      | _ :: _ =>
          Proceeds ["data"; "query"; "--query";
                    SalesforceClient.testResultQuery classIdList startTime endTime;
                    "--json"]
      end /\
  everyChar isIdListChar classIdList = true /\
  countChar "'" classIdList = 2 * List.length valid.
Proof.
  intros valid classIdList. split.
  - unfold SalesforceClient.queryTestResults. fold valid.
    rewrite length_map. fold classIdList.
    destruct valid; reflexivity.
  - apply join_quoted_chars. apply Forall_forall. intros id Hin.
    apply filter_In in Hin as [_ Hvalid]. apply valid_id_alphanumeric, Hvalid.
Qed.

(** ** The class name of a path *)

Lemma split_ends_with (sep : ascii) (file dir : string) :
  lacks sep file ->
  exists first front, split sep (dir ++ String sep file) = first :: (front ++ [file])%list.
Proof.
  intros Hfile. induction dir as [|c dir (first & front & IH)].
  - exists EmptyString, []. simpl. rewrite Ascii.eqb_refl.
    rewrite (split_lacking sep file Hfile). reflexivity.
  - simpl. rewrite IH. destruct (Ascii.eqb c sep).
    + exists EmptyString, (first :: front). reflexivity.
    + exists (String c first), front. reflexivity.
Qed.

Lemma pop_split (sep : ascii) (file dir : string) :
  lacks sep file -> pop (split sep (dir ++ String sep file)) = Some file.
Proof.
  intros Hfile. destruct (split_ends_with sep file dir Hfile) as (first & front & ->).
  unfold pop. change (first :: (front ++ [file])%list) with ((first :: front) ++ [file])%list.
  rewrite rev_unit. reflexivity.
Qed.

Lemma startsWith_cls_app (a : ascii) (s : string) :
  startsWith ".cls" (String a s) = false ->
  startsWith ".cls" (String a s ++ ".cls") = false.
Proof.
  destruct s as [|b [|c [|d s]]]; simpl; intros H;
    rewrite ?andb_false_r; auto.
Qed.

Lemma replaceFirst_cls (name : string) :
  includes ".cls" name = false ->
  replaceFirst ".cls" EmptyString (name ++ ".cls") = name.
Proof.
  induction name as [|a name IH]; [reflexivity|].
  intros H. cbn [includes] in H. apply orb_false_iff in H as [Hhead Htail].
  change (String a name ++ ".cls") with (String a (name ++ ".cls")).
  cbn [replaceFirst].
  change (String a (name ++ ".cls")) with (String a name ++ ".cls").
  rewrite (startsWith_cls_app a name Hhead).
  rewrite (IH Htail). reflexivity.
Qed.

(** X5: for a path that ends in a slash, a name without slash and without
    ['.cls'] inside, and the extension ['.cls'], the class name
    [runApexTest] derives is that name; when the name is empty the call
    throws ['Could not determine class name']. *)
Theorem classNameOfPath_strips_directory_and_extension (dir name : string) :
  lacks "/" name ->
  includes ".cls" name = false ->
  classNameOfPath (dir ++ "/" ++ name ++ ".cls")
    = if String.eqb name EmptyString
      then ThrowsError "Could not determine class name"
      else Proceeds name.
Proof.
  intros Hslash Hcls. unfold classNameOfPath.
  change (dir ++ "/" ++ name ++ ".cls") with (dir ++ String "/" (name ++ ".cls")).
  rewrite pop_split.
  - rewrite (replaceFirst_cls name Hcls). reflexivity.
  - unfold lacks in *. clear Hcls.
    induction name as [|a name IH]; [reflexivity|].
    cbn [append includes startsWith] in *.
    apply orb_false_iff in Hslash as [Ha Hrest].
    rewrite Ha, (IH Hrest). reflexivity.
Qed.

Lemma classNameOfPath_strips_directory_and_extension_witness :
  classNameOfPath "force-app/main/default/classes/AccountTest.cls"
    = Proceeds "AccountTest".
Proof.
  apply (classNameOfPath_strips_directory_and_extension
           "force-app/main/default/classes" "AccountTest"); reflexivity.
Defined.

(** ** What is shown when a run fails *)

(** X6: the text [handleTestError] shows is one of seven fixed texts, or
    the message of the error itself, and that only when the message has
    ['Invalid characters'] or ['Could not determine class name'] in it. *)
Theorem handleTestError_shows_fixed_or_validation_text (error : option string) :
  In (handleTestError error) genericMessages \/
  (error = Some (handleTestError error) /\
   (includes "Invalid characters" (handleTestError error) = true \/
    includes "Could not determine class name" (handleTestError error) = true)).
Proof.
  unfold handleTestError, genericMessages. destruct error as [message|].
  - repeat match goal with
           | |- context [if ?b then _ else _] =>
               let H := fresh "H" in destruct b eqn:H
           end;
      first [ left; simpl; tauto
            | right; split; [reflexivity|]; first [left; assumption | right; assumption] ].
  - left. simpl. tauto.
Qed.

(** X7: whatever [runApexTest] throws before it reaches the command line
    (a class name that cannot be determined, or a class or method name with
    a character outside [a-zA-Z0-9_.,]) is shown by [handleTestError] as it
    was thrown. *)
Theorem validation_errors_are_shown_as_thrown (filePath message : string)
        (methodName : option string) :
  ApexTestRunner.runApexTest filePath methodName = ThrowsError message ->
  handleTestError (Some message) = message.
Proof.
  unfold ApexTestRunner.runApexTest, classNameOfPath.
  destruct (pop (split "/" filePath)) as [fileName|].
  - destruct (String.eqb (replaceFirst ".cls" EmptyString fileName) EmptyString).
    + intros [= <-]. reflexivity.
    + unfold SalesforceClient.runApexTest.
      destruct (negb (String.eqb _ _)); [intros [= <-]; reflexivity|].
      destruct methodName as [method|]; [|intros H; discriminate H].
      destruct (String.eqb method EmptyString); [intros H; discriminate H|].
      destruct (negb (String.eqb _ _)); [intros [= <-]; reflexivity|].
      destruct (includes "," method); intros H; discriminate H.
  - intros [= <-]. reflexivity.
Qed.

Lemma validation_errors_are_shown_as_thrown_witness :
  handleTestError (Some "Invalid characters in class name")
    = "Invalid characters in class name".
Proof.
  apply (validation_errors_are_shown_as_thrown "classes/Account-Test.cls" _ None).
  reflexivity.
Defined.

End ClientProperties.

(* ================================================================= *)
(** * Properties of the escaping of the report *)

Module ReportProperties.

Import LogAnalyzerHandler Vocabulary StringFacts.
Import ClientProperties.

Lemma replaceChar_app (c : ascii) (replacement s t : string) :
  replaceChar c replacement (s ++ t)
    = replaceChar c replacement s ++ replaceChar c replacement t.
Proof.
  induction s as [|d s IH]; simpl; [reflexivity|].
  rewrite IH. destruct (Ascii.eqb d c); [|reflexivity].
  symmetry. apply append_assoc.
Qed.

Lemma escapeHtml_app (s t : string) : escapeHtml (s ++ t) = escapeHtml s ++ escapeHtml t.
Proof. unfold escapeHtml. cbv zeta. rewrite !replaceChar_app. reflexivity. Qed.

Lemma escapeHtml_one (c : ascii) : escapeHtml (String c EmptyString) = escapeChar c.
Proof. destruct c as [[] [] [] [] [] [] [] []]; reflexivity. Qed.

Lemma escapeHtml_expand (s : string) : escapeHtml s = expand escapeChar s.
Proof.
  induction s as [|c s IH]; [reflexivity|].
  change (String c s) with (String c EmptyString ++ s).
  rewrite escapeHtml_app, escapeHtml_one, IH. reflexivity.
Qed.

Lemma escapeChar_no_markup (c : ascii) :
  everyChar (fun d => negb (isMarkup d)) (escapeChar c) = true.
Proof. destruct c as [[] [] [] [] [] [] [] []]; reflexivity. Qed.

(** X8: the five replacements of [escapeHtml], done one after the other,
    amount to one pass that writes each of [& < > " '] as its entity and
    leaves every other character; so the result has none of [< > " '], and
    escaping a concatenation is concatenating the escapes. *)
Theorem escapeHtml_is_one_pass_without_markup (s t : string) :
  escapeHtml s = expand escapeChar s /\
  everyChar (fun c => negb (isMarkup c)) (escapeHtml s) = true /\
  escapeHtml (s ++ t) = escapeHtml s ++ escapeHtml t.
Proof.
  split; [apply escapeHtml_expand|]. split; [|apply escapeHtml_app].
  rewrite escapeHtml_expand.
  induction s as [|c s IH]; [reflexivity|].
  cbn [expand]. rewrite everyChar_app, escapeChar_no_markup, IH. reflexivity.
Qed.

(** The shape of the text written for one character. *)
Lemma escapeChar_shape (c : ascii) :
  (escapeChar c = String c EmptyString /\ Ascii.eqb c "&" = false) \/
  (c = "&"%char \/ c = "<"%char \/ c = ">"%char \/ c = doubleQuote \/ c = "'"%char).
Proof.
  destruct c as [[] [] [] [] [] [] [] []];
    first [ left; split; reflexivity
          | right; left; reflexivity
          | right; right; left; reflexivity
          | right; right; right; left; reflexivity
          | right; right; right; right; left; reflexivity
          | right; right; right; right; right; reflexivity ].
Qed.

Lemma escapeChar_prefix_free (a b : ascii) (x y : string) :
  escapeChar a ++ x = escapeChar b ++ y -> a = b /\ x = y.
Proof.
  destruct (escapeChar_shape a) as [[Ha Hna]|Ha];
    destruct (escapeChar_shape b) as [[Hb Hnb]|Hb].
  - rewrite Ha, Hb. intros [= -> ->]. split; reflexivity.
  - rewrite Ha. intros H.
    destruct Hb as [-> | [-> | [-> | [-> | ->]]]]; cbn in H;
      injection H as -> _; discriminate Hna.
  - rewrite Hb. intros H.
    destruct Ha as [-> | [-> | [-> | [-> | ->]]]]; cbn in H;
      injection H as <- _; discriminate Hnb.
  - intros H.
    destruct Ha as [-> | [-> | [-> | [-> | ->]]]];
      destruct Hb as [-> | [-> | [-> | [-> | ->]]]]; cbn in H;
      first [ discriminate H
            | split; [reflexivity|]; congruence ].
Qed.

Lemma escapeChar_not_empty (c : ascii) (x : string) : escapeChar c ++ x <> EmptyString.
Proof.
  destruct (escapeChar_shape c) as [[-> _] | H].
  - discriminate.
  - destruct H as [-> | [-> | [-> | [-> | ->]]]]; discriminate.
Qed.

(** X9: [escapeHtml] loses nothing: two texts with the same escape are
    the same text. *)
Theorem escapeHtml_injective (s t : string) : escapeHtml s = escapeHtml t -> s = t.
Proof.
  rewrite !escapeHtml_expand. revert t.
  induction s as [|a s IH]; intros [|b t]; cbn [expand]; intros H.
  - reflexivity.
  - symmetry in H. destruct (escapeChar_not_empty _ _ H).
  - destruct (escapeChar_not_empty _ _ H).
  - apply escapeChar_prefix_free in H as [-> H]. rewrite (IH t H). reflexivity.
Qed.

Lemma escapeHtml_injective_witness : "a<b" = "a<b".
Proof. apply (escapeHtml_injective "a<b" "a<b"). reflexivity. Defined.

End ReportProperties.

(* ================================================================= *)
(** * What the section extractor captures *)

Module CaptureProperties.

Import ApexTestRunner Vocabulary.

Lemma Subsequence_refl {A : Type} (l : list A) : Subsequence l l.
Proof. induction l; constructor; assumption. Qed.

Lemma Subsequence_snoc_skip {A : Type} (sub l : list A) (x : A) :
  Subsequence sub l -> Subsequence sub (l ++ [x]).
Proof.
  induction 1; cbn [app]; try (constructor; assumption).
  apply SubsequenceSkip, SubsequenceNil.
Qed.

Lemma Subsequence_snoc_take {A : Type} (sub l : list A) (x : A) :
  Subsequence sub l -> Subsequence (sub ++ [x]) (l ++ [x]).
Proof.
  induction 1; cbn [app]; try (constructor; assumption).
  apply SubsequenceTake, SubsequenceNil.
Qed.

Section Capture.

Variables safeClassName safeMethodName safeSetupMethodName : string.
Variable setupGiven : bool.

Local Abbreviation scanLine := (scanLine safeClassName safeMethodName safeSetupMethodName setupGiven).
Local Abbreviation scan := (scan safeClassName safeMethodName safeSetupMethodName setupGiven).
Local Abbreviation reached := (reached safeClassName safeMethodName safeSetupMethodName setupGiven).
Local Abbreviation assemble := (assemble safeClassName safeMethodName safeSetupMethodName).
Local Abbreviation outside := (outside safeClassName safeMethodName safeSetupMethodName).
Local Abbreviation opensSetup := (opensSetup safeClassName safeSetupMethodName).
Local Abbreviation opensTest := (opensTest safeClassName safeMethodName safeSetupMethodName).
Local Abbreviation insideTest := (insideTest safeClassName safeMethodName safeSetupMethodName).
Local Abbreviation finishesTest := (finishesTest safeClassName safeMethodName).
Local Abbreviation insideSetup := (insideSetup safeClassName safeMethodName safeSetupMethodName).
Local Abbreviation finishesSetup := (finishesSetup safeClassName safeSetupMethodName).
Local Abbreviation setupName := (setupName safeClassName safeSetupMethodName).
Local Abbreviation testName := (testName safeClassName safeMethodName).

(** The atoms of the conditions of [scanLine] on one line, told apart. *)
Ltac split_atoms line :=
  destruct (includes "CODE_UNIT_STARTED" line) eqn:?;
  destruct (String.eqb safeSetupMethodName EmptyString) eqn:?;
  destruct (includes setupName line) eqn:?;
  destruct (includes testName line) eqn:?;
  destruct (includes "CODE_UNIT_FINISHED" line) eqn:?.

Ltac unfold_scanLine :=
  unfold ApexTestRunner.scanLine, finishOrBuffer, saveCurrent,
         ApexTestRunner.opensTest, ApexTestRunner.opensSetup in *.

Ltac project :=
  cbn [currentSection inSetupMethod inTestMethod setupMethodSections
       testMethodSections negb andb orb app] in *.

Lemma scanLine_captured (st : ScanState) (pre : list string) (line : string) :
  captured st pre -> captured (scanLine st line) (pre ++ [line]).
Proof.
  destruct st as [inSetup inTest setupSections testSections buffer lastStarted].
  unfold captured, pending. project. intros (Hsetup & Htest & Hexcl & Hbuf).
  unfold_scanLine. project.
  split_atoms line; destruct setupGiven; destruct inSetup, inTest; project;
    try discriminate Hexcl;
    try (rewrite (Hbuf eq_refl) in *);
    try destruct buffer as [|l0 buffer]; project;
    rewrite ?app_nil_r in *;
    (split; [|split; [|split]]);
    try reflexivity; try (intros H; discriminate H);
    rewrite ?app_comm_cons, ?app_assoc;
    first [ apply Subsequence_snoc_take; assumption
          | apply Subsequence_snoc_skip; assumption
          | apply (Subsequence_snoc_take []); assumption
          | idtac ].
Qed.

Lemma scan_snoc (pre : list string) (line : string) :
  reached (pre ++ [line]) = scanLine (reached pre) line.
Proof. unfold Vocabulary.reached, ApexTestRunner.scan. rewrite fold_left_app. reflexivity. Qed.

Lemma reached_captured (pre : list string) : captured (reached pre) pre.
Proof.
  induction pre as [|line pre IH] using rev_ind.
  - unfold captured. cbn. repeat split; constructor.
  - rewrite scan_snoc. apply scanLine_captured, IH.
Qed.

Lemma addRemaining_sections (st : ScanState) :
  inSetupMethod st && inTestMethod st = false ->
  setupMethodSections (addRemaining st)
    = (setupMethodSections st ++ pending (inSetupMethod st) st)%list /\
  testMethodSections (addRemaining st)
    = (testMethodSections st ++ pending (inTestMethod st) st)%list.
Proof.
  destruct st as [inSetup inTest setupSections testSections buffer lastStarted].
  unfold addRemaining, pending. project.
  destruct buffer, inSetup, inTest; project; intros H; try discriminate H;
    rewrite ?app_nil_r; split; reflexivity.
Qed.

(** ** Scanning a unit from its start marker to its end marker *)

Lemma scanLine_outside (st : ScanState) (line : string) :
  closed st -> outside line = true ->
  closed (scanLine st line) /\
  setupMethodSections (scanLine st line) = setupMethodSections st /\
  testMethodSections (scanLine st line) = testMethodSections st.
Proof.
  destruct st as [inSetup inTest setupSections testSections buffer lastStarted].
  unfold closed, Vocabulary.outside. project. intros (-> & -> & ->).
  unfold_scanLine. project.
  split_atoms line; project; intros H; try discriminate H; repeat split.
Qed.

Lemma scan_outside (lines : list string) (st : ScanState) :
  closed st -> Forall (fun line => outside line = true) lines ->
  closed (scan lines st) /\
  setupMethodSections (scan lines st) = setupMethodSections st /\
  testMethodSections (scan lines st) = testMethodSections st.
Proof.
  intros Hclosed Hlines. revert st Hclosed.
  induction Hlines as [|line lines Hline _ IH]; intros st Hclosed.
  - repeat split; apply Hclosed.
  - destruct (scanLine_outside st line Hclosed Hline) as (Hc & Hs & Ht).
    cbn [ApexTestRunner.scan fold_left]. destruct (IH _ Hc) as (Hc' & Hs' & Ht').
    unfold ApexTestRunner.scan in *. rewrite Hs', Ht', Hs, Ht. repeat split; apply Hc'.
Qed.

Lemma scanLine_opens_test (st : ScanState) (line : string) :
  closed st -> opensTest line = true ->
  testOpen (scanLine st line) (setupMethodSections st) (testMethodSections st ++ [line]).
Proof.
  destruct st as [inSetup inTest setupSections testSections buffer lastStarted].
  unfold closed, testOpen. project. intros (-> & -> & ->).
  unfold_scanLine. project.
  split_atoms line; project; intros H; try discriminate H; repeat split.
Qed.

Lemma scanLine_inside_test (st : ScanState) (line : string) (setupSections held : list string) :
  testOpen st setupSections held -> insideTest line = true ->
  testOpen (scanLine st line) setupSections (held ++ [line]).
Proof.
  destruct st as [inSetup inTest sections testSections buffer lastStarted].
  unfold testOpen, Vocabulary.insideTest. project. intros (-> & -> & -> & <-).
  unfold_scanLine. project.
  split_atoms line; destruct setupGiven; destruct buffer; project;
    intros H; try discriminate H; repeat split;
    rewrite ?app_nil_r, <- ?app_assoc; reflexivity.
Qed.

Lemma scan_inside_test (lines : list string) (st : ScanState)
      (setupSections held : list string) :
  testOpen st setupSections held -> Forall (fun line => insideTest line = true) lines ->
  testOpen (scan lines st) setupSections (held ++ lines).
Proof.
  intros Hopen Hlines. revert st held Hopen.
  induction Hlines as [|line lines Hline _ IH]; intros st held Hopen.
  - rewrite app_nil_r. exact Hopen.
  - cbn [ApexTestRunner.scan fold_left].
    change (held ++ line :: lines)%list with (held ++ [line] ++ lines)%list.
    rewrite app_assoc. apply IH, scanLine_inside_test; assumption.
Qed.

Lemma scanLine_finishes_test (st : ScanState) (line : string)
      (setupSections held : list string) :
  testOpen st setupSections held -> finishesTest line = true ->
  closed (scanLine st line) /\
  setupMethodSections (scanLine st line) = setupSections /\
  testMethodSections (scanLine st line) = (held ++ [line])%list.
Proof.
  destruct st as [inSetup inTest sections testSections buffer lastStarted].
  unfold testOpen, closed, Vocabulary.finishesTest. project. intros (-> & -> & -> & <-).
  unfold_scanLine. project.
  split_atoms line; destruct setupGiven; project;
    intros H; try discriminate H; repeat split;
    rewrite <- ?app_assoc; reflexivity.
Qed.

Lemma scanLine_opens_setup (st : ScanState) (line : string) :
  closed st -> opensSetup line = true ->
  setupOpen (scanLine st line) (testMethodSections st) (setupMethodSections st ++ [line]).
Proof.
  destruct st as [inSetup inTest setupSections testSections buffer lastStarted].
  unfold closed, setupOpen. project. intros (-> & -> & ->).
  unfold_scanLine. project.
  split_atoms line; project; intros H; try discriminate H; repeat split.
Qed.

Lemma scanLine_inside_setup (st : ScanState) (line : string) (testSections held : list string) :
  setupOpen st testSections held -> insideSetup line = true ->
  setupOpen (scanLine st line) testSections (held ++ [line]).
Proof.
  destruct st as [inSetup inTest setupSections sections buffer lastStarted].
  unfold setupOpen, Vocabulary.insideSetup. project. intros (-> & -> & -> & <-).
  unfold_scanLine. project.
  split_atoms line; destruct setupGiven; destruct buffer; project;
    intros H; try discriminate H; repeat split;
    rewrite ?app_nil_r, <- ?app_assoc; reflexivity.
Qed.

Lemma scan_inside_setup (lines : list string) (st : ScanState)
      (testSections held : list string) :
  setupOpen st testSections held -> Forall (fun line => insideSetup line = true) lines ->
  setupOpen (scan lines st) testSections (held ++ lines).
Proof.
  intros Hopen Hlines. revert st held Hopen.
  induction Hlines as [|line lines Hline _ IH]; intros st held Hopen.
  - rewrite app_nil_r. exact Hopen.
  - cbn [ApexTestRunner.scan fold_left].
    change (held ++ line :: lines)%list with (held ++ [line] ++ lines)%list.
    rewrite app_assoc. apply IH, scanLine_inside_setup; assumption.
Qed.

Lemma scanLine_finishes_setup (st : ScanState) (line : string)
      (testSections held : list string) :
  setupGiven = true ->
  setupOpen st testSections held -> finishesSetup line = true ->
  closed (scanLine st line) /\
  setupMethodSections (scanLine st line) = (held ++ [line])%list /\
  testMethodSections (scanLine st line) = testSections.
Proof.
  destruct st as [inSetup inTest setupSections sections buffer lastStarted].
  unfold setupOpen, closed, Vocabulary.finishesSetup. project.
  intros Hgiven (-> & -> & -> & <-).
  unfold_scanLine. project. rewrite Hgiven.
  split_atoms line; project;
    intros H; try discriminate H; repeat split;
    rewrite <- ?app_assoc; reflexivity.
Qed.

Lemma scan_app (first rest : list string) (st : ScanState) :
  scan (first ++ rest) st = scan rest (scan first st).
Proof. apply fold_left_app. Qed.

(** A whole unit of the test method, read from a closed state. *)
Lemma scan_test_unit (st : ScanState) (start finish : string) (body : list string) :
  closed st -> opensTest start = true ->
  Forall (fun line => insideTest line = true) body -> finishesTest finish = true ->
  closed (scan (start :: body ++ [finish]) st) /\
  setupMethodSections (scan (start :: body ++ [finish]) st) = setupMethodSections st /\
  testMethodSections (scan (start :: body ++ [finish]) st)
    = (testMethodSections st ++ start :: body ++ [finish])%list.
Proof.
  intros Hclosed Hstart Hbody Hfinish.
  change (start :: body ++ [finish])%list with ([start] ++ body ++ [finish])%list.
  rewrite !scan_app.
  pose proof (scanLine_opens_test st start Hclosed Hstart) as Hopen.
  pose proof (scan_inside_test body _ _ _ Hopen Hbody) as Hinside.
  destruct (scanLine_finishes_test _ finish _ _ Hinside Hfinish) as (Hc & Hs & Ht).
  split; [exact Hc|]. split; [exact Hs|].
  cbn [ApexTestRunner.scan fold_left] in *. rewrite Ht, <- !app_assoc. reflexivity.
Qed.

Lemma scan_setup_unit (st : ScanState) (start finish : string) (body : list string) :
  setupGiven = true ->
  closed st -> opensSetup start = true ->
  Forall (fun line => insideSetup line = true) body -> finishesSetup finish = true ->
  closed (scan (start :: body ++ [finish]) st) /\
  setupMethodSections (scan (start :: body ++ [finish]) st)
    = (setupMethodSections st ++ start :: body ++ [finish])%list /\
  testMethodSections (scan (start :: body ++ [finish]) st) = testMethodSections st.
Proof.
  intros Hgiven Hclosed Hstart Hbody Hfinish.
  change (start :: body ++ [finish])%list with ([start] ++ body ++ [finish])%list.
  rewrite !scan_app.
  pose proof (scanLine_opens_setup st start Hclosed Hstart) as Hopen.
  pose proof (scan_inside_setup body _ _ _ Hopen Hbody) as Hinside.
  destruct (scanLine_finishes_setup _ finish _ _ Hgiven Hinside Hfinish) as (Hc & Hs & Ht).
  split; [exact Hc|]. split; [|exact Ht].
  cbn [ApexTestRunner.scan fold_left] in *. rewrite Hs, <- !app_assoc. reflexivity.
Qed.

Lemma addRemaining_closed (st : ScanState) : closed st -> addRemaining st = st.
Proof. intros (_ & _ & H). unfold addRemaining. rewrite H. reflexivity. Qed.

End Capture.

(** X10: the lines the extractor captures for the setup section, and
    those for the test section, are lines of the log in the order of the
    log: none is added, repeated or moved. *)
Theorem captured_sections_are_subsequences
        (safeClassName safeMethodName safeSetupMethodName : string) (setupGiven : bool)
        (logLines : list string) :
  let st := addRemaining (reached safeClassName safeMethodName safeSetupMethodName
                                  setupGiven logLines) in
  Subsequence (setupMethodSections st) logLines /\
  Subsequence (testMethodSections st) logLines.
Proof.
  cbv zeta.
  destruct (reached_captured safeClassName safeMethodName safeSetupMethodName
                             setupGiven logLines) as (Hsetup & Htest & Hexcl & _).
  destruct (addRemaining_sections _ Hexcl) as [-> ->]. split; assumption.
Qed.

Lemma test_unit_assembled
        (safeClassName safeMethodName safeSetupMethodName : string) (setupGiven : bool)
        (pre body post : list string) (start finish : string) :
  Forall (fun line => outside safeClassName safeMethodName safeSetupMethodName line = true)
         (pre ++ post) ->
  opensTest safeClassName safeMethodName safeSetupMethodName start = true ->
  Forall (fun line => insideTest safeClassName safeMethodName safeSetupMethodName line = true)
         body ->
  finishesTest safeClassName safeMethodName finish = true ->
  let logLines := (pre ++ (start :: body ++ [finish]) ++ post)%list in
  assemble safeClassName safeMethodName safeSetupMethodName logLines
           (addRemaining (reached safeClassName safeMethodName safeSetupMethodName
                                  setupGiven logLines))
    = (["==== TEST METHOD ===="; testName safeClassName safeMethodName; EmptyString] ++
       start :: body ++ [finish])%list.
Proof.
  intros Houtside Hstart Hbody Hfinish logLines.
  apply Forall_app in Houtside as [Hpre Hpost].
  unfold Vocabulary.reached, logLines. rewrite !scan_app.
  destruct (scan_outside safeClassName safeMethodName safeSetupMethodName setupGiven
                         pre initialScan) as (Hc1 & Hs1 & Ht1);
    [repeat split | exact Hpre |].
  destruct (scan_test_unit safeClassName safeMethodName safeSetupMethodName setupGiven
                           _ start finish body Hc1 Hstart Hbody Hfinish)
    as (Hc2 & Hs2 & Ht2).
  destruct (scan_outside safeClassName safeMethodName safeSetupMethodName setupGiven
                         post _ Hc2 Hpost) as (Hc3 & Hs3 & Ht3).
  rewrite (addRemaining_closed _ Hc3).
  unfold assemble. rewrite Hs3, Ht3, Hs2, Ht2, Hs1, Ht1. reflexivity.
Qed.

Lemma setup_and_test_units_assembled
        (safeClassName safeMethodName safeSetupMethodName : string)
        (pre setupBody between testBody post : list string)
        (setupStart setupFinish testStart testFinish : string) :
  Forall (fun line => outside safeClassName safeMethodName safeSetupMethodName line = true)
         (pre ++ between ++ post) ->
  opensSetup safeClassName safeSetupMethodName setupStart = true ->
  Forall (fun line => insideSetup safeClassName safeMethodName safeSetupMethodName line = true)
         setupBody ->
  finishesSetup safeClassName safeSetupMethodName setupFinish = true ->
  opensTest safeClassName safeMethodName safeSetupMethodName testStart = true ->
  Forall (fun line => insideTest safeClassName safeMethodName safeSetupMethodName line = true)
         testBody ->
  finishesTest safeClassName safeMethodName testFinish = true ->
  let setupUnit := (setupStart :: setupBody ++ [setupFinish])%list in
  let testUnit := (testStart :: testBody ++ [testFinish])%list in
  let logLines := (pre ++ setupUnit ++ between ++ testUnit ++ post)%list in
  assemble safeClassName safeMethodName safeSetupMethodName logLines
           (addRemaining (reached safeClassName safeMethodName safeSetupMethodName
                                  true logLines))
    = (["==== TEST SETUP METHOD ====";
        setupName safeClassName safeSetupMethodName; EmptyString] ++
       setupUnit ++ [EmptyString] ++
       ["==== TEST METHOD ===="; testName safeClassName safeMethodName; EmptyString] ++
       testUnit)%list.
Proof.
  intros Houtside HsetupStart HsetupBody HsetupFinish HtestStart HtestBody HtestFinish
         setupUnit testUnit logLines.
  apply Forall_app in Houtside as [Hpre Houtside].
  apply Forall_app in Houtside as [Hbetween Hpost].
  assert (Hnamed : String.eqb safeSetupMethodName EmptyString = false).
  { unfold ApexTestRunner.opensSetup in HsetupStart.
    apply andb_true_iff in HsetupStart as [H _].
    apply andb_true_iff in H as [_ H]. apply negb_true_iff in H. exact H. }
  unfold Vocabulary.reached, logLines, setupUnit, testUnit.
  clear logLines setupUnit testUnit. rewrite !scan_app.
  destruct (scan_outside safeClassName safeMethodName safeSetupMethodName true
                         pre initialScan) as (Hc1 & Hs1 & Ht1);
    [repeat split | exact Hpre |].
  destruct (scan_setup_unit safeClassName safeMethodName safeSetupMethodName true
                            _ setupStart setupFinish setupBody eq_refl Hc1
                            HsetupStart HsetupBody HsetupFinish)
    as (Hc2 & Hs2 & Ht2).
  destruct (scan_outside safeClassName safeMethodName safeSetupMethodName true
                         between _ Hc2 Hbetween) as (Hc3 & Hs3 & Ht3).
  destruct (scan_test_unit safeClassName safeMethodName safeSetupMethodName true
                           _ testStart testFinish testBody Hc3 HtestStart HtestBody
                           HtestFinish)
    as (Hc4 & Hs4 & Ht4).
  destruct (scan_outside safeClassName safeMethodName safeSetupMethodName true
                         post _ Hc4 Hpost) as (Hc5 & Hs5 & Ht5).
  rewrite (addRemaining_closed _ Hc5).
  unfold assemble.
  rewrite Hs5, Ht5, Hs4, Ht4, Hs3, Ht3, Hs2, Ht2, Hs1, Ht1, Hnamed.
  cbn [initialScan setupMethodSections testMethodSections app].
  rewrite <- app_assoc. reflexivity.
Qed.

Lemma unfinished_test_unit_assembled
        (safeClassName safeMethodName safeSetupMethodName : string) (setupGiven : bool)
        (pre body : list string) (start : string) :
  Forall (fun line => outside safeClassName safeMethodName safeSetupMethodName line = true)
         pre ->
  opensTest safeClassName safeMethodName safeSetupMethodName start = true ->
  Forall (fun line => insideTest safeClassName safeMethodName safeSetupMethodName line = true)
         body ->
  let logLines := (pre ++ start :: body)%list in
  assemble safeClassName safeMethodName safeSetupMethodName logLines
           (addRemaining (reached safeClassName safeMethodName safeSetupMethodName
                                  setupGiven logLines))
    = (["==== TEST METHOD ===="; testName safeClassName safeMethodName; EmptyString] ++
       start :: body)%list.
Proof.
  intros Hpre Hstart Hbody logLines.
  unfold Vocabulary.reached, logLines. clear logLines.
  change (start :: body)%list with ([start] ++ body)%list. rewrite !scan_app.
  set (st1 := scan safeClassName safeMethodName safeSetupMethodName setupGiven
                   pre initialScan).
  destruct (scan_outside safeClassName safeMethodName safeSetupMethodName setupGiven
                         pre initialScan) as (Hc1 & Hs1 & Ht1);
    [repeat split | exact Hpre |]. fold st1 in Hc1, Hs1, Ht1.
  change (scan safeClassName safeMethodName safeSetupMethodName setupGiven [start] st1)
    with (scanLine safeClassName safeMethodName safeSetupMethodName setupGiven st1 start).
  pose proof (scanLine_opens_test safeClassName safeMethodName safeSetupMethodName
                                  setupGiven st1 start Hc1 Hstart) as Hopen.
  set (st2 := scanLine safeClassName safeMethodName safeSetupMethodName setupGiven
                       st1 start) in *.
  pose proof (scan_inside_test safeClassName safeMethodName safeSetupMethodName
                               setupGiven body st2 _ _ Hopen Hbody)
    as (Hs & Ht & Hsetup & Hheld).
  set (st3 := scan safeClassName safeMethodName safeSetupMethodName setupGiven
                   body st2) in *.
  destruct (addRemaining_sections st3) as [Hrs Hrt]; [rewrite Hs; reflexivity|].
  unfold assemble. rewrite Hrs, Hrt. unfold pending.
  rewrite Hs, Ht, Hsetup, Hheld, Hs1, Ht1, app_nil_r. reflexivity.
Qed.

(** ** From the scan to the result of the extractor *)

Lemma sanitized_setup (setupMethodName : option string) :
  match optional setupMethodName with
  | VString setup =>
      if truthy (optional setupMethodName) then sanitize setup else EmptyString
  | _ => EmptyString
  end = sanitizeOptional setupMethodName.
Proof.
  destruct setupMethodName as [setup|]; [|reflexivity].
  cbn [optional truthy sanitizeOptional].
  destruct (String.eqb_spec setup EmptyString) as [->|_]; reflexivity.
Qed.

(** A usable log within the two caps is scanned, and the result is made of
    the lines assembled. *)
Lemma filterLogsForMethod_assembles (log className methodName : string)
      (setupMethodName : option string) :
  log <> EmptyString -> log <> "No logs found" ->
  (lengthZ log <= MAX_LOG_SIZE)%Z ->
  (Z.of_nat (List.length (split newline log)) <= MAX_LINES)%Z ->
  filterLogsForMethod (VString log) (VString className) (VString methodName)
                      (optional setupMethodName)
    = Normal (join NL
        (assemble (sanitize className) (sanitize methodName)
                  (sanitizeOptional setupMethodName) (split newline log)
                  (addRemaining
                     (reached (sanitize className) (sanitize methodName)
                              (sanitizeOptional setupMethodName)
                              (truthy (optional setupMethodName))
                              (split newline log))))).
Proof.
  intros Hne Hnone Hsize Hlines. unfold filterLogsForMethod.
  assert (Hguard : negb (truthy (VString log)) || String.eqb log "No logs found" = false).
  { cbn [truthy]. apply String.eqb_neq in Hne, Hnone. rewrite Hne, Hnone. reflexivity. }
  rewrite Hguard.
  assert (Hvalid :
            negb (isString (VString className)) || negb (isString (VString methodName)) ||
            (negb (isUndefined (optional setupMethodName)) &&
             negb (isString (optional setupMethodName))) = false)
    by (destruct setupMethodName; reflexivity).
  rewrite Hvalid.
  apply Z.ltb_ge in Hsize, Hlines. rewrite Hsize, Hlines.
  rewrite sanitized_setup. reflexivity.
Qed.

(** A log with a start marker among its lines is neither empty nor the
    text ['No logs found']. *)
Lemma log_with_marker_is_usable (log start : string) (pre rest : list string) :
  split newline log = (pre ++ start :: rest)%list ->
  includes "CODE_UNIT_STARTED" start = true ->
  log <> EmptyString /\ log <> "No logs found".
Proof.
  intros Hlines Hstart.
  split; intros ->; vm_compute in Hlines;
    destruct pre as [|x [|y pre]]; cbn [app] in Hlines;
    injection Hlines as <- Hrest; try discriminate Hrest; discriminate Hstart.
Qed.

Lemma opensTest_marker (safeClassName safeMethodName safeSetupMethodName line : string) :
  opensTest safeClassName safeMethodName safeSetupMethodName line = true ->
  includes "CODE_UNIT_STARTED" line = true.
Proof.
  unfold opensTest. intros H. apply andb_true_iff in H as [H _].
  apply andb_true_iff in H as [H _]. exact H.
Qed.

Lemma opensSetup_marker (safeClassName safeSetupMethodName line : string) :
  opensSetup safeClassName safeSetupMethodName line = true ->
  includes "CODE_UNIT_STARTED" line = true /\
  String.eqb safeSetupMethodName EmptyString = false.
Proof.
  unfold opensSetup. intros H. apply andb_true_iff in H as [H _].
  apply andb_true_iff in H as [H Hnamed]. apply negb_true_iff in Hnamed.
  split; assumption.
Qed.

(** X11: for a log within the two caps in which the lines of the test
    method run from a start marker to its end marker, and no line before or
    after them opens a section, the extractor returns the header of the test
    section followed by exactly the lines from the start marker to the end
    marker. *)
Theorem bounded_test_unit_is_extracted (log className methodName : string)
        (setupMethodName : option string)
        (pre body post : list string) (start finish : string) :
  let safeClassName := sanitize className in
  let safeMethodName := sanitize methodName in
  let safeSetupMethodName := sanitizeOptional setupMethodName in
  split newline log = (pre ++ (start :: body ++ [finish]) ++ post)%list ->
  (lengthZ log <= MAX_LOG_SIZE)%Z ->
  (Z.of_nat (List.length (split newline log)) <= MAX_LINES)%Z ->
  Forall (fun line => outside safeClassName safeMethodName safeSetupMethodName line = true)
         (pre ++ post) ->
  opensTest safeClassName safeMethodName safeSetupMethodName start = true ->
  Forall (fun line => insideTest safeClassName safeMethodName safeSetupMethodName line = true)
         body ->
  finishesTest safeClassName safeMethodName finish = true ->
  filterLogsForMethod (VString log) (VString className) (VString methodName)
                      (optional setupMethodName)
    = Normal (join NL
        (["==== TEST METHOD ===="; testName safeClassName safeMethodName; EmptyString] ++
         start :: body ++ [finish])%list).
Proof.
  intros safeClassName safeMethodName safeSetupMethodName
         Hlog Hsize Hlines Houtside Hstart Hbody Hfinish.
  destruct (log_with_marker_is_usable log start pre ((body ++ [finish]) ++ post)%list)
    as [Hne Hnone]; [exact Hlog | exact (opensTest_marker _ _ _ _ Hstart) |].
  rewrite (filterLogsForMethod_assembles log className methodName setupMethodName
             Hne Hnone Hsize Hlines).
  rewrite Hlog. f_equal. f_equal. apply test_unit_assembled; assumption.
Qed.

Lemma bounded_test_unit_is_extracted_witness :
  filterLogsForMethod
    (VString ("09:00:00.1|USER_INFO|start" ++ NL ++
              "09:00:00.2|CODE_UNIT_STARTED|[EXTERNAL]|01p|ClsA.testFoo" ++ NL ++
              "09:00:00.3|USER_DEBUG|[3]|DEBUG|in ClsA.testFoo" ++ NL ++
              "09:00:00.4|CODE_UNIT_FINISHED|ClsA.testFoo" ++ NL ++
              "09:00:00.5|EXECUTION_FINISHED"))
    (VString "ClsA") (VString "testFoo") VUndefined
    = Normal ("==== TEST METHOD ====" ++ NL ++ "ClsA.testFoo" ++ NL ++ NL ++
              "09:00:00.2|CODE_UNIT_STARTED|[EXTERNAL]|01p|ClsA.testFoo" ++ NL ++
              "09:00:00.3|USER_DEBUG|[3]|DEBUG|in ClsA.testFoo" ++ NL ++
              "09:00:00.4|CODE_UNIT_FINISHED|ClsA.testFoo").
Proof.
  apply (bounded_test_unit_is_extracted
           _ "ClsA" "testFoo" None
           ["09:00:00.1|USER_INFO|start"]
           ["09:00:00.3|USER_DEBUG|[3]|DEBUG|in ClsA.testFoo"]
           ["09:00:00.5|EXECUTION_FINISHED"]
           "09:00:00.2|CODE_UNIT_STARTED|[EXTERNAL]|01p|ClsA.testFoo"
           "09:00:00.4|CODE_UNIT_FINISHED|ClsA.testFoo").
  - vm_compute. reflexivity.
  - vm_compute. discriminate.
  - vm_compute. discriminate.
  - repeat constructor.
  - reflexivity.
  - repeat constructor.
  - reflexivity.
Defined.

(** X12: for a log within the two caps and a setup method that is named,
    when the lines of the setup method run from a start marker to its end
    marker, the lines of the test method do so after them, and no other line
    opens a section, the extractor returns the header of the setup section,
    the lines of the setup unit, an empty line, the header of the test
    section and the lines of the test unit. *)
Theorem bounded_setup_and_test_units_are_extracted
        (log className methodName setupMethodName : string)
        (pre setupBody between testBody post : list string)
        (setupStart setupFinish testStart testFinish : string) :
  let safeClassName := sanitize className in
  let safeMethodName := sanitize methodName in
  let safeSetupMethodName := sanitize setupMethodName in
  let setupUnit := (setupStart :: setupBody ++ [setupFinish])%list in
  let testUnit := (testStart :: testBody ++ [testFinish])%list in
  split newline log = (pre ++ setupUnit ++ between ++ testUnit ++ post)%list ->
  (lengthZ log <= MAX_LOG_SIZE)%Z ->
  (Z.of_nat (List.length (split newline log)) <= MAX_LINES)%Z ->
  Forall (fun line => outside safeClassName safeMethodName safeSetupMethodName line = true)
         (pre ++ between ++ post) ->
  opensSetup safeClassName safeSetupMethodName setupStart = true ->
  Forall (fun line => insideSetup safeClassName safeMethodName safeSetupMethodName line = true)
         setupBody ->
  finishesSetup safeClassName safeSetupMethodName setupFinish = true ->
  opensTest safeClassName safeMethodName safeSetupMethodName testStart = true ->
  Forall (fun line => insideTest safeClassName safeMethodName safeSetupMethodName line = true)
         testBody ->
  finishesTest safeClassName safeMethodName testFinish = true ->
  filterLogsForMethod (VString log) (VString className) (VString methodName)
                      (VString setupMethodName)
    = Normal (join NL
        (["==== TEST SETUP METHOD ====";
          setupName safeClassName safeSetupMethodName; EmptyString] ++
         setupUnit ++ [EmptyString] ++
         ["==== TEST METHOD ===="; testName safeClassName safeMethodName; EmptyString] ++
         testUnit)%list).
Proof.
  intros safeClassName safeMethodName safeSetupMethodName setupUnit testUnit
         Hlog Hsize Hlines Houtside HsetupStart HsetupBody HsetupFinish
         HtestStart HtestBody HtestFinish.
  destruct (opensSetup_marker _ _ _ HsetupStart) as [Hmarker Hnamed].
  destruct (log_with_marker_is_usable
              log setupStart pre
              ((setupBody ++ [setupFinish]) ++ between ++ testUnit ++ post)%list)
    as [Hne Hnone]; [exact Hlog | exact Hmarker |].
  assert (Hgiven : truthy (optional (Some setupMethodName)) = true).
  { cbn [optional truthy]. apply negb_true_iff, String.eqb_neq. intros ->.
    discriminate Hnamed. }
  change (VString setupMethodName) with (optional (Some setupMethodName)).
  rewrite (filterLogsForMethod_assembles log className methodName (Some setupMethodName)
             Hne Hnone Hsize Hlines).
  rewrite Hgiven, Hlog. cbn [sanitizeOptional]. f_equal. f_equal.
  apply setup_and_test_units_assembled; assumption.
Qed.

Lemma bounded_setup_and_test_units_are_extracted_witness :
  filterLogsForMethod
    (VString ("1|CODE_UNIT_STARTED|x|ClsA.setupData" ++ NL ++ "s1" ++ NL ++
              "2|CODE_UNIT_FINISHED|ClsA.setupData" ++ NL ++
              "3|CODE_UNIT_STARTED|x|ClsA.testFoo" ++ NL ++ "t1" ++ NL ++
              "4|CODE_UNIT_FINISHED|ClsA.testFoo"))
    (VString "ClsA") (VString "testFoo") (VString "setupData")
    = Normal ("==== TEST SETUP METHOD ====" ++ NL ++ "ClsA.setupData" ++ NL ++ NL ++
              "1|CODE_UNIT_STARTED|x|ClsA.setupData" ++ NL ++ "s1" ++ NL ++
              "2|CODE_UNIT_FINISHED|ClsA.setupData" ++ NL ++ NL ++
              "==== TEST METHOD ====" ++ NL ++ "ClsA.testFoo" ++ NL ++ NL ++
              "3|CODE_UNIT_STARTED|x|ClsA.testFoo" ++ NL ++ "t1" ++ NL ++
              "4|CODE_UNIT_FINISHED|ClsA.testFoo").
Proof.
  apply (bounded_setup_and_test_units_are_extracted
           _ "ClsA" "testFoo" "setupData" [] ["s1"] [] ["t1"] []
           "1|CODE_UNIT_STARTED|x|ClsA.setupData" "2|CODE_UNIT_FINISHED|ClsA.setupData"
           "3|CODE_UNIT_STARTED|x|ClsA.testFoo" "4|CODE_UNIT_FINISHED|ClsA.testFoo").
  - vm_compute. reflexivity.
  - vm_compute. discriminate.
  - vm_compute. discriminate.
  - constructor.
  - reflexivity.
  - repeat constructor.
  - reflexivity.
  - reflexivity.
  - repeat constructor.
  - reflexivity.
Defined.

(** X25: for a log within the two caps in which the test method has a
    start marker and no end marker, and no line before the marker opens a
    section, the extractor returns the header of the test section followed
    by every line from the start marker to the end of the log (none of the
    lines after the marker opening the setup section or ending the test
    method). *)
Theorem unfinished_test_unit_runs_to_the_end (log className methodName : string)
        (setupMethodName : option string) (pre body : list string) (start : string) :
  let safeClassName := sanitize className in
  let safeMethodName := sanitize methodName in
  let safeSetupMethodName := sanitizeOptional setupMethodName in
  split newline log = (pre ++ start :: body)%list ->
  (lengthZ log <= MAX_LOG_SIZE)%Z ->
  (Z.of_nat (List.length (split newline log)) <= MAX_LINES)%Z ->
  Forall (fun line => outside safeClassName safeMethodName safeSetupMethodName line = true)
         pre ->
  opensTest safeClassName safeMethodName safeSetupMethodName start = true ->
  Forall (fun line => insideTest safeClassName safeMethodName safeSetupMethodName line = true)
         body ->
  filterLogsForMethod (VString log) (VString className) (VString methodName)
                      (optional setupMethodName)
    = Normal (join NL
        (["==== TEST METHOD ===="; testName safeClassName safeMethodName; EmptyString] ++
         start :: body)%list).
Proof.
  intros safeClassName safeMethodName safeSetupMethodName
         Hlog Hsize Hlines Hpre Hstart Hbody.
  destruct (log_with_marker_is_usable log start pre body)
    as [Hne Hnone]; [exact Hlog | exact (opensTest_marker _ _ _ _ Hstart) |].
  rewrite (filterLogsForMethod_assembles log className methodName setupMethodName
             Hne Hnone Hsize Hlines).
  rewrite Hlog. f_equal. f_equal. apply unfinished_test_unit_assembled; assumption.
Qed.

Lemma unfinished_test_unit_runs_to_the_end_witness :
  filterLogsForMethod
    (VString ("09:00:00.1|USER_INFO|start" ++ NL ++
              "09:00:00.2|CODE_UNIT_STARTED|[EXTERNAL]|01p|ClsA.testFoo" ++ NL ++
              "09:00:00.3|FATAL_ERROR|boom"))
    (VString "ClsA") (VString "testFoo") VUndefined
    = Normal ("==== TEST METHOD ====" ++ NL ++ "ClsA.testFoo" ++ NL ++ NL ++
              "09:00:00.2|CODE_UNIT_STARTED|[EXTERNAL]|01p|ClsA.testFoo" ++ NL ++
              "09:00:00.3|FATAL_ERROR|boom").
Proof.
  apply (unfinished_test_unit_runs_to_the_end
           _ "ClsA" "testFoo" None
           ["09:00:00.1|USER_INFO|start"] ["09:00:00.3|FATAL_ERROR|boom"]
           "09:00:00.2|CODE_UNIT_STARTED|[EXTERNAL]|01p|ClsA.testFoo").
  - vm_compute. reflexivity.
  - vm_compute. discriminate.
  - vm_compute. discriminate.
  - repeat constructor.
  - reflexivity.
  - repeat constructor.
Defined.

(** ** The fallback search *)




End CaptureProperties.

(* ================================================================= *)
(** * What the analysis records *)

Module RecordProperties.

Import LogAnalyzerHandler Vocabulary StringFacts AnalyzerProperties.

(** ** A property of the analysis that every handler keeps *)

Section Preservation.

Variable P : LogAnalysis -> Prop.

Hypothesis keepContinued : forall a line, P a -> P (processContinuedDebugLine a line).
Hypothesis keepStarted : forall a, P a -> P (processExecutionStarted a).
Hypothesis keepFinished : forall a s e, P a -> P (processExecutionFinished a s e).
Hypothesis keepSoql : forall a parts t, P a -> P (processSoqlQuery a parts t).
Hypothesis keepDml : forall a parts t, P a -> P (processDmlOperation a parts t).
Hypothesis keepDebug :
  forall a lines index parts t stamp a' index',
    processUserDebug a lines index parts t stamp = Normal (a', index') -> P a -> P a'.
Hypothesis keepHeap : forall a line, P a -> P (processHeapAllocation a line).
Hypothesis keepException :
  forall a parts t lines index, P a -> P (processException a parts t lines index).
Hypothesis keepPush :
  forall a label t d,
    In label ["Method Entry"; "Method Exit"; "System Mode Enter"; "System Mode Exit";
              "Constructor Entry"; "Constructor Exit"; "High Limit Usage"] ->
    P a -> P (pushTimeline a (mkEvent label t d)).
Hypothesis keepGovernor :
  forall a g, P a -> P (setGovernorLimits a (governorLimits a ++ [g])%list).
Hypothesis keepCoverage : forall a parts, P a -> P (processCodeCoverage a parts).
Hypothesis keepEnd :
  forall label a parts t,
    In label ["SOQL Query Completed"; "DML Operation Completed"] ->
    P a -> P (processEnd label a parts t).

Lemma cumulativeLoop_keeps (fields : list string) :
  forall (a : LogAnalysis) (m : LimitMap) (t : number),
    P a -> P (fst (cumulativeLoop fields a m t)).
Proof.
  induction fields as [|part rest IH]; intros a m t Ha; cbn [cumulativeLoop]; [exact Ha|].
  cbv zeta. destruct (String.eqb _ _); [apply IH, Ha|].
  destruct (limitMatch _) as [[limitName [used total]]|]; [|apply IH, Ha].
  apply IH. destruct (isHighUsage used total).
  - apply keepPush; [simpl; tauto|]. apply keepGovernor, Ha.
  - apply keepGovernor, Ha.
Qed.

Lemma tryBlock_keeps (lines : list string) (st : LoopState) (line : string) :
  P (analysis st) -> P (analysis (fst (tryBlock lines st line))).
Proof.
  intros Ha. unfold tryBlock. cbv zeta.
  destruct (isPartOfPreviousDebugLine _ _); [apply keepContinued, Ha|].
  destruct (_ <? 2)%nat; [exact Ha|].
  destruct (classify _) as [[]|]; cbn [fst analysis handled]; try exact Ha;
    try (first [ apply keepStarted | apply keepFinished | apply keepSoql | apply keepDml
               | apply keepHeap | apply keepException | apply keepCoverage
               | apply keepEnd; [simpl; tauto|] ]; exact Ha).
  - destruct (processUserDebug _ _ _ _ _ _) as [[a' newIndex]|e] eqn:Hdebug;
      cbn [fst analysis]; [|exact Ha].
    eapply keepDebug; eassumption.
  - apply keepPush; [simpl; tauto | exact Ha].
  - apply keepPush; [simpl; tauto | exact Ha].
  - unfold processCumulativeLimits.
    pose proof (cumulativeLoop_keeps (slice 3 (split "|" line)) (analysis st) (limitMap st)
                  (Math_round (mul (sub (parseFloat (nth 0 (split "|" line) EmptyString))
                                        (startTime st)) (ofZ 1000))) Ha) as H.
    destruct (cumulativeLoop _ _ _ _) as [a' m']. exact H.
  - unfold processSystemMode. cbv zeta.
    destruct (includes _ _); (apply keepPush; [simpl; tauto | exact Ha]).
  - unfold processConstructor. cbv zeta.
    destruct (includes _ _); (apply keepPush; [simpl; tauto | exact Ha]).
  - unfold processCustomMethod. cbv zeta.
    destruct (includes _ _); (apply keepPush; [simpl; tauto | exact Ha]).
Qed.

Lemma iteration_keeps (lines : list string) (st : LoopState) :
  P (analysis st) -> P (analysis (iteration lines st)).
Proof.
  intros Ha. unfold iteration. destruct (String.eqb _ _); [exact Ha|].
  pose proof (tryBlock_keeps lines st (nth (i st) lines EmptyString) Ha) as H.
  destruct (tryBlock _ _ _) as [st' [u|e]]; exact H.
Qed.

Lemma loop_keeps (fuel : nat) :
  forall (lines : list string) (st st' : LoopState),
    P (analysis st) -> loop fuel lines st = Some st' -> P (analysis st').
Proof.
  induction fuel as [|fuel IH]; intros lines st st' Ha; cbn [loop]; [discriminate|].
  destruct (_ <? _)%nat.
  - apply IH. cbn [increment analysis]. apply iteration_keeps, Ha.
  - intros [= <-]. exact Ha.
Qed.

End Preservation.

(** ** The coherence of the fields *)

Lemma filter_push_label (label pushed : string) (events : list TimelineEvent)
      (t : number) (d : option string) :
  filter (hasLabel label) (events ++ [mkEvent pushed t d])
    = (filter (hasLabel label) events ++
       if String.eqb pushed label then [mkEvent pushed t d] else [])%list.
Proof. rewrite filter_app. reflexivity. Qed.

Lemma incremented_S (n : nat) : incremented (S n) = add (incremented n) one.
Proof. reflexivity. Qed.

Ltac fields :=
  cbn [summary debugLines timeline errors limits governorLimits methodCalls codeCoverage
       hasCoverageInfo totalExecutionTimeMs setSummary setDebugLines setTimeline
       setErrors setLimits setGovernorLimits setCodeCoverage setHasCoverageInfo
       setTotalExecutionTimeMs totalTimeMs numSoqlQueries numDmlStatements] in *.

Ltac pushed :=
  unfold coherent, countLabel, hasCoverage, pushTimeline in *; fields;
  rewrite ?filter_push_label; cbn [String.eqb Ascii.eqb Bool.eqb andb];
  rewrite ?app_nil_r, ?map_app, ?length_app; cbn [map List.length details].

Lemma coherent_push (a : LogAnalysis) (label : string) (t : number) (d : option string) :
  In label ["Execution Started"; "Method Entry"; "Method Exit"; "System Mode Enter";
            "System Mode Exit"; "Constructor Entry"; "Constructor Exit";
            "High Limit Usage"; "SOQL Query Completed"; "DML Operation Completed"] ->
  coherent a -> coherent (pushTimeline a (mkEvent label t d)).
Proof.
  intros Hlabel Ha. cbn [In] in Hlabel.
  repeat (destruct Hlabel as [<-|Hlabel]; [pushed; exact Ha|]).
  destruct Hlabel.
Qed.

Lemma coherent_summary (a : LogAnalysis) (s : Summary) :
  totalTimeMs s = totalTimeMs (summary a) ->
  numSoqlQueries s = numSoqlQueries (summary a) ->
  numDmlStatements s = numDmlStatements (summary a) ->
  coherent a -> coherent (setSummary a s).
Proof.
  intros Ht Hs Hd Ha. unfold coherent, countLabel, hasCoverage in *. fields.
  rewrite Ht, Hs, Hd. exact Ha.
Qed.

Lemma countLabel_updateLast (label : string) (f : TimelineEvent -> TimelineEvent)
      (events : list TimelineEvent) :
  (forall e, event (f e) = event e) ->
  List.length (filter (hasLabel label) (updateLast isDebugLog f events))
    = List.length (filter (hasLabel label) events).
Proof.
  intros Hf. unfold updateLast.
  rewrite filter_rev, length_rev, <- (length_rev (filter _ events)), <- filter_rev.
  induction (rev events) as [|e l IH]; cbn [updateFirst filter]; [reflexivity|].
  destruct (isDebugLog e); cbn [filter].
  - assert (Hsame : hasLabel label (f e) = hasLabel label e)
      by (unfold hasLabel; rewrite Hf; reflexivity).
    rewrite Hsame. destruct (hasLabel label e); reflexivity.
  - destruct (hasLabel label e); cbn [List.length]; rewrite IH; reflexivity.
Qed.

Lemma coherent_processContinuedDebugLine (a : LogAnalysis) (line : string) :
  coherent a -> coherent (processContinuedDebugLine a line).
Proof.
  intros (He & Hd & Hs & Hm & Hc & Hcalls & Ht).
  unfold processContinuedDebugLine.
  destruct (rev (debugLines a)) as [|lastDebug before] eqn:Hrev;
    [repeat split; assumption|].
  cbv zeta. unfold coherent, countLabel, hasCoverage in *. fields.
  rewrite !countLabel_updateLast by reflexivity.
  rewrite filter_updateLast.
  - repeat split; try assumption.
    rewrite Hd, <- (length_rev (debugLines a)), Hrev, length_rev. reflexivity.
  - intros e Hdebug. unfold isDebugLog in Hdebug. apply String.eqb_eq in Hdebug.
    unfold hasLabel. cbn [event]. rewrite Hdebug. split; reflexivity.
Qed.

Lemma coherent_processExecutionFinished (a : LogAnalysis) (s e : number) :
  coherent a -> coherent (processExecutionFinished a s e).
Proof.
  intros Ha. unfold processExecutionFinished. cbv zeta. pushed.
  destruct Ha as (He & Hd & Hs & Hm & Hc & Hcalls & Ht). repeat split; assumption.
Qed.

Lemma coherent_processSoqlQuery (a : LogAnalysis) (parts : list string) (t : number) :
  coherent a -> coherent (processSoqlQuery a parts t).
Proof.
  intros Ha. unfold processSoqlQuery. cbv zeta. pushed.
  destruct Ha as (He & Hd & Hs & Hm & Hc & Hcalls & Ht).
  rewrite Nat.add_1_r, incremented_S, <- Hs. repeat split; assumption.
Qed.

Lemma coherent_processDmlOperation (a : LogAnalysis) (parts : list string) (t : number) :
  coherent a -> coherent (processDmlOperation a parts t).
Proof.
  intros Ha. unfold processDmlOperation. cbv zeta. pushed.
  destruct Ha as (He & Hd & Hs & Hm & Hc & Hcalls & Ht).
  rewrite Nat.add_1_r, incremented_S, <- Hm. repeat split; assumption.
Qed.

Lemma coherent_processUserDebug (a a' : LogAnalysis) (lines parts : list string)
      (index index' : nat) (t : number) (stamp : string) :
  processUserDebug a lines index parts t stamp = Normal (a', index') ->
  coherent a -> coherent a'.
Proof.
  unfold processUserDebug. destruct (nth_error parts 2); [|discriminate].
  destruct (absorbLines _ _ _). intros [= <- _] Ha. pushed.
  destruct Ha as (He & Hd & Hs & Hm & Hc & Hcalls & Ht).
  rewrite Hd. repeat split; assumption.
Qed.

Lemma coherent_processHeapAllocation (a : LogAnalysis) (line : string) :
  coherent a -> coherent (processHeapAllocation a line).
Proof.
  intros Ha. unfold processHeapAllocation.
  destruct (match_ _ _); [|exact Ha]. cbv zeta.
  destruct (gt _ _); [|exact Ha]. apply coherent_summary; [reflexivity..|exact Ha].
Qed.

Lemma coherent_processException (a : LogAnalysis) (parts lines : list string)
      (t : number) (index : nat) :
  coherent a -> coherent (processException a parts t lines index).
Proof.
  intros Ha. unfold processException. cbv zeta.
  destruct (match match_ _ _ with Some _ => _ | None => _ end) as [lineNumber column].
  pushed. destruct Ha as (He & Hd & Hs & Hm & Hc & Hcalls & Ht).
  rewrite He. repeat split; assumption.
Qed.

Lemma coherent_processCodeCoverage (a : LogAnalysis) (parts : list string) :
  coherent a -> coherent (processCodeCoverage a parts).
Proof.
  intros (He & Hd & Hs & Hm & Hc & Hcalls & Ht).
  unfold processCodeCoverage, coherent, countLabel, hasCoverage in *. cbv zeta. fields.
  repeat split; try assumption. apply implb_true_r.
Qed.

Lemma coherent_processEnd (label : string) (a : LogAnalysis) (parts : list string)
      (t : number) :
  In label ["SOQL Query Completed"; "DML Operation Completed"] ->
  coherent a -> coherent (processEnd label a parts t).
Proof.
  intros Hlabel Ha. unfold processEnd. destruct (match_ _ _); [|exact Ha]. cbv zeta.
  apply coherent_push; [simpl in *; tauto|].
  apply coherent_summary; [reflexivity..|exact Ha].
Qed.

Lemma loop_coherent (fuel : nat) (lines : list string) (st st' : LoopState) :
  coherent (analysis st) -> loop fuel lines st = Some st' -> coherent (analysis st').
Proof.
  apply loop_keeps.
  - apply coherent_processContinuedDebugLine.
  - intros a. apply coherent_push. simpl; tauto.
  - apply coherent_processExecutionFinished.
  - apply coherent_processSoqlQuery.
  - apply coherent_processDmlOperation.
  - intros a ? ? ? ? ? a' ?. apply coherent_processUserDebug.
  - apply coherent_processHeapAllocation.
  - intros a parts t ? ?. apply coherent_processException.
  - intros a label t d Hlabel. apply coherent_push. simpl in *; tauto.
  - intros a g Ha. exact Ha.
  - apply coherent_processCodeCoverage.
  - apply coherent_processEnd.
Qed.

Lemma coherent_finalizeAnalysis (a : LogAnalysis) (m : LimitMap) :
  coherent a -> coherent (finalizeAnalysis a m).
Proof. intros Ha. exact Ha. Qed.

Lemma analyzeApexLog_coherent (log : string) :
  exists a, analyzeApexLog log = Some a /\ coherent a /\
            numDatabaseCalls (summary a)
              = add (numSoqlQueries (summary a)) (numDmlStatements (summary a)).
Proof.
  destruct (Totality.runLoop_returns log) as [st Hst].
  exists (finalizeAnalysis (analysis st) (limitMap st)). split; [|split].
  - unfold analyzeApexLog. rewrite Hst. reflexivity.
  - apply coherent_finalizeAnalysis. unfold runLoop in Hst.
    eapply loop_coherent; [|exact Hst].
    repeat split; reflexivity.
  - reflexivity.
Qed.

(** X14: in the analysis of every log, the errors and the entries of the
    timeline labelled ['Error'] are as many, in the same order, and the
    details of each such entry are the message of its error. *)
Theorem errors_match_error_entries (log : string) :
  exists a, analyzeApexLog log = Some a /\
            map (fun e => Some (errorMessage e)) (errors a)
              = map details (filter (hasLabel "Error") (timeline a)).
Proof.
  destruct (analyzeApexLog_coherent log) as (a & Ha & (H & _) & _).
  exists a. split; assumption.
Qed.

(** X15: in the analysis of every log, the timeline has as many entries
    labelled ['Debug Log'] as there are debug statements. *)
Theorem debug_entries_match_debug_statements (log : string) :
  exists a, analyzeApexLog log = Some a /\
            countLabel "Debug Log" a = List.length (debugLines a).
Proof.
  destruct (analyzeApexLog_coherent log) as (a & Ha & (_ & H & _) & _).
  exists a. split; assumption.
Qed.

(** X16: in the analysis of every log, the counter of SOQL queries is
    zero incremented once for each entry of the timeline labelled
    ['SOQL Query'], the counter of DML statements is so for the entries
    labelled ['DML Operation'], and the counter of database calls is the sum
    of the two. *)
Theorem counters_match_timeline (log : string) :
  exists a, analyzeApexLog log = Some a /\
            numSoqlQueries (summary a) = incremented (countLabel "SOQL Query" a) /\
            numDmlStatements (summary a) = incremented (countLabel "DML Operation" a) /\
            numDatabaseCalls (summary a)
              = add (numSoqlQueries (summary a)) (numDmlStatements (summary a)).
Proof.
  destruct (analyzeApexLog_coherent log) as (a & Ha & (_ & _ & Hs & Hd & _) & Hcalls).
  exists a. repeat split; assumption.
Qed.

(** X17: in the analysis of every log, a coverage summary is present only
    if the flag [hasCoverageInfo] is set. *)
Theorem coverage_summary_implies_flag (log : string) :
  exists a, analyzeApexLog log = Some a /\
            implb (hasCoverage a) (hasCoverageInfo a) = true.
Proof.
  destruct (analyzeApexLog_coherent log) as (a & Ha & (_ & _ & _ & _ & H & _) & _).
  exists a. split; assumption.
Qed.

(** X18: the analysis of a log never has method calls: the list stays
    empty, whatever the log. *)
Theorem method_calls_stay_empty (log : string) :
  exists a, analyzeApexLog log = Some a /\ methodCalls a = [].
Proof.
  destruct (analyzeApexLog_coherent log) as (a & Ha & (_ & _ & _ & _ & _ & H & _) & _).
  exists a. split; assumption.
Qed.

(** X19: in the analysis of every log, the total time of the summary and
    the total execution time of the analysis are the same number. *)
Theorem total_times_agree (log : string) :
  exists a, analyzeApexLog log = Some a /\
            totalTimeMs (summary a) = totalExecutionTimeMs a.
Proof.
  destruct (analyzeApexLog_coherent log) as (a & Ha & (_ & _ & _ & _ & _ & _ & H) & _).
  exists a. split; assumption.
Qed.


(** ** A log without events *)

Lemma iteration_ignored (lines : list string) (st : LoopState) :
  lastDebugLineIndex st = (-1)%Z ->
  isIgnored (nth (i st) lines EmptyString) = true ->
  iteration lines st = st.
Proof.
  intros Hclosed Hignored. unfold iteration.
  destruct (String.eqb (trim _) EmptyString) eqn:Hblank; [reflexivity|].
  unfold isIgnored in Hignored. rewrite Hblank in Hignored. cbn [orb] in Hignored.
  unfold tryBlock, isPartOfPreviousDebugLine. rewrite Hclosed. cbn [Z.leb Z.compare andb].
  cbv zeta. destruct (_ <? 2)%nat; [reflexivity|]. cbn [orb] in Hignored.
  destruct (classify _); [discriminate Hignored | reflexivity].
Qed.

Lemma loop_ignored (lines : list string) :
  Forall (fun line => isIgnored line = true) lines ->
  forall (fuel : nat) (st : LoopState),
    lastDebugLineIndex st = (-1)%Z ->
    List.length lines - i st < fuel ->
    exists st', loop fuel lines st = Some st' /\
                analysis st' = analysis st /\ limitMap st' = limitMap st.
Proof.
  intros Hignored. induction fuel as [|fuel IH]; intros st Hclosed Hfuel; [lia|].
  cbn [loop]. destruct (Nat.ltb_spec (i st) (List.length lines)) as [Hin|_].
  - rewrite (iteration_ignored lines st Hclosed).
    + destruct (IH (increment st)) as (st' & Hloop & Ha & Hm).
      * exact Hclosed.
      * cbn [increment i]. lia.
      * exists st'. repeat split; assumption.
    + apply (proj1 (Forall_forall _ _) Hignored). apply nth_In, Hin.
  - exists st. repeat split.
Qed.

(** X20: a log in which every line is blank, or has fewer than two fields,
    or has an event tag that no rule recognizes, gives the analysis that
    [initializeAnalysis] makes: all counters zero, all lists empty, no
    coverage. *)
Theorem log_without_events_gives_initial_analysis (log : string) :
  Forall (fun line => isIgnored line = true) (split newline log) ->
  analyzeApexLog log = Some initializeAnalysis.
Proof.
  intros Hignored. unfold analyzeApexLog, runLoop.
  destruct (loop_ignored _ Hignored (S (List.length (split newline log))) initialState)
    as (st & -> & -> & ->).
  - reflexivity.
  - cbn [initialState i]. lia.
  - reflexivity.
Qed.

Lemma log_without_events_gives_initial_analysis_witness :
  analyzeApexLog ("  " ++ NL ++ "no separator" ++ NL ++ "09:00:00.1|VARIABLE_SCOPE_BEGIN|[1]")
    = Some initializeAnalysis.
Proof.
  apply (log_without_events_gives_initial_analysis
           ("  " ++ NL ++ "no separator" ++ NL ++ "09:00:00.1|VARIABLE_SCOPE_BEGIN|[1]")).
  apply Forall_forall, forallb_forall. vm_compute. reflexivity.
Defined.

(** ** The stack trace of an error *)

Lemma join_snoc (done : list string) (x : string) :
  done <> [] -> join NL (done ++ [x]) = join NL done ++ NL ++ x.
Proof.
  induction done as [|d done IH]; [contradiction|]. intros _.
  destruct done as [|d' done]; [reflexivity|].
  change (join NL ((d :: d' :: done) ++ [x]))
    with (d ++ NL ++ join NL ((d' :: done) ++ [x])).
  rewrite IH by discriminate.
  change (join NL (d :: d' :: done)) with (d ++ NL ++ join NL (d' :: done)).
  rewrite !append_assoc. reflexivity.
Qed.

Lemma join_empty (done : list string) :
  Forall (fun d => d <> EmptyString) done ->
  String.eqb (join NL done) EmptyString = match done with [] => true | _ :: _ => false end.
Proof.
  intros H. destruct H as [|d done Hd _]; [reflexivity|].
  apply String.eqb_neq. destruct done; cbn [join].
  - exact Hd.
  - destruct d; [contradiction|discriminate].
Qed.

Lemma collectStackTrace_traceLines (rest : list string) :
  forall (j currentIndex : nat) (done : list string),
    j + List.length rest <= currentIndex + 30 ->
    Forall (fun d => d <> EmptyString) done ->
    collectStackTrace rest j currentIndex (join NL done)
      = join NL (done ++ traceLines rest).
Proof.
  induction rest as [|nextLine rest IH]; intros j currentIndex done Hbound Hdone.
  - unfold traceLines. cbn. rewrite app_nil_r. reflexivity.
  - cbn [collectStackTrace List.length] in *.
    destruct (Nat.ltb_spec j (currentIndex + 30)) as [_|Hout]; [|lia].
    unfold traceLines. cbn [upToHeader].
    destruct (test eventHeader nextLine); [cbn; rewrite app_nil_r; reflexivity|].
    cbn [filter].
    destruct (String.eqb_spec (trim nextLine) EmptyString) as [Hblank|Hline]; cbn [negb].
    + apply IH; [lia | exact Hdone].
    + cbn [map].
      change (done ++ trim nextLine :: map trim (filter _ (upToHeader rest)))%list
        with (done ++ [trim nextLine] ++ traceLines rest)%list.
      rewrite app_assoc, <- (IH (S j) currentIndex (done ++ [trim nextLine])%list).
      * f_equal. rewrite (join_empty done Hdone). destruct done as [|d done].
        -- reflexivity.
        -- rewrite join_snoc by discriminate. apply append_assoc.
      * lia.
      * apply Forall_app. split; [exact Hdone|]. constructor; [exact Hline|constructor].
Qed.

(** X21: the error [processException] records has as its stack trace the
    lines among the 29 that follow the event line, up to the first event
    header, that are not blank, each trimmed, joined by newlines; when there
    is no such line the error has no stack trace. *)
Theorem stack_trace_is_trimmed_lines_up_to_header (a : LogAnalysis)
        (parts lines : list string) (relativeTimeMs : number) (currentIndex : nat) :
  let trace := join NL (traceLines (firstn 29 (skipn (currentIndex + 1) lines))) in
  map stackTrace (errors (processException a parts relativeTimeMs lines currentIndex))
    = (map stackTrace (errors a) ++
       [if String.eqb trace EmptyString then None else Some trace])%list.
Proof.
  cbv zeta. unfold processException.
  destruct (match match_ _ _ with Some _ => _ | None => _ end) as [lineNumber column].
  unfold pushTimeline. cbn [errors setErrors setTimeline]. rewrite map_app.
  cbn [map stackTrace]. rewrite collectStackTrace_window.
  replace (currentIndex + 30 - (currentIndex + 1)) with 29 by lia.
  change EmptyString with (join NL []) at 1 3.
  rewrite collectStackTrace_traceLines; [reflexivity| |constructor].
  pose proof (firstn_le_length 29 (skipn (currentIndex + 1) lines)). lia.
Qed.

(** ** The order of the limits *)

Lemma round_positive (s : bool) (m : positive) (e : Z) :
  gt (binary_round prec emax s m e) zero = true -> s = false.
Proof.
  unfold binary_round, binary_round_aux.
  destruct (shl_align _ _ _) as [mz ez].
  destruct (shr_fexp _ _ _ _ _) as [mrs e'].
  destruct (shr_fexp _ _ _ _ _) as [mrs' e''].
  destruct s; [|reflexivity].
  destruct (shr_m mrs'); try discriminate.
  destruct (_ <=? _)%Z; discriminate.
Qed.

Lemma normalize_positive (v e : Z) :
  gt (binary_normalize prec emax v e false) zero = true -> (0 < v)%Z.
Proof.
  destruct v as [|p|p]; cbn [binary_normalize].
  - discriminate.
  - lia.
  - intros H. apply round_positive in H. discriminate H.
Qed.

Lemma sub_antisymmetric (x y : number) :
  gt (sub x y) zero = true -> gt (sub y x) zero = false.
Proof.
  unfold sub.
  destruct x as [sx|sx| |sx mx ex], y as [sy|sy| |sy my ey];
    try (destruct sx); try (destruct sy); try discriminate; try reflexivity.
  all: cbn [SFsub]; intros H; apply normalize_positive in H;
    rewrite (Z.min_comm ey ex);
    match goal with
    | |- gt (binary_normalize _ _ ?v _ _) zero = false =>
        destruct (gt (binary_normalize prec emax v (Z.min ex ey) false) zero) eqn:H';
          [apply normalize_positive in H'; lia | reflexivity]
    end.
Qed.

Lemma insertLimit_descending (x : LimitUsage) (l : list LimitUsage) :
  descending l -> descending (insertLimit x l).
Proof.
  induction l as [|y rest IH]; intros Hl; [repeat split|].
  cbn [insertLimit]. destruct (sortsAfter x y) eqn:Hxy.
  - destruct Hl as [Hhead Hrest]. specialize (IH Hrest).
    split; [|exact IH].
    destruct rest as [|z rest]; cbn [insertLimit].
    + apply sub_antisymmetric, Hxy.
    + destruct (sortsAfter x z); [exact Hhead|].
      apply sub_antisymmetric, Hxy.
  - split; [exact Hxy | exact Hl].
Qed.

Lemma sortLimits_descending (l : list LimitUsage) : descending (sortLimits l).
Proof.
  induction l as [|x l IH]; [exact I|]. apply insertLimit_descending, IH.
Qed.

(** X22: in the analysis of every log, the limits are in descending order
    of percentage (no entry is followed by one on which the comparator of the
    sort is positive) whenever no percentage is NaN, the case in which the
    order [Array.prototype.sort] gives is fixed by the language. *)
Theorem limits_are_in_descending_order (log : string) :
  exists a, analyzeApexLog log = Some a /\
            (Forall (fun entry => isNaN (percentage entry) = false) (limits a) ->
             descending (limits a)).
Proof.
  destruct (Totality.runLoop_returns log) as [st Hst].
  exists (finalizeAnalysis (analysis st) (limitMap st)). split.
  - unfold analyzeApexLog. rewrite Hst. reflexivity.
  - intros _. apply sortLimits_descending.
Qed.

(** ** The exception the loop swallows *)

(** X24: the body of the [try] block throws on one kind of line only, a
    user-debug line with exactly two fields; the analysis is then left as
    it was before the line. *)
Theorem only_two_field_user_debug_throws (lines : list string) (st : LoopState)
        (line : string) (e : error) :
  snd (tryBlock lines st line) = Throw e ->
  analysis (fst (tryBlock lines st line)) = analysis st /\
  List.length (split "|" line) = 2 /\
  classify (nth 1 (split "|" line) EmptyString) = Some UserDebug.
Proof.
  unfold tryBlock. cbv zeta.
  destruct (isPartOfPreviousDebugLine _ _); [discriminate|].
  destruct (Nat.ltb_spec (List.length (split "|" line)) 2) as [|Hlen]; [discriminate|].
  destruct (classify _) as [[]|]; try discriminate.
  - unfold processUserDebug.
    destruct (nth_error (split "|" line) 2) eqn:Hnth.
    + destruct (absorbLines _ _ _). discriminate.
    + intros _. cbn [fst analysis]. apply nth_error_None in Hnth.
      repeat split. lia.
  - destruct (processCumulativeLimits _ _ _ _). discriminate.
Qed.

Lemma only_two_field_user_debug_throws_witness :
  analysis (fst (tryBlock ["09:00:00.1|USER_DEBUG"] initialState "09:00:00.1|USER_DEBUG"))
    = analysis initialState.
Proof.
  apply (only_two_field_user_debug_throws
           ["09:00:00.1|USER_DEBUG"] initialState "09:00:00.1|USER_DEBUG"
           (TypeError "Cannot read properties of undefined (reading 'match')")).
  reflexivity.
Defined.


(** ** Iterations only append *)

Lemma extendsList_refl {A : Type} (l : list A) : extendsList l l.
Proof. exists []. symmetry. apply app_nil_r. Qed.

Lemma extendsList_trans {A : Type} (l1 l2 l3 : list A) :
  extendsList l1 l2 -> extendsList l2 l3 -> extendsList l1 l3.
Proof. intros [m1 ->] [m2 ->]. exists (m1 ++ m2)%list. symmetry. apply app_assoc. Qed.

Lemma extendsList_snoc {A : Type} (l1 l2 : list A) (x : A) :
  extendsList l1 l2 -> extendsList l1 (l2 ++ [x]).
Proof. intros H. apply (extendsList_trans _ _ _ H). exists [x]. reflexivity. Qed.

Lemma map_updateFirst {A B : Type} (g : A -> B) (p : A -> bool) (f : A -> A) (l : list A) :
  (forall x, g (f x) = g x) -> map g (updateFirst p f l) = map g l.
Proof.
  intros Hf. induction l as [|x l IH]; cbn [updateFirst map]; [reflexivity|].
  destruct (p x); cbn [map]; [rewrite Hf | rewrite IH]; reflexivity.
Qed.

Lemma map_updateLast {A B : Type} (g : A -> B) (p : A -> bool) (f : A -> A) (l : list A) :
  (forall x, g (f x) = g x) -> map g (updateLast p f l) = map g l.
Proof.
  intros Hf. unfold updateLast.
  rewrite map_rev, map_updateFirst, <- map_rev, rev_involutive by exact Hf. reflexivity.
Qed.

Ltac extended :=
  unfold extends, pushTimeline in *; fields;
  rewrite ?map_app; cbn [map];
  repeat match goal with
         | H : _ /\ _ |- _ => destruct H
         | |- _ /\ _ => split
         end;
  try assumption; try (apply extendsList_snoc; assumption).

Lemma extends_refl (a : LogAnalysis) : extends a a.
Proof. repeat split; apply extendsList_refl. Qed.

Lemma extends_processContinuedDebugLine (a0 a : LogAnalysis) (line : string) :
  extends a0 a -> extends a0 (processContinuedDebugLine a line).
Proof.
  intros Ha. unfold processContinuedDebugLine.
  destruct (rev (debugLines a)) as [|lastDebug before] eqn:Hrev; [exact Ha|].
  cbv zeta. unfold extends in *. fields.
  rewrite map_updateLast by reflexivity.
  assert (Hplaces : map place (rev (mkDebugLine (lineNumber lastDebug)
                                     (message lastDebug ++ NL ++ stripPrefix "DEBUG|" line)
                                     (timestamp lastDebug) :: before))
                    = map place (debugLines a)).
  { rewrite <- (rev_involutive (debugLines a)), Hrev. cbn [rev].
    rewrite !map_app. reflexivity. }
  rewrite Hplaces. exact Ha.
Qed.

Lemma extends_processUserDebug (a0 a a' : LogAnalysis) (lines parts : list string)
      (index index' : nat) (t : number) (stamp : string) :
  processUserDebug a lines index parts t stamp = Normal (a', index') ->
  extends a0 a -> extends a0 a'.
Proof.
  unfold processUserDebug. destruct (nth_error parts 2); [|discriminate].
  destruct (absorbLines _ _ _). intros [= <- _] Ha. extended.
Qed.

Lemma extends_processException (a0 a : LogAnalysis) (parts lines : list string)
      (t : number) (index : nat) :
  extends a0 a -> extends a0 (processException a parts t lines index).
Proof.
  intros Ha. unfold processException. cbv zeta.
  destruct (match match_ _ _ with Some _ => _ | None => _ end) as [lineNumber column].
  extended.
Qed.

Lemma extends_processEnd (label : string) (a0 a : LogAnalysis) (parts : list string)
      (t : number) :
  extends a0 a -> extends a0 (processEnd label a parts t).
Proof.
  intros Ha. unfold processEnd. destruct (match_ _ _); [|exact Ha]. cbv zeta. extended.
Qed.

(** X23: an iteration of the loop of [analyzeApexLog] only appends: the
    entries of the timeline keep their labels, their times and their order,
    the errors stay as they were recorded, the debug statements keep their
    line numbers and timestamps, the raw cumulative records stay, and what
    the iteration adds comes after them. *)
Theorem iteration_only_appends (lines : list string) (st : LoopState) :
  extends (analysis st) (analysis (iteration lines st)).
Proof.
  apply (iteration_keeps (extends (analysis st))); try apply extends_refl.
  - apply extends_processContinuedDebugLine.
  - intros a Ha. unfold processExecutionStarted. extended.
  - intros a s e Ha. unfold processExecutionFinished. cbv zeta. extended.
  - intros a parts t Ha. unfold processSoqlQuery. cbv zeta. extended.
  - intros a parts t Ha. unfold processDmlOperation. cbv zeta. extended.
  - intros a ? ? ? ? ? a' ?. apply extends_processUserDebug.
  - intros a line Ha. unfold processHeapAllocation.
    destruct (match_ _ _); [|exact Ha]. cbv zeta. destruct (gt _ _); exact Ha.
  - intros a parts t ? ?. apply extends_processException.
  - intros a label t d _ Ha. extended.
  - intros a g Ha. extended.
  - intros a parts Ha. exact Ha.
  - intros label a parts t _. apply extends_processEnd.
Qed.

End RecordProperties.
